(** * Uniswap-V2 router decoders: a shallow embedding

    This development embeds [src/components/decoder/uniswap.tsx] (the three
    Uniswap-V2 router decoders of the transaction viewer) and settles the
    properties listed in the specification against it.

    Layout:
    - [Js]       : exceptions and state threading, as the TypeScript code has them;
    - [Hex]      : hex strings and byte strings;
    - [Keccak]   : Keccak-256 (the hash behind [ethers.utils.keccak256]);
    - [Ethers]   : the functions of the [ethers] library the decoders call;
    - [Types]    : the trace model and decoder state of [./types];
    - one module per decoder class, with the names of the source;
    - [Traces]   : concrete call trees of mainnet shape;
    - [Spec]     : the notions the properties are stated with;
    - the theorems, each claim of the specification under its number.

    Strings are JavaScript strings restricted to ASCII, on which the order
    [<] of JavaScript (by UTF-16 code unit) is the order of [String.ltb]
    (by byte). *)

From Stdlib Require Import ZArith NArith List String Ascii Lia Bool DecimalString.
From Stdlib.Strings Require Import Byte.
From stdpp Require Import gmap strings.
Import ListNotations.

Set Default Proof Using "Type".

(* ===================================================================== *)
(** * Exceptions and state *)
(* ===================================================================== *)

Module Js.

(** The exceptions a decoder can raise.  [DecodeError] is the ABI codec's
    failure; [TypeError] is JavaScript's error for reading a property of
    [undefined] or [null]; [ArgumentError] is raised by [ethers] on an
    argument it rejects (an invalid address, an invalid number). *)
Inductive Error : Type :=
| DecodeError
| TypeError
| ArgumentError.

(** A computation that returns or throws. *)
Inductive Exc (A : Type) : Type :=
| Ok (a : A)
| Throw (e : Error).
Arguments Ok {A} a.
Arguments Throw {A} e.

Definition bind {A B} (m : Exc A) (k : A -> Exc B) : Exc B :=
  match m with
  | Ok a => k a
  | Throw e => Throw e
  end.

(** Reading a property of a value that may be [undefined]. *)
Definition defined {A} (o : option A) : Exc A :=
  match o with
  | Some a => Ok a
  | None => Throw TypeError
  end.

(** A method that mutates a state of type [S] in place.  The state is
    returned on both outcomes: what was written before a [throw] stays
    written. *)
Definition M (S A : Type) : Type := S -> Exc A * S.

Definition ret {S A} (a : A) : M S A := fun s => (Ok a, s).
Definition throw {S A} (e : Error) : M S A := fun s => (Throw e, s).
Definition lift {S A} (m : Exc A) : M S A := fun s => (m, s).
Definition bindM {S A B} (m : M S A) (k : A -> M S B) : M S B :=
  fun s =>
    match m s with
    | (Ok a, s') => k a s'
    | (Throw e, s') => (Throw e, s')
    end.

(** [forEach]: run [f] on every element, left to right. *)
Fixpoint forEach {S A} (f : A -> M S unit) (l : list A) : M S unit :=
  match l with
  | [] => ret tt
  | x :: r => bindM (f x) (fun _ => forEach f r)
  end.

End Js.
Export Js.

Declare Scope exc_scope.
Delimit Scope exc_scope with exc.
Notation "x <- m ;; k" := (Js.bind m (fun x => k))
  (at level 100, m at next level, right associativity) : exc_scope.

Declare Scope st_scope.
Delimit Scope st_scope with st.
Notation "x <- m ;; k" := (Js.bindM m (fun x => k))
  (at level 100, m at next level, right associativity) : st_scope.
Notation "m ;;; k" := (Js.bindM m (fun _ => k))
  (at level 100, right associativity) : st_scope.

(* ===================================================================== *)
(** * Hex strings and byte strings *)
(* ===================================================================== *)

Module Hex.

Definition byte_of_N (n : N) : byte :=
  match Byte.of_N (n mod 256) with
  | Some b => b
  | None => x00
  end.

Definition hexchars : list ascii := list_ascii_of_string "0123456789abcdef".

Definition hexdigit (n : N) : ascii := nth (N.to_nat n) hexchars "0"%char.

(** The value of a hexadecimal digit, in either case. *)
Definition hexval (c : ascii) : option N :=
  let n := N_of_ascii c in
  if ((48 <=? n) && (n <=? 57))%N then Some (n - 48)%N
  else if ((97 <=? n) && (n <=? 102))%N then Some (n - 87)%N
  else if ((65 <=? n) && (n <=? 70))%N then Some (n - 55)%N
  else None.

(** [String.prototype.toLowerCase] and [toUpperCase] on ASCII text. *)
Definition lower_char (c : ascii) : ascii :=
  let n := N_of_ascii c in
  if ((65 <=? n) && (n <=? 90))%N then ascii_of_N (n + 32) else c.
Definition upper_char (c : ascii) : ascii :=
  let n := N_of_ascii c in
  if ((97 <=? n) && (n <=? 122))%N then ascii_of_N (n - 32) else c.

Fixpoint map_string (f : ascii -> ascii) (s : string) : string :=
  match s with
  | EmptyString => EmptyString
  | String c r => String (f c) (map_string f r)
  end.

Definition toLowerCase : string -> string := map_string lower_char.

(** Lower-case hex text of a byte string, without prefix. *)
Definition hex_of_bytes (bs : list byte) : string :=
  string_of_list_ascii
    (flat_map (fun b => let n := Byte.to_N b in
                        [hexdigit (n / 16); hexdigit (n mod 16)]) bs).

(** [ethers.utils.hexlify] of a byte array. *)
Definition hexlify (bs : list byte) : string := "0x" +:+ hex_of_bytes bs.

(** Pairs of hex digits to bytes; [None] on a non-digit or an odd count. *)
Fixpoint bytes_of_hex (cs : list ascii) : option (list byte) :=
  match cs with
  | [] => Some []
  | h :: l :: r =>
      match hexval h, hexval l, bytes_of_hex r with
      | Some a, Some b, Some bs => Some (byte_of_N (16 * a + b) :: bs)
      | _, _, _ => None
      end
  | _ => None
  end.

(** [ethers.utils.arrayify] of a string: a [0x]-prefixed, even-length hex
    string becomes its bytes; anything else is rejected. *)
Definition arrayify (s : string) : Exc (list byte) :=
  match s with
  | String "0" (String "x" r) =>
      match bytes_of_hex (list_ascii_of_string r) with
      | Some bs => Ok bs
      | None => Throw ArgumentError
      end
  | _ => Throw ArgumentError
  end.

(** Big-endian unsigned value of a byte string. *)
Definition be_value (bs : list byte) : Z :=
  fold_left (fun acc b => (256 * acc + Z.of_N (Byte.to_N b))%Z) bs 0%Z.

(** The low [n] bytes of [v], big-endian. *)
Definition be_bytes (n : nat) (v : Z) : list byte :=
  map (fun i => byte_of_N (Z.to_N (Z.shiftr v (8 * Z.of_nat (n - 1 - i)))))
      (seq 0 n).

End Hex.

(* ===================================================================== *)
(** * Keccak-256 *)
(* ===================================================================== *)

(** [ethers.utils.keccak256] is the original Keccak with a 1088-bit rate and
    the [0x01] padding byte.  The permutation works on 25 lanes of 64 bits,
    lane [(x, y)] at index [x + 5 y]. *)
Module Keccak.
Local Open Scope N_scope.

Definition mask64 : N := 0xFFFFFFFFFFFFFFFF.

Definition rotl64 (x n : N) : N :=
  N.land (N.lor (N.shiftl x n) (N.shiftr x (64 - n))) mask64.

Definition not64 (x : N) : N := N.lxor x mask64.

Definition lane (st : list N) (x y : nat) : N :=
  nth (x mod 5 + 5 * (y mod 5))%nat st 0.

Definition coords : list (nat * nat) :=
  flat_map (fun y => map (fun x => (x, y)) (seq 0 5)) (seq 0 5).

Definition rho_offsets : list N :=
  [  0;  1; 62; 28; 27;
    36; 44;  6; 55; 20;
     3; 10; 43; 25; 39;
    41; 45; 15; 21;  8;
    18;  2; 61; 56; 14 ].

Definition round_constants : list N :=
  [ 0x0000000000000001; 0x0000000000008082; 0x800000000000808A;
    0x8000000080008000; 0x000000000000808B; 0x0000000080000001;
    0x8000000080008081; 0x8000000000008009; 0x000000000000008A;
    0x0000000000000088; 0x0000000080008009; 0x000000008000000A;
    0x000000008000808B; 0x800000000000008B; 0x8000000000008089;
    0x8000000000008003; 0x8000000000008002; 0x8000000000000080;
    0x000000000000800A; 0x800000008000000A; 0x8000000080008081;
    0x8000000000008080; 0x0000000080000001; 0x8000000080008008 ].

Definition theta (st : list N) : list N :=
  let c x := fold_left N.lxor (map (lane st x) (seq 0 5)) 0 in
  let d x := N.lxor (c (x + 4)%nat) (rotl64 (c (x + 1)%nat) 1) in
  map (fun '(x, y) => N.lxor (lane st x y) (d x)) coords.

(** rho and pi together: the lane that lands on [(X, Y)] comes from
    [(x, y)] with [y = X] and [2 x + 3 y = Y (mod 5)]. *)
Definition rho_pi (st : list N) : list N :=
  map (fun '(X, Y) =>
         let x := ((X + 3 * Y) mod 5)%nat in
         let y := X in
         rotl64 (lane st x y) (nth (x + 5 * y)%nat rho_offsets 0)) coords.

Definition chi (st : list N) : list N :=
  map (fun '(x, y) =>
         N.lxor (lane st x y)
                (N.land (not64 (lane st (x + 1) y)) (lane st (x + 2) y)))
      coords.

Definition iota (rc : N) (st : list N) : list N :=
  match st with
  | a :: rest => N.lxor a rc :: rest
  | [] => []
  end.

Definition keccak_round (st : list N) (rc : N) : list N :=
  iota rc (chi (rho_pi (theta st))).

Definition keccak_f (st : list N) : list N :=
  fold_left keccak_round round_constants st.

Definition rate : nat := 136.

Fixpoint le_value (bs : list N) : N :=
  match bs with
  | [] => 0
  | b :: r => b + 256 * le_value r
  end.

Definition le_bytes (n : nat) (x : N) : list N :=
  map (fun i => N.land (N.shiftr x (8 * N.of_nat i)) 0xFF) (seq 0 n).

(** At most [fuel] chunks of [n] elements. *)
Fixpoint chunks {A} (n fuel : nat) (l : list A) : list (list A) :=
  match fuel with
  | O => []
  | S f =>
      match l with
      | [] => []
      | _ => firstn n l :: chunks n f (skipn n l)
      end
  end.

Definition pad (msg : list N) : list N :=
  let q := (rate - length msg mod rate)%nat in
  if (q =? 1)%nat then msg ++ [0x81]
  else msg ++ [0x01] ++ repeat 0 (q - 2) ++ [0x80].

Definition absorb (st : list N) (block : list N) : list N :=
  let lanes := map le_value (chunks 8 17 block) in
  keccak_f (map (fun '(i, a) => N.lxor a (nth i lanes 0))
                (combine (seq 0 25) st)).

Definition keccak256_N (msg : list N) : list N :=
  let p := pad msg in
  let st := fold_left absorb (chunks rate (length p) p) (repeat 0 25) in
  firstn 32 (flat_map (le_bytes 8) st).

Definition keccak256 (msg : list byte) : list byte :=
  map Hex.byte_of_N (keccak256_N (map Byte.to_N msg)).

End Keccak.

(* ===================================================================== *)
(** * The functions of [ethers] that the decoders call *)
(* ===================================================================== *)

(** [ethers] is an external library.  Its functions are embedded from their
    documented behaviour, for the arguments the decoders pass; the
    known-answer lemmas at the end of the file check them against published
    selectors, checksummed addresses and deployed pair addresses. *)
Module Ethers.
Import Hex.

Definition toUtf8Bytes (s : string) : list byte :=
  map byte_of_ascii (list_ascii_of_string s).

(** [ethers.utils.id]: the hash of a text, as a hex string. *)
Definition id (text : string) : string :=
  hexlify (Keccak.keccak256 (toUtf8Bytes text)).

(** [address.substring(2)] *)
Definition drop_prefix (s : string) : string :=
  String.substring 2 (String.length s - 2) s.

Definition has_0x (s : string) : bool :=
  match s with
  | String "0" (String "x" _) => true
  | _ => false
  end.

Definition is_hex (s : string) : bool :=
  forallb (fun c => match hexval c with Some _ => true | None => false end)
          (list_ascii_of_string s).

(** The [i]-th hex digit of a hash. *)
Definition nibble (hashed : list byte) (i : nat) : N :=
  let b := Byte.to_N (nth (i / 2) hashed x00) in
  if Nat.even i then (b / 16)%N else (b mod 16)%N.

(** EIP-55: the letter at position [i] is upper-cased when the [i]-th hex
    digit of the hash of the lower-case text is 8 or more. *)
Definition checksum_chars (hashed : list byte) (chars : list ascii) : list ascii :=
  map (fun '(i, c) => if (8 <=? nibble hashed i)%N then upper_char c else c)
      (combine (seq 0 (length chars)) chars).

Definition getChecksumAddress (address : string) : string :=
  let chars := list_ascii_of_string (drop_prefix (toLowerCase address)) in
  let hashed := Keccak.keccak256 (map byte_of_ascii chars) in
  "0x" +:+ string_of_list_ascii (checksum_chars hashed chars).

Definition has_upper_hex (s : string) : bool :=
  existsb (fun c => let n := N_of_ascii c in (65 <=? n) && (n <=? 70))%N
          (list_ascii_of_string s).
Definition has_lower_hex (s : string) : bool :=
  existsb (fun c => let n := N_of_ascii c in (97 <=? n) && (n <=? 102))%N
          (list_ascii_of_string s).

(** [ethers.utils.getAddress]: 40 hex digits with or without [0x]; a
    mixed-case input must carry the right checksum.  (The ICAP form, which
    no trace carries, is rejected here.) *)
Definition getAddress (address : string) : Exc string :=
  let prefixed :=
    if (String.length address =? 42)%nat && has_0x address
    then Some address
    else if (String.length address =? 40)%nat then Some ("0x" +:+ address)
    else None in
  match prefixed with
  | Some a =>
      if is_hex (drop_prefix a) then
        let result := getChecksumAddress a in
        if has_upper_hex a && has_lower_hex a && negb (String.eqb result a)
        then Throw ArgumentError
        else Ok result
      else Throw ArgumentError
  | None => Throw ArgumentError
  end.

(** [ethers.utils.solidityKeccak256(['address', 'address'], [a, b])]: the
    packed encoding of an address is the bytes of its hex string. *)
Definition solidityKeccak256 (a b : string) : Exc string :=
  (ba <- arrayify a ;;
   bb <- arrayify b ;;
   Ok (hexlify (Keccak.keccak256 (ba ++ bb))))%exc.

(** [ethers.utils.getCreate2Address] *)
Definition getCreate2Address (from salt initCodeHash : string) : Exc string :=
  (s <- arrayify salt ;;
   h <- arrayify initCodeHash ;;
   if negb ((length s =? 32)%nat && (length h =? 32)%nat)
   then Throw ArgumentError
   else
     f <- getAddress from ;;
     fb <- arrayify f ;;
     getAddress (hexlify (skipn 12 (Keccak.keccak256 (xff :: fb ++ s ++ h)))))%exc.

(** [BigNumber.from] of return data: the big-endian value of a non-empty
    byte string; absent or empty data is rejected. *)
Definition BigNumber_from (data : option (list byte)) : Exc Z :=
  match data with
  | Some (b :: bs) => Ok (be_value (b :: bs))
  | _ => Throw ArgumentError
  end.

Fixpoint hex_value (acc : Z) (cs : list ascii) : option Z :=
  match cs with
  | [] => Some acc
  | c :: r =>
      match hexval c with
      | Some d => hex_value (16 * acc + Z.of_N d)%Z r
      | None => None
      end
  end.

(** [BigNumber.from] of a string holding hex digits: [0x] and at least one
    digit, in either case, with an optional sign. *)
Definition BigNumber_from_hex (s : option string) : Exc Z :=
  let digits (r : string) (sign : Z) : Exc Z :=
    match list_ascii_of_string r with
    | [] => Throw ArgumentError
    | cs => match hex_value 0 cs with
            | Some v => Ok (sign * v)%Z
            | None => Throw ArgumentError
            end
    end in
  match s with
  | Some (String "0" (String "x" r)) => digits r 1%Z
  | Some (String "0" (String "X" r)) => digits r 1%Z
  | Some (String "-" (String "0" (String "x" r))) => digits r (-1)%Z
  | Some (String "-" (String "0" (String "X" r))) => digits r (-1)%Z
  | _ => Throw ArgumentError
  end.

(** ** Fragments *)

Inductive ParamType : Type :=
| TUint (bits : N)
| TAddress
| TBool
| TBytes32
| TBytes
| TArray (elem : ParamType).

Fixpoint type_name (t : ParamType) : string :=
  match t with
  | TUint bits => "uint" +:+ NilZero.string_of_uint (N.to_uint bits)
  | TAddress => "address"
  | TBool => "bool"
  | TBytes32 => "bytes32"
  | TBytes => "bytes"
  | TArray e => type_name e +:+ "[]"
  end.

Definition Params : Type := list (string * ParamType).

(** What [FunctionFragment.from] makes of a signature string: the name, the
    declared inputs and the declared outputs ([uint] is [uint256]). *)
Record FunctionFragment : Type := {
  fn_name : string;
  fn_inputs : Params;
  fn_outputs : Params
}.

(** [fragment.format()]: the canonical signature, parameter names and
    [returns] clause stripped. *)
Definition format_sig (name : string) (inputs : list ParamType) : string :=
  name +:+ "(" +:+ String.concat "," (map type_name inputs) +:+ ")".

Definition format (f : FunctionFragment) : string :=
  format_sig (fn_name f) (map snd (fn_inputs f)).

Record EventFragment : Type := {
  ev_name : string;
  ev_inputs : list (string * ParamType * bool)   (* name, type, indexed *)
}.

Definition format_event (e : EventFragment) : string :=
  format_sig (ev_name e) (map (fun p => snd (fst p)) (ev_inputs e)).

(** ** ABI decoding *)

#[warnings="-register-all"]
Inductive Value : Type :=
| VUint (v : Z)
| VAddress (a : string)
| VBool (b : bool)
| VBytes (bs : list byte)
| VArray (vs : list Value).

(** A decoded [Result]: the values in declaration order, each under its
    parameter name. *)
Definition Result : Type := list (string * Value).

Fixpoint lookup_name (r : Result) (k : string) : option Value :=
  match r with
  | [] => None
  | (n, v) :: rest => if String.eqb n k then Some v else lookup_name rest k
  end.

(** [r[k]] read as a number, as an address, as an array. *)
Definition get_uint (r : Result) (k : string) : option Z :=
  match lookup_name r k with
  | Some (VUint v) => Some v
  | _ => None
  end.
Definition get_address (r : Result) (k : string) : option string :=
  match lookup_name r k with
  | Some (VAddress a) => Some a
  | _ => None
  end.
Definition get_array (r : Result) (k : string) : option (list Value) :=
  match lookup_name r k with
  | Some (VArray vs) => Some vs
  | _ => None
  end.

Definition as_uint (v : Value) : option Z :=
  match v with VUint z => Some z | _ => None end.
Definition as_address (v : Value) : option string :=
  match v with VAddress a => Some a | _ => None end.

(** The 32-byte slot at byte offset [off]; [None] when the data underflows it. *)
Definition slot (data : list byte) (off : nat) : option (list byte) :=
  let w := firstn 32 (skipn off data) in
  if (length w =? 32)%nat then Some w else None.

Definition decode_static (t : ParamType) (w : list byte) : option Value :=
  match t with
  | TUint bits => Some (VUint (be_value w mod 2 ^ Z.of_N bits))
  | TAddress =>
      if (be_value (firstn 12 w) =? 0)%Z then
        match getAddress (hexlify (skipn 12 w)) with
        | Ok a => Some (VAddress a)
        | Throw _ => None
        end
      else None
  | TBool => Some (VBool (negb (be_value w =? 0)%Z))
  | TBytes32 => Some (VBytes w)
  | TBytes => None
  | TArray _ => None
  end.

Fixpoint decode_slots (t : ParamType) (data : list byte) (off n : nat)
  : option (list Value) :=
  match n with
  | O => Some []
  | S m =>
      match slot data off with
      | Some w =>
          match decode_static t w, decode_slots t data (off + 32) m with
          | Some v, Some vs => Some (v :: vs)
          | _, _ => None
          end
      | None => None
      end
  end.

(** A dynamic array of static elements at byte offset [off] of the tail: a
    length slot, then one slot per element. *)
Definition decode_array (elem : ParamType) (data : list byte) (off : Z)
  : option Value :=
  if (off <=? Z.of_nat (length data))%Z then
    match slot data (Z.to_nat off) with
    | Some w =>
        let len := be_value w in
        if (off + 32 + 32 * len <=? Z.of_nat (length data))%Z then
          match decode_slots elem data (Z.to_nat off + 32) (Z.to_nat len) with
          | Some vs => Some (VArray vs)
          | None => None
          end
        else None
    | None => None
    end
  else None.

(** A dynamic byte string at byte offset [off] of the tail: a length slot,
    then the bytes. *)
Definition decode_bytes (data : list byte) (off : Z) : option Value :=
  if (off <=? Z.of_nat (length data))%Z then
    match slot data (Z.to_nat off) with
    | Some w =>
        let len := be_value w in
        if (off + 32 + len <=? Z.of_nat (length data))%Z
        then Some (VBytes (firstn (Z.to_nat len) (skipn (Z.to_nat off + 32) data)))
        else None
    | None => None
    end
  else None.

(** The [i]-th declared parameter: a static type is read in place in head
    slot [i]; a dynamic type stores there the offset of its tail. *)
Definition decode_param (data : list byte) (i : nat) (t : ParamType)
  : option Value :=
  match slot data (32 * i) with
  | Some w =>
      match t with
      | TArray elem => decode_array elem data (be_value w)
      | TBytes => decode_bytes data (be_value w)
      | _ => decode_static t w
      end
  | None => None
  end.

Fixpoint decode_params (data : list byte) (i : nat) (ps : Params)
  : option Result :=
  match ps with
  | [] => Some []
  | (name, t) :: rest =>
      match decode_param data i t, decode_params data (S i) rest with
      | Some v, Some r => Some ((name, v) :: r)
      | _, _ => None
      end
  end.

(** [defaultAbiCoder.decode(types, data)], after §4.1 of the specification:
    head/tail layout, [DecodeError] when the data underflows a slot or an
    offset is out of bounds.  ([ethers] reports a malformed value when it is
    read; here the decode fails as a whole, which is the contract the
    specification states.) *)
Definition decode (types : Params) (data : list byte) : Exc Result :=
  match decode_params data 0 types with
  | Some r => Ok r
  | None => Throw DecodeError
  end.

(** [Interface.parseLog] for an interface of the single event [e]: the
    first topic is the event's hash, the indexed parameters are decoded from
    the remaining topics and the others from the data. *)
Definition parseLog (e : EventFragment) (topics : list (list byte))
           (data : list byte) : Exc Result :=
  match topics with
  | t0 :: indexed_topics =>
      if String.eqb (hexlify t0) (id (format_event e)) then
        let indexed := List.filter (fun p => snd p) (ev_inputs e) in
        let plain := List.filter (fun p => negb (snd p)) (ev_inputs e) in
        (ri <- decode (map fst indexed) (concat indexed_topics) ;;
         rp <- decode (map fst plain) data ;;
         Ok (ri ++ rp))%exc
      else Throw ArgumentError
  | [] => Throw ArgumentError
  end.

End Ethers.

(* ===================================================================== *)
(** * The trace model and the decoder state *)
(* ===================================================================== *)

(** The decoders import their trace model and their state from [./types].
    The data model and the operations below follow sections 3 and 4.2 of
    the specification. *)
Module Types.
Import Hex Ethers.

(** An emitted event. *)
Record Log : Type := {
  log_address : string;
  log_topics : list (list byte);
  log_data : list byte
}.

(** A node of the call tree, as the decoders of the current interface see
    it.  [returndata], [logs] and [children] may be absent. *)
#[warnings="-register-all"]
Inductive DecoderInput : Type := mkDecoderInput {
  node_path : string;
  node_type : string;
  node_from : string;
  node_to : string;
  node_value : Z;
  calldata : list byte;
  returndata : option (list byte);
  logs : option (list Log);
  children : option (list DecoderInput)
}.

(** Modelled from the spec: the decoder state of section 3, a set of
    consumed paths and a set of addresses whose metadata is requested.  An
    [undefined] argument of [requestTokenMetadata] is recorded as such. *)
Record DecoderState : Type := {
  consumed : gset string;
  pendingMetadata : gset (option string)
}.

(** Modelled from the spec: [state.isConsumed(node)], membership of the
    node's path in [consumed]. *)
Definition isConsumed (state : DecoderState) (node : DecoderInput) : bool :=
  bool_decide (node_path node ∈ consumed state).

(** Modelled from the spec: [state.consume(node)] adds the node's path to
    [consumed]. *)
Definition consume (node : DecoderInput) : M DecoderState unit :=
  fun state =>
    (Ok tt, {| consumed := {[ node_path node ]} ∪ consumed state;
               pendingMetadata := pendingMetadata state |}).

(** Modelled from the spec: [state.requestTokenMetadata(token)] adds the
    address to the set of requested metadata. *)
Definition requestTokenMetadata (token : option string) : M DecoderState unit :=
  fun state =>
    (Ok tt, {| consumed := consumed state;
               pendingMetadata := {[ token ]} ∪ pendingMetadata state |}).

(** Modelled from the spec: [hasSelector(calldata, signature)], exact match
    of the first four bytes of the call data with the hash of the canonical
    signature (section 3). *)
Definition hasSelector (data : list byte) (f : FunctionFragment) : bool :=
  String.eqb (hexlify (firstn 4 data)) (String.substring 0 10 (id (format f))).

(** Modelled from the spec: [hasTopic(log, signature)], the first topic is
    the hash of the canonical event signature (section 4.1). *)
Definition hasTopic (log : Log) (e : EventFragment) : bool :=
  match log_topics log with
  | t0 :: _ => String.eqb (hexlify t0) (id (format_event e))
  | [] => false
  end.

(** Modelled from the spec: [Decoder.decodeFunctionWithFragment], step 2 of
    section 4.2: the declared inputs are decoded from the call data after
    the selector and, if return data is present, the declared outputs from
    the return data. *)
Definition decodeFunctionWithFragment (node : DecoderInput) (f : FunctionFragment)
  : Exc (Result * option Result) :=
  (inputs <- decode (fn_inputs f) (skipn 4 (calldata node)) ;;
   match returndata node with
   | None => Ok (inputs, None)
   | Some rd => outputs <- decode (fn_outputs f) rd ;; Ok (inputs, Some outputs)
   end)%exc.

(** The three helpers of [DecoderState] that consume a sub-call and what
    belongs to it.  The specification fixes neither the set of descendants
    they mark nor what they do with [undefined]; the decoders are embedded
    over any implementation of them. *)
Record ConsumeOps : Type := {
  consumeAll : option DecoderInput -> M DecoderState unit;
  consumeTransfer : option DecoderInput -> M DecoderState unit;
  consumeTransferFrom : option DecoderInput -> M DecoderState unit
}.

(** ** The earlier interface *)

(** The remove-liquidity decoder and the helper routines of the
    add-liquidity decoder are written against an earlier interface: a
    [TraceEntry] with hex-string [input] and [output], and a [DecodeState]
    whose [handled] object maps a path to [true]. *)
#[warnings="-register-all"]
Inductive TraceEntry : Type := mkTraceEntry {
  te_path : string;
  te_type : string;
  te_variant : string;
  te_from : string;
  te_to : string;
  te_input : string;
  te_output : option string;
  te_children : list TraceEntry
}.

Record DecodeState : Type := {
  handled : gmap string bool;
  requestedMetadata : gset (option string)
}.

(** [state.handled[path]], read as a condition. *)
Definition isHandled (state : DecodeState) (path : string) : bool :=
  match handled state !! path with
  | Some true => true
  | _ => false
  end.

(** [state.handled[path] = true] *)
Definition setHandled (path : string) : M DecodeState unit :=
  fun state =>
    (Ok tt, {| handled := <[ path := true ]> (handled state);
               requestedMetadata := requestedMetadata state |}).

(** Modelled from the spec: [decodeFunctionWithFragment] on a [TraceEntry],
    as above, with the hex strings turned into bytes first. *)
Definition decodeFunctionWithFragment_entry (node : TraceEntry) (f : FunctionFragment)
  : Exc (Result * option Result) :=
  (data <- arrayify (te_input node) ;;
   inputs <- decode (fn_inputs f) (skipn 4 data) ;;
   match te_output node with
   | None => Ok (inputs, None)
   | Some out =>
       rd <- arrayify out ;;
       outputs <- decode (fn_outputs f) rd ;;
       Ok (inputs, Some outputs)
   end)%exc.

(** The methods of the [Decoder] base class that the earlier interface
    calls.  The specification does not describe them; the routines are
    embedded over any implementation of them. *)
Record HandleOps : Type := {
  handleTransferFrom : option TraceEntry -> M DecodeState unit;
  handleTransfer : option TraceEntry -> M DecodeState unit;
  handleRecursively : option TraceEntry -> M DecodeState unit;
  requestTokenMetadata_entry : option string -> M DecodeState unit
}.

End Types.

(* ===================================================================== *)
(** * Plain objects read as tables *)
(* ===================================================================== *)

(** A read [table[key]] on a plain object finds the object's own
    properties and, for the keys below, the properties it inherits from
    [Object.prototype]; each of those is a function or an object, hence
    truthy. *)
Module PlainObject.

Definition inherited_keys : list string :=
  [ "constructor"; "hasOwnProperty"; "isPrototypeOf"; "propertyIsEnumerable";
    "toLocaleString"; "toString"; "valueOf"; "__proto__";
    "__defineGetter__"; "__defineSetter__";
    "__lookupGetter__"; "__lookupSetter__" ].

Definition inherited (key : string) : bool :=
  existsb (String.eqb key) inherited_keys.

End PlainObject.

(* ===================================================================== *)
(** * What a decoder hands to the renderer *)
(* ===================================================================== *)

(** [format] ends in [this.renderResult(title, color, keys, values)].  The
    values are elements built by [this.formatTokenAmount(opts, token,
    amount)] and by [<DataRenderer chain={opts.chain}
    preferredType={'address'} data={...} />]; they are kept as they are
    built, [opts] being passed on unchanged. *)
Module Rendering.

Inductive Cell : Type :=
| TokenAmount (token : option string) (amount : option Z)
| AddressData (data : option string).

Record Rendered : Type := {
  title : string;
  color : string;
  keys : list string;
  values : list Cell
}.

(** The value shown under [key], if any: the keys and the values are
    matched by position. *)
Fixpoint row (key : string) (ks : list string) (vs : list Cell) : option Cell :=
  match ks, vs with
  | k :: ks, v :: vs => if String.eqb k key then Some v else row key ks vs
  | _, _ => None
  end.

End Rendering.

(* ===================================================================== *)
(** * The swap decoder *)
(* ===================================================================== *)

(** [array[i]] for a JavaScript index: [undefined] below 0 and past the end. *)
Definition at_index {A} (l : list A) (i : Z) : option A :=
  if (i <? 0)%Z then None else nth_error l (Z.to_nat i).

Definition len {A} (l : list A) : Z := Z.of_nat (length l).

Definition u256 : Ethers.ParamType := Ethers.TUint 256.

(** [v.type === t] *)
Definition is_type (t : string) (v : Types.DecoderInput) : bool :=
  String.eqb (Types.node_type v) t.

Module UniswapV2RouterSwapDecoder.
Import Hex Ethers Types.

Record RouterInfo : Type := {
  factory : string;
  initcodeHash : string
}.

(** The table is read with [uniswapsByRouter[node.to]].  Its own keys are
    the two router addresses; the properties inherited from
    [Object.prototype] are not addresses and are left out. *)
Definition uniswapsByRouter : gmap string RouterInfo :=
  list_to_map
    [ ("0x7a250d5630B4cF539739dF2C5dAcb4c659F2488D",
       {| factory := "0x5C69bEe701ef814a2B6a3EDD4B1652CB9cc5aA6f";
          initcodeHash :=
            "0x96e8ac4277198ff8b6f785478aa9a39f403cb768dd02cbee326c3e7da348845f" |});
      ("0xd9e1cE17f2641f24aE83637ab66a2cca9C378B9F",
       {| factory := "0xC0AEe478e3658e2610c5F7A4A2E1777cE9e4f2Ac";
          initcodeHash :=
            "0xe18a34eb0e04b04f7a0ac29a6e80748dca96319b42c54d679cb821dca90c6303" |}) ].

(** ['tokens'] or ['eth'] *)
Inductive Asset : Type := tokens | eth.

Record SwapMetadata : Type := {
  exactIn : bool;
  input : Asset;
  output : Asset;
  fee : bool
}.

Definition amounts_out : Params := [("amounts", TArray u256)].

(** The two argument layouts of the nine signatures: with and without a
    leading amount. *)
Definition swap_inputs (first : list string) : Params :=
  map (fun n => (n, u256)) first
  ++ [("path", TArray TAddress); ("to", TAddress); ("deadline", u256)].

Definition swapExactTokensForTokens : FunctionFragment :=
  {| fn_name := "swapExactTokensForTokens";
     fn_inputs := swap_inputs ["amountIn"; "amountOutMin"];
     fn_outputs := amounts_out |}.

Definition swapTokensForExactTokens : FunctionFragment :=
  {| fn_name := "swapTokensForExactTokens";
     fn_inputs := swap_inputs ["amountOut"; "amountInMax"];
     fn_outputs := amounts_out |}.

Definition swapExactETHForTokens : FunctionFragment :=
  {| fn_name := "swapExactETHForTokens";
     fn_inputs := swap_inputs ["amountOutMin"];
     fn_outputs := amounts_out |}.

Definition swapTokensForExactETH : FunctionFragment :=
  {| fn_name := "swapTokensForExactETH";
     fn_inputs := swap_inputs ["amountOut"; "amountInMax"];
     fn_outputs := amounts_out |}.

Definition swapExactTokensForETH : FunctionFragment :=
  {| fn_name := "swapExactTokensForETH";
     fn_inputs := swap_inputs ["amountIn"; "amountOutMin"];
     fn_outputs := amounts_out |}.

Definition swapETHForExactTokens : FunctionFragment :=
  {| fn_name := "swapETHForExactTokens";
     fn_inputs := swap_inputs ["amountOut"];
     fn_outputs := amounts_out |}.

Definition swapExactTokensForTokensSupportingFeeOnTransferTokens : FunctionFragment :=
  {| fn_name := "swapExactTokensForTokensSupportingFeeOnTransferTokens";
     fn_inputs := swap_inputs ["amountIn"; "amountOutMin"];
     fn_outputs := [] |}.

Definition swapExactETHForTokensSupportingFeeOnTransferTokens : FunctionFragment :=
  {| fn_name := "swapExactETHForTokensSupportingFeeOnTransferTokens";
     fn_inputs := swap_inputs ["amountOutMin"];
     fn_outputs := [] |}.

Definition swapExactTokensForETHSupportingFeeOnTransferTokens : FunctionFragment :=
  {| fn_name := "swapExactTokensForETHSupportingFeeOnTransferTokens";
     fn_inputs := swap_inputs ["amountIn"; "amountOutMin"];
     fn_outputs := [] |}.

(** [this.functions], in the order of the source. *)
Definition functions : list (FunctionFragment * SwapMetadata) :=
  [ (swapExactTokensForTokens,
     {| exactIn := true; input := tokens; output := tokens; fee := false |});
    (swapTokensForExactTokens,
     {| exactIn := false; input := tokens; output := tokens; fee := false |});
    (swapExactETHForTokens,
     {| exactIn := true; input := eth; output := tokens; fee := false |});
    (swapTokensForExactETH,
     {| exactIn := false; input := tokens; output := eth; fee := false |});
    (swapExactTokensForETH,
     {| exactIn := true; input := tokens; output := eth; fee := false |});
    (swapETHForExactTokens,
     {| exactIn := false; input := eth; output := tokens; fee := false |});
    (swapExactTokensForTokensSupportingFeeOnTransferTokens,
     {| exactIn := true; input := tokens; output := tokens; fee := true |});
    (swapExactETHForTokensSupportingFeeOnTransferTokens,
     {| exactIn := true; input := eth; output := tokens; fee := true |});
    (swapExactTokensForETHSupportingFeeOnTransferTokens,
     {| exactIn := true; input := tokens; output := eth; fee := true |}) ].

(** The signatures passed to [hasSelector] and [hasTopic] as literals. *)
Definition swap_call : FunctionFragment :=
  {| fn_name := "swap";
     fn_inputs := [("", u256); ("", u256); ("", TAddress); ("", TBytes)];
     fn_outputs := [] |}.
Definition transfer_call : FunctionFragment :=
  {| fn_name := "transfer";
     fn_inputs := [("", TAddress); ("", u256)];
     fn_outputs := [] |}.
Definition balanceOf_call : FunctionFragment :=
  {| fn_name := "balanceOf"; fn_inputs := [("", TAddress)]; fn_outputs := [] |}.

Definition swapEventSelector : EventFragment :=
  {| ev_name := "Swap";
     ev_inputs :=
       [ ("sender", TAddress, true);
         ("amount0In", u256, false);
         ("amount1In", u256, false);
         ("amount0Out", u256, false);
         ("amount1Out", u256, false);
         ("to", TAddress, true) ] |}.

(** The [SwapAction] record of [./actions]; the four amounts are optional. *)
Record SwapAction : Type := {
  type : string;
  operator : string;
  recipient : option string;
  tokenIn : option string;
  tokenOut : option string;
  amountIn : option Z;
  amountInMax : option Z;
  amountOut : option Z;
  amountOutMin : option Z
}.

Definition set_amountIn (v : option Z) (r : SwapAction) : SwapAction :=
  {| type := type r; operator := operator r; recipient := recipient r;
     tokenIn := tokenIn r; tokenOut := tokenOut r;
     amountIn := v; amountInMax := amountInMax r;
     amountOut := amountOut r; amountOutMin := amountOutMin r |}.

Definition set_amountOut (v : option Z) (r : SwapAction) : SwapAction :=
  {| type := type r; operator := operator r; recipient := recipient r;
     tokenIn := tokenIn r; tokenOut := tokenOut r;
     amountIn := amountIn r; amountInMax := amountInMax r;
     amountOut := v; amountOutMin := amountOutMin r |}.

Definition name : string := "uniswap-v2-router-swap".

Definition getTokens (tokenA tokenB : string) : string * string :=
  if String.ltb tokenA tokenB then (tokenA, tokenB) else (tokenB, tokenA).

Definition computePairAddress (factory initcodeHash tokenA tokenB : string)
  : Exc string :=
  let '(token0, token1) := getTokens tokenA tokenB in
  (salt <- solidityKeccak256 token0 token1 ;;
   getCreate2Address factory salt initcodeHash)%exc.

(** [path[i]] as an address. *)
Definition path_at (path : list Value) (i : Z) : option string :=
  match at_index path i with
  | Some v => as_address v
  | None => None
  end.

(** A token that reaches [computePairAddress]: [undefined] passes through
    [getTokens] and is rejected by [solidityKeccak256], whose [arrayify]
    reads a property of it. *)
Definition token_arg (t : option string) : Exc string :=
  match t with
  | Some a => Ok a
  | None => Throw TypeError
  end.

(** The record before any amount is known. *)
Definition initial (node : DecoderInput) (inputs : Result) (path : list Value)
  : SwapAction :=
  {| type := name;
     operator := node_from node;
     recipient := get_address inputs "to";
     tokenIn := path_at path 0;
     tokenOut := path_at path (len path - 1);
     amountIn := None; amountInMax := None;
     amountOut := None; amountOutMin := None |}.

(** "pull info from calldata" *)
Definition pullFromCalldata (swapMetadata : SwapMetadata) (node : DecoderInput)
           (inputs : Result) (r : SwapAction) : SwapAction :=
  if exactIn swapMetadata then
    {| type := type r; operator := operator r; recipient := recipient r;
       tokenIn := tokenIn r; tokenOut := tokenOut r;
       amountIn := match input swapMetadata with
                   | eth => Some (node_value node)
                   | tokens => get_uint inputs "amountIn"
                   end;
       amountInMax := amountInMax r;
       amountOut := amountOut r;
       amountOutMin := get_uint inputs "amountOutMin" |}
  else
    {| type := type r; operator := operator r; recipient := recipient r;
       tokenIn := tokenIn r; tokenOut := tokenOut r;
       amountIn := amountIn r;
       amountInMax := get_uint inputs "amountInMax";
       amountOut := get_uint inputs "amountOut";
       amountOutMin := amountOutMin r |}.

Definition at_address (a : string) (event : Log) : bool :=
  String.eqb (log_address event) a.

(** "pull info from events" *)
Definition pullFromEvents (routerInfo : RouterInfo) (node : DecoderInput)
           (path : list Value) (r : SwapAction) : Exc SwapAction :=
  match logs node with
  | None => Ok r
  | Some ls =>
      let swapEvents := List.filter (fun log => hasTopic log swapEventSelector) ls in
      (a0 <- token_arg (path_at path 0) ;;
       a1 <- token_arg (path_at path 1) ;;
       let '(firstToken0, firstToken1) := getTokens a0 a1 in
       firstPairAddress <-
         computePairAddress (factory routerInfo) (initcodeHash routerInfo)
                            firstToken0 firstToken1 ;;
       b0 <- token_arg (path_at path (len path - 2)) ;;
       b1 <- token_arg (path_at path (len path - 1)) ;;
       let '(lastToken0, lastToken1) := getTokens b0 b1 in
       lastPairAddress <-
         computePairAddress (factory routerInfo) (initcodeHash routerInfo)
                            lastToken0 lastToken1 ;;
       let firstSwapEvent := List.find (at_address firstPairAddress) swapEvents in
       let lastSwapEvent := List.find (at_address lastPairAddress) (rev swapEvents) in
       r1 <- match firstSwapEvent with
             | Some event =>
                 parsedEvent <- parseLog swapEventSelector (log_topics event)
                                         (log_data event) ;;
                 Ok (set_amountIn
                       (if String.eqb firstToken0 a0
                        then get_uint parsedEvent "amount0In"
                        else get_uint parsedEvent "amount1In") r)
             | None => Ok r
             end ;;
       match lastSwapEvent with
       | Some event =>
           parsedEvent <- parseLog swapEventSelector (log_topics event)
                                   (log_data event) ;;
           Ok (set_amountOut
                 (if String.eqb lastToken0 b1
                  then get_uint parsedEvent "amount0Out"
                  else get_uint parsedEvent "amount1Out") r1)
       | None => Ok r1
       end)%exc
  end.

(** "pull info from returndata" *)
Definition pullFromReturndata (swapMetadata : SwapMetadata) (node : DecoderInput)
           (outputs : option Result) (r : SwapAction) : Exc SwapAction :=
  match outputs with
  | None => Ok r
  | Some outs =>
      if negb (fee swapMetadata) then
        (amounts <- defined (get_array outs "amounts") ;;
         Ok (set_amountOut
               (match at_index amounts (len amounts - 1) with
                | Some v => as_uint v
                | None => None
                end) r))%exc
      else
        match children node with
        | None => Ok r
        | Some cs =>
            match output swapMetadata with
            | tokens =>
                let balanceOfCalls :=
                  List.filter (fun v => hasSelector (calldata v) balanceOf_call)
                              (List.filter (is_type "staticcall") cs) in
                (first <- defined (at_index balanceOfCalls 0) ;;
                 initialBalance <- BigNumber_from (returndata first) ;;
                 last <- defined (at_index balanceOfCalls (len balanceOfCalls - 1)) ;;
                 finalBalance <- BigNumber_from (returndata last) ;;
                 Ok (set_amountOut (Some (finalBalance - initialBalance)%Z) r))%exc
            | eth =>
                let calls := List.filter (is_type "call") cs in
                (last <- defined (at_index calls (len calls - 1)) ;;
                 Ok (set_amountOut (Some (node_value last)) r))%exc
            end
        end
  end.

(** The record built after the node is claimed: the three sources of
    amounts in the order of the source text. *)
Definition buildResult (routerInfo : RouterInfo) (swapMetadata : SwapMetadata)
           (node : DecoderInput) (inputs : Result) (outputs : option Result)
           (path : list Value) : Exc SwapAction :=
  (r <- pullFromEvents routerInfo node path
          (pullFromCalldata swapMetadata node inputs (initial node inputs path)) ;;
   pullFromReturndata swapMetadata node outputs r)%exc.

Section WithOps.
Variable ops : ConsumeOps.

Definition consumeSwaps (node : DecoderInput) : M DecoderState unit :=
  match children node with
  | None => ret tt
  | Some cs =>
      forEach
        (fun call =>
           consume call ;;;
           match children call with
           | None => ret tt
           | Some gcs =>
               forEach (fun v => consumeTransfer ops (Some v))
                       (List.filter (fun v => is_type "call" v
                                              && hasSelector (calldata v) transfer_call)
                                    gcs)
           end)%st
        (List.filter (fun call => hasSelector (calldata call) swap_call)
                     (List.filter (is_type "call") cs))
  end.

Definition consumeTokenInputSwap (node : DecoderInput) : M DecoderState unit :=
  match children node with
  | None => ret tt
  | Some cs =>
      let calls := List.filter (is_type "call") cs in
      consumeTransferFrom ops (at_index calls 0)
  end.

Definition consumeETHInputSwap (node : DecoderInput) : M DecoderState unit :=
  match children node with
  | None => ret tt
  | Some cs =>
      let calls := List.filter (is_type "call") cs in
      (consumeAll ops (at_index calls 0) ;;;
       consumeAll ops (at_index calls 1) ;;;
       last <- lift (defined (at_index calls (len calls - 1))) ;;
       if negb (node_value last =? 0)%Z
       then consumeAll ops (Some last)
       else ret tt)%st
  end.

Definition consumeETHOutputSwap (node : DecoderInput) : M DecoderState unit :=
  match children node with
  | None => ret tt
  | Some cs =>
      let calls := List.filter (is_type "call") cs in
      (consumeAll ops (at_index calls (len calls - 2)) ;;;
       consumeAll ops (at_index calls (len calls - 1)))%st
  end.

(** "consume events and calls if we have them" *)
Definition consumeNode (swapMetadata : SwapMetadata) (node : DecoderInput)
  : M DecoderState unit :=
  (consume node ;;;
   match input swapMetadata with
   | tokens => consumeTokenInputSwap node
   | eth => consumeETHInputSwap node
   end ;;;
   consumeSwaps node ;;;
   match output swapMetadata with
   | eth => consumeETHOutputSwap node
   | tokens => ret tt
   end)%st.

Definition decodeCall (node : DecoderInput) : M DecoderState (option SwapAction) :=
  fun state =>
    if isConsumed state node then (Ok None, state)
    else if negb (is_type "call" node) then (Ok None, state)
    else
      match uniswapsByRouter !! node_to node with
      | None => (Ok None, state)
      | Some routerInfo =>
          match List.find (fun '(f, _) => hasSelector (calldata node) f) functions with
          | None => (Ok None, state)
          | Some (fragment, swapMetadata) =>
              (io <- lift (decodeFunctionWithFragment node fragment) ;;
               let '(inputs, outputs) := io in
               consumeNode swapMetadata node ;;;
               path <- lift (defined (get_array inputs "path")) ;;
               let r0 := initial node inputs path in
               requestTokenMetadata (tokenIn r0) ;;;
               requestTokenMetadata (tokenOut r0) ;;;
               r <- lift (buildResult routerInfo swapMetadata node inputs outputs path) ;;
               ret (Some r))%st state
          end
      end.

End WithOps.

End UniswapV2RouterSwapDecoder.

(* ===================================================================== *)
(** * The add-liquidity decoder *)
(* ===================================================================== *)

(** The placeholder address of the native currency. *)
Definition native_placeholder : string :=
  "0xeeeeeeeeeeeeeeeeeeeeeeeeeeeeeeeeeeeeeeee".

(** What a routine of the earlier interface returns:
    [[pool, tokenA, tokenB, amountA, amountB, liquidity, to]]. *)
Definition LiquidityTuple : Type :=
  (string * option string * option string
   * option Z * option Z * option Z * option string)%type.

(** [node.input.substring(0, 10) === ethers.utils.id(sig).substring(0, 10)] *)
Definition selector_is (input : string) (f : Ethers.FunctionFragment) : bool :=
  String.eqb (String.substring 0 10 input)
             (String.substring 0 10 (Ethers.id (Ethers.format f))).

(** [v.type === 'call' && v.variant === variant] *)
Definition is_variant (variant : string) (v : Types.TraceEntry) : bool :=
  String.eqb (Types.te_type v) "call" && String.eqb (Types.te_variant v) variant.

Module UniswapV2RouterAddLiquidityDecoder.
Import Hex Ethers Types.

Record UniswapV2RouterAddLiquidityResult : Type := {
  type : string;
  actor : string;
  recipient : option string;
  pool : option string;
  tokenA : option string;
  tokenB : option string;
  amountADesired : option Z;
  amountBDesired : option Z;
  amountAMin : option Z;
  amountBMin : option Z;
  amountA : option Z;
  amountB : option Z;
  liquidity : option Z
}.

Record AddMetadata : Type := { eth : bool }.

Definition addLiquidity : FunctionFragment :=
  {| fn_name := "addLiquidity";
     fn_inputs :=
       [ ("tokenA", TAddress); ("tokenB", TAddress);
         ("amountADesired", u256); ("amountBDesired", u256);
         ("amountAMin", u256); ("amountBMin", u256);
         ("to", TAddress); ("deadline", u256) ];
     fn_outputs := [("amountA", u256); ("amountB", u256); ("liquidity", u256)] |}.

Definition addLiquidityETH : FunctionFragment :=
  {| fn_name := "addLiquidityETH";
     fn_inputs :=
       [ ("token", TAddress);
         ("amountTokenDesired", u256); ("amountTokenMin", u256);
         ("amountETHMin", u256); ("to", TAddress); ("", u256) ];
     fn_outputs :=
       [("amountToken", u256); ("amountETH", u256); ("liquidity", u256)] |}.

Definition functions : list (FunctionFragment * AddMetadata) :=
  [ (addLiquidity, {| eth := false |});
    (addLiquidityETH, {| eth := true |}) ].

Definition name : string := "uniswap-v2-router-add-liquidity".

(** The object literal of [decodeCall].  It has no [pool], [amountA],
    [amountB] or [liquidity] property. *)
Definition result_of (functionMetadata : AddMetadata) (node : DecoderInput)
           (inputs : Result) : UniswapV2RouterAddLiquidityResult :=
  let e := eth functionMetadata in
  {| type := name;
     actor := node_from node;
     recipient := get_address inputs "to";
     pool := None;
     tokenA := if e then get_address inputs "token" else get_address inputs "tokenA";
     tokenB := if e then Some native_placeholder else get_address inputs "tokenB";
     amountAMin :=
       if e then get_uint inputs "amountTokenMin" else get_uint inputs "amountAMin";
     amountBMin :=
       if e then get_uint inputs "amountETHMin" else get_uint inputs "amountBMin";
     amountADesired :=
       if e then get_uint inputs "amountTokenMin" else get_uint inputs "amountAMin";
     amountBDesired := if e then None else get_uint inputs "amountBMin";
     amountA := None;
     amountB := None;
     liquidity := None |}.

Definition decodeCall (node : DecoderInput)
  : M DecoderState (option UniswapV2RouterAddLiquidityResult) :=
  fun state =>
    if isConsumed state node then (Ok None, state)
    else if negb (is_type "call" node) then (Ok None, state)
    else
      match List.find (fun '(f, _) => hasSelector (calldata node) f) functions with
      | None => (Ok None, state)
      | Some (fragment, functionMetadata) =>
          (io <- lift (decodeFunctionWithFragment node fragment) ;;
           let '(inputs, outputs) := io in
           let result := result_of functionMetadata node inputs in
           requestTokenMetadata (tokenA result) ;;;
           requestTokenMetadata (tokenB result) ;;;
           requestTokenMetadata (pool result) ;;;
           ret (Some result))%st state
      end.

Definition createPair : FunctionFragment :=
  {| fn_name := "createPair";
     fn_inputs := [("", TAddress); ("", TAddress)];
     fn_outputs := [] |}.

(** "handles the _addLiquidity function" *)
Definition handleAddLiquidity (subcalls : list TraceEntry) : Exc bool :=
  (first <- defined (at_index subcalls 0) ;;
   Ok (selector_is (te_input first) createPair))%exc.

Section WithOps.
Variable ops : HandleOps.

Definition decodeAddLiquidity (node : TraceEntry) (inputs : Result)
           (outputs : option Result) (subcalls : list TraceEntry)
  : M DecodeState LiquidityTuple :=
  (created <- lift (handleAddLiquidity subcalls) ;;
   let idx := if created : bool then 1%Z else 0%Z in
   handleTransferFrom ops (at_index subcalls idx) ;;;
   handleTransfer ops (at_index subcalls (idx + 1)) ;;;
   handleRecursively ops (at_index subcalls (idx + 2)) ;;;
   mint <- lift (defined (at_index subcalls (idx + 2))) ;;
   outs <- lift (defined outputs) ;;
   ret (te_to mint,
        get_address inputs "tokenA",
        get_address inputs "tokenB",
        get_uint outs "amountA",
        get_uint outs "amountB",
        get_uint outs "liquidity",
        get_address inputs "to"))%st.

Definition decodeAddLiquidityETH (node : TraceEntry) (inputs : Result)
           (outputs : option Result) (subcalls : list TraceEntry)
  : M DecodeState LiquidityTuple :=
  (created <- lift (handleAddLiquidity subcalls) ;;
   let idx := if created : bool then 1%Z else 0%Z in
   handleTransferFrom ops (at_index subcalls idx) ;;;
   handleRecursively ops (at_index subcalls (idx + 1)) ;;;
   handleRecursively ops (at_index subcalls (idx + 2)) ;;;
   handleRecursively ops (at_index subcalls (idx + 3)) ;;;
   (if (idx + 4 <? len subcalls)%Z
    then handleRecursively ops (at_index subcalls (idx + 4))
    else ret tt) ;;;
   mint <- lift (defined (at_index subcalls (idx + 3))) ;;
   outs <- lift (defined outputs) ;;
   ret (te_to mint,
        get_address inputs "token",
        Some native_placeholder,
        get_uint outs "amountToken",
        get_uint outs "amountETH",
        get_uint outs "liquidity",
        get_address inputs "to"))%st.

End WithOps.

End UniswapV2RouterAddLiquidityDecoder.

(* ===================================================================== *)
(** * The remove-liquidity decoder *)
(* ===================================================================== *)

Module UniswapV2RouterRemoveLiquidityDecoder.
Import Hex Ethers Types.

Record UniswapV2RouterRemoveLiquidityResult : Type := {
  type : string;
  actor : string;
  recipient : option string;
  pool : string;
  tokenA : option string;
  tokenB : option string;
  amountA : option Z;
  amountB : option Z;
  liquidity : option Z
}.

Definition permit_inputs : Params :=
  [("approveMax", TBool); ("v", TUint 8); ("r", TBytes32); ("s", TBytes32)].

Definition token_pair_inputs : Params :=
  [ ("tokenA", TAddress); ("tokenB", TAddress); ("liquidity", u256);
    ("amountAMin", u256); ("amountBMin", u256);
    ("to", TAddress); ("deadline", u256) ].

Definition token_eth_inputs : Params :=
  [ ("token", TAddress); ("liquidity", u256);
    ("amountTokenMin", u256); ("amountETHMin", u256);
    ("to", TAddress); ("deadline", u256) ].

Definition removeLiquidity : FunctionFragment :=
  {| fn_name := "removeLiquidity";
     fn_inputs := token_pair_inputs;
     fn_outputs := [("amountA", u256); ("amountB", u256)] |}.

Definition removeLiquidityETH : FunctionFragment :=
  {| fn_name := "removeLiquidityETH";
     fn_inputs := token_eth_inputs;
     fn_outputs := [("amountToken", u256); ("amountETH", u256)] |}.

Definition removeLiquidityWithPermit : FunctionFragment :=
  {| fn_name := "removeLiquidityWithPermit";
     fn_inputs := token_pair_inputs ++ permit_inputs;
     fn_outputs := [("amountA", u256); ("amountB", u256)] |}.

Definition removeLiquidityETHWithPermit : FunctionFragment :=
  {| fn_name := "removeLiquidityETHWithPermit";
     fn_inputs := token_eth_inputs ++ permit_inputs;
     fn_outputs := [("amountToken", u256); ("amountETH", u256)] |}.

Definition removeLiquidityETHSupportingFeeOnTransferTokens : FunctionFragment :=
  {| fn_name := "removeLiquidityETHSupportingFeeOnTransferTokens";
     fn_inputs := token_eth_inputs;
     fn_outputs := [("amountETH", u256)] |}.

Definition removeLiquidityETHWithPermitSupportingFeeOnTransferTokens
  : FunctionFragment :=
  {| fn_name := "removeLiquidityETHWithPermitSupportingFeeOnTransferTokens";
     fn_inputs := token_eth_inputs ++ permit_inputs;
     fn_outputs := [("amountETH", u256)] |}.

Definition name : string := "uniswap-v2-router-remove-liquidity".

Section WithOps.
Variable ops : HandleOps.

(** "handles the removeLiquidity function" *)
Definition handleRemoveLiquidity (subcalls : list TraceEntry) (offset : Z)
  : M DecodeState Z :=
  (handleTransferFrom ops (at_index subcalls offset) ;;;
   handleRecursively ops (at_index subcalls (offset + 1)) ;;;
   ret (offset + 2)%Z)%st.

(** "handle the eth return": [state.handled[subcalls[i].path] = true] *)
Definition handleEthReturn (subcalls : list TraceEntry) (i : Z)
  : M DecodeState unit :=
  (call <- lift (defined (at_index subcalls i)) ;;
   setHandled (te_path call))%st.

Definition decodeRemoveLiquidity (node : TraceEntry) (inputs : Result)
           (outputs : option Result) (subcalls : list TraceEntry)
  : M DecodeState LiquidityTuple :=
  (handleRemoveLiquidity subcalls 0 ;;;
   first <- lift (defined (at_index subcalls 0)) ;;
   outs <- lift (defined outputs) ;;
   ret (te_to first,
        get_address inputs "tokenA",
        get_address inputs "tokenB",
        get_uint outs "amountA",
        get_uint outs "amountB",
        get_uint inputs "liquidity",
        get_address inputs "to"))%st.

Definition decodeRemoveLiquidityETH (node : TraceEntry) (inputs : Result)
           (outputs : option Result) (subcalls : list TraceEntry)
  : M DecodeState LiquidityTuple :=
  (handleRemoveLiquidity subcalls 0 ;;;
   handleTransfer ops (at_index subcalls 2) ;;;
   handleRecursively ops (at_index subcalls 3) ;;;
   handleEthReturn subcalls 4 ;;;
   first <- lift (defined (at_index subcalls 0)) ;;
   outs <- lift (defined outputs) ;;
   ret (te_to first,
        get_address inputs "token",
        Some native_placeholder,
        get_uint outs "amountToken",
        get_uint outs "amountETH",
        get_uint inputs "liquidity",
        get_address inputs "to"))%st.

Definition decodeRemoveLiquidityWithPermit (node : TraceEntry) (inputs : Result)
           (outputs : option Result) (subcalls : list TraceEntry)
  : M DecodeState LiquidityTuple :=
  (handleRemoveLiquidity subcalls 1 ;;;
   first <- lift (defined (at_index subcalls 0)) ;;
   outs <- lift (defined outputs) ;;
   ret (te_to first,
        get_address inputs "tokenA",
        get_address inputs "tokenB",
        get_uint outs "amountA",
        get_uint outs "amountB",
        get_uint inputs "liquidity",
        get_address inputs "to"))%st.

Definition decodeRemoveLiquidityETHWithPermit (node : TraceEntry) (inputs : Result)
           (outputs : option Result) (subcalls : list TraceEntry)
  : M DecodeState LiquidityTuple :=
  (offset <- handleRemoveLiquidity subcalls 1 ;;
   handleTransfer ops (at_index subcalls offset) ;;;
   handleRecursively ops (at_index subcalls (offset + 1)) ;;;
   handleEthReturn subcalls (offset + 2) ;;;
   first <- lift (defined (at_index subcalls 0)) ;;
   outs <- lift (defined outputs) ;;
   ret (te_to first,
        get_address inputs "token",
        Some native_placeholder,
        get_uint outs "amountToken",
        get_uint outs "amountETH",
        get_uint inputs "liquidity",
        get_address inputs "to"))%st.

(** The two fee-on-transfer routines differ in the offset only. *)
Definition decodeFeeOnTransfer (start : Z) (node : TraceEntry) (inputs : Result)
           (outputs : option Result) (subcalls : list TraceEntry)
  : M DecodeState LiquidityTuple :=
  (offset <- handleRemoveLiquidity subcalls start ;;
   handleTransfer ops (at_index subcalls offset) ;;;
   handleRecursively ops (at_index subcalls (offset + 1)) ;;;
   handleEthReturn subcalls (offset + 2) ;;;
   let staticcalls := List.filter (is_variant "staticcall") (te_children node) in
   last <- lift (defined (at_index staticcalls (len staticcalls - 1))) ;;
   output <- lift (BigNumber_from_hex (te_output last)) ;;
   first <- lift (defined (at_index subcalls 0)) ;;
   outs <- lift (defined outputs) ;;
   ret (te_to first,
        get_address inputs "token",
        Some native_placeholder,
        Some output,
        get_uint outs "amountETH",
        get_uint inputs "liquidity",
        get_address inputs "to"))%st.

Definition decodeRemoveLiquidityETHSupportingFeeOnTransferTokens :=
  decodeFeeOnTransfer 0.

Definition decodeRemoveLiquidityETHWithPermitSupportingFeeOnTransferTokens :=
  decodeFeeOnTransfer 1.

Definition Routine : Type :=
  TraceEntry -> Result -> option Result -> list TraceEntry
  -> M DecodeState LiquidityTuple.

(** [this.addLiquidityFunctions], in the order of the source. *)
Definition addLiquidityFunctions : list (FunctionFragment * Routine) :=
  [ (removeLiquidity, decodeRemoveLiquidity);
    (removeLiquidityETH, decodeRemoveLiquidityETH);
    (removeLiquidityWithPermit, decodeRemoveLiquidityWithPermit);
    (removeLiquidityETHWithPermit, decodeRemoveLiquidityETHWithPermit);
    (removeLiquidityETHSupportingFeeOnTransferTokens,
     decodeRemoveLiquidityETHSupportingFeeOnTransferTokens);
    (removeLiquidityETHWithPermitSupportingFeeOnTransferTokens,
     decodeRemoveLiquidityETHWithPermitSupportingFeeOnTransferTokens) ].

Definition decode (node : TraceEntry)
  : M DecodeState (option UniswapV2RouterRemoveLiquidityResult) :=
  fun state =>
    if isHandled state (te_path node) then (Ok None, state)
    else if negb (String.eqb (te_type node) "call") then (Ok None, state)
    else
      match List.find (fun '(f, _) => selector_is (te_input node) f)
                      addLiquidityFunctions with
      | None => (Ok None, state)
      | Some (fragment, routine) =>
          (setHandled (te_path node) ;;;
           io <- lift (decodeFunctionWithFragment_entry node fragment) ;;
           let '(inputs, outputs) := io in
           let subcalls := List.filter (is_variant "call") (te_children node) in
           t <- routine node inputs outputs subcalls ;;
           let '(pool, tokenA, tokenB, amountA, amountB, liquidity, to) := t in
           requestTokenMetadata_entry ops tokenA ;;;
           requestTokenMetadata_entry ops tokenB ;;;
           requestTokenMetadata_entry ops (Some pool) ;;;
           ret (Some {| type := name;
                        actor := te_from node;
                        recipient := to;
                        pool := pool;
                        tokenA := tokenA;
                        tokenB := tokenB;
                        amountA := amountA;
                        amountB := amountB;
                        liquidity := liquidity |}))%st state
      end.

End WithOps.

End UniswapV2RouterRemoveLiquidityDecoder.

(* ===================================================================== *)
(** * The [format] methods *)
(* ===================================================================== *)

(** The [format] method of each decoder class, in a module of its own. *)
Module UniswapV2RouterSwapDecoder_format.
Import UniswapV2RouterSwapDecoder.

(** [format]: [keys] and [values] are two arrays pushed to side by side.
    The input amount is shown when it is known, else its bound; the same
    for the output; then the recipient and the operator. *)
Definition format (result : SwapAction) : Rendering.Rendered :=
  let keys : list string := [] in
  let values : list Rendering.Cell := [] in
  let '(keys, values) :=
    match amountIn result with
    | Some a =>
        (keys ++ ["tokenIn"],
         values ++ [Rendering.TokenAmount (tokenIn result) (Some a)])
    | None =>
        match amountInMax result with
        | Some m =>
            (keys ++ ["tokenInMax"],
             values ++ [Rendering.TokenAmount (tokenIn result) (Some m)])
        | None => (keys, values)
        end
    end in
  let '(keys, values) :=
    match amountOut result with
    | Some a =>
        (keys ++ ["amountOut"],
         values ++ [Rendering.TokenAmount (tokenOut result) (Some a)])
    | None =>
        match amountOutMin result with
        | Some m =>
            (keys ++ ["amountOutMin"],
             values ++ [Rendering.TokenAmount (tokenOut result) (Some m)])
        | None => (keys, values)
        end
    end in
  let keys := keys ++ ["recipient"] in
  let values := values ++ [Rendering.AddressData (recipient result)] in
  let keys := keys ++ ["actor"] in
  let values := values ++ [Rendering.AddressData (Some (operator result))] in
  {| Rendering.title := "swap";
     Rendering.color := "#645e9d";
     Rendering.keys := keys;
     Rendering.values := values |}.

End UniswapV2RouterSwapDecoder_format.

Module UniswapV2RouterAddLiquidityDecoder_format.
Import UniswapV2RouterAddLiquidityDecoder.

Definition format (result : UniswapV2RouterAddLiquidityResult) : Rendering.Rendered :=
  {| Rendering.title := "add liquidity";
     Rendering.color := "#6c969d";
     Rendering.keys := ["tokenA"; "tokenB"; "liquidity"; "recipient"; "actor"];
     Rendering.values :=
       [ Rendering.TokenAmount (tokenA result) (amountA result);
         Rendering.TokenAmount (tokenB result) (amountB result);
         Rendering.TokenAmount (pool result) (liquidity result);
         Rendering.AddressData (recipient result);
         Rendering.AddressData (Some (actor result)) ] |}.

End UniswapV2RouterAddLiquidityDecoder_format.

Module UniswapV2RouterRemoveLiquidityDecoder_format.
Import UniswapV2RouterRemoveLiquidityDecoder.

Definition format (result : UniswapV2RouterRemoveLiquidityResult) : Rendering.Rendered :=
  {| Rendering.title := "remove liquidity";
     Rendering.color := "#392b58";
     Rendering.keys := ["tokenA"; "tokenB"; "liquidity"; "recipient"; "actor"];
     Rendering.values :=
       [ Rendering.TokenAmount (tokenA result) (amountA result);
         Rendering.TokenAmount (tokenB result) (amountB result);
         Rendering.TokenAmount (Some (pool result)) (liquidity result);
         Rendering.AddressData (recipient result);
         Rendering.AddressData (Some (actor result)) ] |}.

End UniswapV2RouterRemoveLiquidityDecoder_format.

(* ===================================================================== *)
(** * The data renderer *)
(* ===================================================================== *)

(** The string computations of the component that [format] renders
    addresses with: [stringifyValue] and [formatValueWithParamType] in
    full, and the two blocks of [DataRenderer] that prepare [data] before
    it is decoded. *)
Module DataRenderer.
Import Hex Ethers.

(** What [labels[key]] finds: a label of the table, or what a plain
    object inherits under that key. *)
Inductive Found : Type :=
| Own (label : string)
| Inherited (key : string).

(** The text of an element: a string, or [`[${...}]`] around the
    inherited property of [Object.prototype] under [key], whose text is
    the engine's. *)
Inductive Text : Type :=
| Plain (s : string)
| BracketedInherited (key : string).

(** A rendered element: a link to the block explorer, or text alone. *)
Inductive Element : Type :=
| Anchor (href : string) (label : Text)
| Fragment (text : Text).

(** [s.substring(n)] *)
Definition substring_from (n : nat) (s : string) : string :=
  String.substring n (String.length s - n) s.

(** [labels && labels[key]] read as a condition: without a table
    nothing is read; an own label counts unless it is empty; a key that
    the table does not have finds what the table inherits. *)
Definition label_of (labels : option (gmap string string)) (key : string)
  : option Found :=
  match labels with
  | Some ls =>
      match ls !! key with
      | Some "" => None
      | Some label => Some (Own label)
      | None =>
          if PlainObject.inherited key then Some (Inherited key) else None
      end
  | None => None
  end.


(** [formatValueWithParamType(paramType, chainConfig, value, truncate,
    makeLink, labels)], with [paramType.baseType] and
    [chainConfig.blockexplorerUrl] as arguments. *)
Definition formatValueWithParamType (baseType blockexplorerUrl value : string)
           (truncate makeLink : bool) (labels : option (gmap string string))
  : Element :=
  if String.eqb baseType "address" then
    let address := value in
    let label :=
      match label_of labels (toLowerCase address) with
      | Some (Own l) => Plain ("[" +:+ l +:+ "]")
      | Some (Inherited key) => BracketedInherited key
      | None => Plain address
      end in
    if makeLink
    then Anchor (blockexplorerUrl +:+ "/address/" +:+ address) label
    else Fragment label
  else
    let encoded :=
      if (96 <? String.length value)%nat && truncate
      then String.substring 0 8 value +:+ "..."
           +:+ substring_from (String.length value - 8) value
      else value in
    Fragment (Plain encoded).

(** [s.padStart(n, '0')] *)
Definition padStart (n : nat) (s : string) : string :=
  string_of_list_ascii (repeat "0"%char (n - String.length s)) +:+ s.

(** The first block of [DataRenderer], [if (data) { ... }]: the empty
    string is left as it is; otherwise the prefix [0x] is dropped if it is
    there, the rest is padded with zeros to 64 characters, and [0x] is put
    in front. *)
Definition normalize (data : string) : string :=
  match data with
  | "" => data
  | _ =>
      let data := if has_0x data then substring_from 2 data else data in
      "0x" +:+ padStart 64 data
  end.

Definition is_space (c : ascii) : bool :=
  let n := N_of_ascii c in
  ((9 <=? n) && (n <=? 13) || (n =? 32))%N.

Definition is_decimal (c : ascii) : bool :=
  let n := N_of_ascii c in ((48 <=? n) && (n <=? 57))%N.

Fixpoint skip_spaces (cs : list ascii) : list ascii :=
  match cs with
  | c :: r => if is_space c then skip_spaces r else cs
  | [] => []
  end.

Fixpoint leading (digit : ascii -> bool) (cs : list ascii) : list ascii :=
  match cs with
  | c :: r => if digit c then c :: leading digit r else []
  | [] => []
  end.

(** The digits of [cs] read in base [radix], most significant first. *)
Definition digits_value (radix : Z) (cs : list ascii) : Z :=
  fold_left (fun acc c => match hexval c with
                          | Some d => (radix * acc + Z.of_N d)%Z
                          | None => acc
                          end) cs 0%Z.

(** [parseInt(s)] without a radix, on ASCII text: leading white space and
    a sign are skipped, [0x] selects base 16, and the longest run of digits
    is read; [None] is [NaN].  (The value is exact, as JavaScript's is
    below 2^53.) *)
Definition parseInt (s : string) : option Z :=
  let cs := skip_spaces (list_ascii_of_string s) in
  let '(sign, cs) :=
    match cs with
    | "-"%char :: r => ((-1)%Z, r)
    | "+"%char :: r => (1%Z, r)
    | _ => (1%Z, cs)
    end in
  let '(radix, digit, cs) :=
    match cs with
    | "0"%char :: "x"%char :: r => (16%Z, fun c => match hexval c with
                                                  | Some _ => true
                                                  | None => false
                                                  end, r)
    | "0"%char :: "X"%char :: r => (16%Z, fun c => match hexval c with
                                                  | Some _ => true
                                                  | None => false
                                                  end, r)
    | _ => (10%Z, is_decimal, cs)
    end in
  match leading digit cs with
  | [] => None
  | ds => Some (sign * digits_value radix ds)%Z
  end.

(** [parseInt(data.substring(data.length - 2)) & 0x01] *)
Definition lowestBit (data : string) : Z :=
  match parseInt (substring_from (String.length data - 2) data) with
  | Some n => Z.land n 1
  | None => 0
  end.

(** What the block for [preferredType === 'stringHeader'] turns a
    non-empty [data] into: a number shown as a length, or text to be shown
    as ASCII. *)
Inductive Header : Type :=
| HeaderLength (decodedData : Z)
| HeaderAscii (data : string).

Definition stringHeader (data : string) : Exc Header :=
  (value <- BigNumber_from_hex (Some data) ;;
   if (value =? 0)%Z then Ok (HeaderLength 0)
   else if (lowestBit data =? 0)%Z
        then Ok (HeaderAscii (String.substring 0 (String.length data - 2) data
                              +:+ "00"))
        else Ok (HeaderLength (value - 1)))%exc.

End DataRenderer.

(* ===================================================================== *)
(** * Concrete traces *)
(* ===================================================================== *)

(** The traces on which the decoders are run below: calls to the Uniswap V2
    router of Ethereum mainnet, with mainnet token and pair addresses. *)
Module Traces.
Import Hex Ethers Types.

Definition hex (s : string) : list byte :=
  match arrayify s with
  | Ok bs => bs
  | Throw _ => []
  end.

(** One ABI slot holding a number, and one holding an address. *)
Definition word (v : Z) : list byte := be_bytes 32 v.
Definition address_word (a : string) : list byte := repeat x00 12 ++ hex a.

Definition router : string := "0x7a250d5630B4cF539739dF2C5dAcb4c659F2488D".
Definition WETH : string := "0xC02aaA39b223FE8D0A0e5C4F27eAD9083C756Cc2".
Definition USDC : string := "0xA0b86991c6218b36c1d19D4a2e9Eb0cE3606eB48".
Definition COMP : string := "0xc00e94Cb662C3520282E6f5717214004A7f26888".
Definition USDC_WETH_pair : string := "0xB4e16d0168e52d35CaCD2c6185b44281Ec28C9Dc".
Definition COMP_WETH_pair : string := "0xCFfDdeD873554F362Ac02f8Fb1f02E5ada10516f".
Definition trader : string := "0x1111111111111111111111111111111111111111".
Definition deadline : Z := 1700000000.

Definition empty_state : DecoderState :=
  {| consumed := ∅; pendingMetadata := ∅ |}.

Definition empty_decode_state : DecodeState :=
  {| handled := ∅; requestedMetadata := ∅ |}.

(** An implementation of the three consuming helpers to run the swap
    decoder with: each consumes the sub-call it is given and raises on
    [undefined]. *)
Definition consume_defined (v : option DecoderInput) : M DecoderState unit :=
  match v with
  | Some call => consume call
  | None => throw TypeError
  end.

Definition simple_ops : ConsumeOps :=
  {| consumeAll := consume_defined;
     consumeTransfer := consume_defined;
     consumeTransferFrom := consume_defined |}.

(** An implementation of the base-class helpers to run the routines of the
    earlier interface with: each marks the sub-call it is given as handled
    and tolerates [undefined]. *)
Definition handle_lenient (v : option TraceEntry) : M DecodeState unit :=
  match v with
  | Some call => setHandled (te_path call)
  | None => ret tt
  end.

Definition request_entry (token : option string) : M DecodeState unit :=
  fun state =>
    (Ok tt, {| handled := handled state;
               requestedMetadata := {[ token ]} ∪ requestedMetadata state |}).

Definition lenient_ops : HandleOps :=
  {| handleTransferFrom := handle_lenient;
     handleTransfer := handle_lenient;
     handleRecursively := handle_lenient;
     requestTokenMetadata_entry := request_entry |}.

(** A sub-call without logs and children. *)
Definition leaf (path kind from to : string) (data : list byte)
           (ret_data : option (list byte)) : DecoderInput :=
  {| node_path := path; node_type := kind; node_from := from; node_to := to;
     node_value := 0; calldata := data; returndata := ret_data;
     logs := None; children := None |}.

(** [swapExactTokensForTokens(amountIn, amountOutMin, [tokenIn, tokenOut],
    trader, deadline)] *)
Definition swap_calldata (selector : string) (amountIn amountOutMin : Z)
           (tokenIn tokenOut : string) : list byte :=
  hex selector ++ word amountIn ++ word amountOutMin ++ word 160
  ++ address_word trader ++ word deadline
  ++ word 2 ++ address_word tokenIn ++ address_word tokenOut.

(** The return data [uint[] amounts] of a two-token path. *)
Definition amounts_returndata (a b : Z) : list byte :=
  word 32 ++ word 2 ++ word a ++ word b.

(** A [Swap] event of a pair, with the router as sender. *)
Definition swap_log (pair : string) (amount0In amount1In amount0Out amount1Out : Z)
  : Log :=
  {| log_address := pair;
     log_topics :=
       [ hex "0xd78ad95fa46c994b6551d0da85fc275fe613ce37657fb8d5e3d130840159d822";
         address_word router;
         address_word trader ];
     log_data := word amount0In ++ word amount1In
                 ++ word amount0Out ++ word amount1Out |}.

(** What [parseLog] makes of such an event: the indexed parameters first. *)
Definition parsed_swap_log (amount0In amount1In amount0Out amount1Out : Z)
  : Result :=
  [ ("sender", VAddress router); ("to", VAddress trader);
    ("amount0In", VUint amount0In); ("amount1In", VUint amount1In);
    ("amount0Out", VUint amount0Out); ("amount1Out", VUint amount1Out) ].

(** What the codec makes of [swap_calldata]. *)
Definition swap_inputs_decoded (amountIn amountOutMin : Z)
           (tokenIn tokenOut : string) : Result :=
  [ ("amountIn", VUint amountIn); ("amountOutMin", VUint amountOutMin);
    ("path", VArray [VAddress tokenIn; VAddress tokenOut]);
    ("to", VAddress trader); ("deadline", VUint deadline) ].

(** The sub-calls of a token-to-token swap through one pair: the transfer of
    the input token to the pair and the pair's [swap]. *)
Definition swap_children (tokenIn pair : string) (amountIn : Z)
  : list DecoderInput :=
  [ leaf "0.0" "call" router tokenIn
         (hex "0x23b872dd" ++ address_word trader ++ address_word pair
              ++ word amountIn)
         (Some (word 1));
    leaf "0.1" "call" router pair
         (hex "0x022c0d9f" ++ word 0 ++ word 0 ++ address_word trader
              ++ word 128 ++ word 0)
         (Some []) ].

(** A router call [swapExactTokensForTokens] over the path
    [[tokenIn, tokenOut]]. *)
Definition swap_node (to : string) (amountIn amountOutMin : Z)
           (tokenIn tokenOut : string) (ret_data : option (list byte))
           (events : option (list Log)) : DecoderInput :=
  {| node_path := "0"; node_type := "call"; node_from := trader; node_to := to;
     node_value := 0;
     calldata := swap_calldata "0x38ed1739" amountIn amountOutMin tokenIn tokenOut;
     returndata := ret_data;
     logs := events;
     children := Some (swap_children tokenIn USDC_WETH_pair amountIn) |}.

(** WETH for USDC: the pair's token0 is USDC, so the event reports the
    input as [amount1In] and the output as [amount0Out]. *)
Definition weth_for_usdc : DecoderInput :=
  swap_node router 100 1 WETH USDC
            (Some (amounts_returndata 100 95))
            (Some [swap_log USDC_WETH_pair 0 100 95 0]).

(** USDC for WETH, with an event that reports 95 as [amount0Out]. *)
Definition usdc_for_weth : DecoderInput :=
  swap_node router 100 1 USDC WETH None
            (Some [swap_log USDC_WETH_pair 100 0 95 0]).

(** WETH for COMP through the deployed COMP/WETH pair, whose token0 is
    COMP: the event reports the input as [amount1In] and the output as
    [amount0Out].  The call has no return data. *)
Definition weth_for_comp : DecoderInput :=
  {| node_path := "0"; node_type := "call"; node_from := trader;
     node_to := router; node_value := 0;
     calldata := swap_calldata "0x38ed1739" 100 1 WETH COMP;
     returndata := None;
     logs := Some [swap_log COMP_WETH_pair 0 100 95 0];
     children := Some (swap_children WETH COMP_WETH_pair 100) |}.

(** WETH for USDC where the three sources disagree: 100 in the arguments,
    97 in the event; 95 in the event, 96 in the return data. *)
Definition disagreeing_sources : DecoderInput :=
  swap_node router 100 1 WETH USDC
            (Some (amounts_returndata 100 96))
            (Some [swap_log USDC_WETH_pair 0 97 95 0]).

(** A [balanceOf] static call that returns [balance]. *)
Definition balanceOf_call (path token : string) (balance : Z) : DecoderInput :=
  leaf path "staticcall" router token
       (hex "0x70a08231" ++ address_word trader) (Some (word balance)).

(** [swapExactTokensForTokensSupportingFeeOnTransferTokens]: the recipient's
    balance is read before and after the pair's [swap]. *)
Definition fee_on_transfer_node (ret_data : option (list byte)) : DecoderInput :=
  {| node_path := "0"; node_type := "call"; node_from := trader;
     node_to := router; node_value := 0;
     calldata := swap_calldata "0x5c11d795" 100 1 WETH USDC;
     returndata := ret_data;
     logs := None;
     children :=
       Some (leaf "0.0" "call" router WETH
                  (hex "0x23b872dd" ++ address_word trader
                       ++ address_word USDC_WETH_pair ++ word 100)
                  (Some (word 1))
             :: balanceOf_call "0.1" USDC 1000
             :: leaf "0.2" "call" router USDC_WETH_pair
                     (hex "0x022c0d9f" ++ word 80 ++ word 0
                          ++ address_word trader ++ word 128 ++ word 0)
                     (Some [])
             :: balanceOf_call "0.3" USDC 1080
             :: []) |}.

Definition fee_on_transfer_swap : DecoderInput := fee_on_transfer_node (Some []).
Definition fee_on_transfer_reverted : DecoderInput := fee_on_transfer_node None.

(** [addLiquidity(USDC, WETH, 1000, 10, 990, 9, trader, deadline)], which
    returns [(1000, 10, 31)]. *)
Definition add_liquidity : DecoderInput :=
  {| node_path := "0"; node_type := "call"; node_from := trader;
     node_to := router; node_value := 0;
     calldata :=
       hex "0xe8e33700" ++ address_word USDC ++ address_word WETH
       ++ word 1000 ++ word 10 ++ word 990 ++ word 9
       ++ address_word trader ++ word deadline;
     returndata := Some (word 1000 ++ word 10 ++ word 31);
     logs := None;
     children := None |}.

(** [addLiquidityETH(USDC, 1000, 990, 9, trader, deadline)] with 10 wei
    attached, which returns [(1000, 10, 31)]. *)
Definition add_liquidity_eth : DecoderInput :=
  {| node_path := "0"; node_type := "call"; node_from := trader;
     node_to := router; node_value := 10;
     calldata :=
       hex "0xf305d719" ++ address_word USDC
       ++ word 1000 ++ word 990 ++ word 9
       ++ address_word trader ++ word deadline;
     returndata := Some (word 1000 ++ word 10 ++ word 31);
     logs := None;
     children := None |}.

(** A sub-call of the earlier interface. *)
Definition entry (path variant to input : string) : TraceEntry :=
  {| te_path := path; te_type := "call"; te_variant := variant;
     te_from := router; te_to := to; te_input := input;
     te_output := Some "0x"; te_children := [] |}.

(** [removeLiquidityETH(USDC, 31, 990, 9, trader, deadline)] with the given
    sub-calls, returning [(1000, 10)]. *)
Definition remove_liquidity_eth (subcalls : list TraceEntry) : TraceEntry :=
  {| te_path := "0"; te_type := "call"; te_variant := "call";
     te_from := trader; te_to := router;
     te_input :=
       hexlify (hex "0x02751cec" ++ address_word USDC
                ++ word 31 ++ word 990 ++ word 9
                ++ address_word trader ++ word deadline);
     te_output := Some (hexlify (word 1000 ++ word 10));
     te_children := subcalls |}.

(** The first four sub-calls of [removeLiquidityETH]: the transfer of the
    liquidity tokens to the pair, the pair's [burn], the token transfer to
    the trader and the WETH [withdraw]. *)
Definition four_subcalls : list TraceEntry :=
  [ entry "0.0" "call" USDC_WETH_pair "0x23b872dd";
    entry "0.1" "call" USDC_WETH_pair "0x89afcb44";
    entry "0.2" "call" USDC "0xa9059cbb";
    entry "0.3" "call" WETH "0x2e1a7d4d" ].

(** The fifth: the transfer of the native currency to the trader. *)
Definition eth_return : TraceEntry := entry "0.4" "call" trader "0x".

(** A call whose input is the selector of [removeLiquidity] and nothing
    else. *)
Definition truncated_remove_liquidity : TraceEntry :=
  {| te_path := "0"; te_type := "call"; te_variant := "call";
     te_from := trader; te_to := router;
     te_input := "0xbaa2abde";
     te_output := None;
     te_children := [] |}.

(** The same for the swap decoder: the selector of
    [swapExactTokensForTokens] and nothing else. *)
Definition truncated_swap : DecoderInput :=
  leaf "0" "call" trader router (hex "0x38ed1739") None.

(** The swap of [weth_for_usdc] addressed to the router in lower case, and
    the same swap with the pair's event logged under the lower-case pair
    address. *)
Definition lower_case_router : DecoderInput :=
  swap_node (toLowerCase router) 100 1 WETH USDC
            (Some (amounts_returndata 100 95))
            (Some [swap_log USDC_WETH_pair 0 100 95 0]).

Definition lower_case_log : DecoderInput :=
  swap_node router 100 1 WETH USDC None
            (Some [swap_log (toLowerCase USDC_WETH_pair) 0 100 95 0]).


(** ** Further traces *)

(** [swapExactTokensForTokens] over a path of the single token [token]. *)
Definition single_token_path : DecoderInput :=
  {| node_path := "0"; node_type := "call"; node_from := trader;
     node_to := router; node_value := 0;
     calldata :=
       hex "0x38ed1739" ++ word 100 ++ word 1 ++ word 160
       ++ address_word trader ++ word deadline
       ++ word 1 ++ address_word WETH;
     returndata := None;
     logs := Some [];
     children := Some (swap_children WETH USDC_WETH_pair 100) |}.

(** The transfer of the input token to the pair and the pair's [swap], as
    sub-calls of a fee-on-transfer swap. *)
Definition transfer_to_pair : DecoderInput :=
  leaf "0.0" "call" router WETH
       (hex "0x23b872dd" ++ address_word trader
            ++ address_word USDC_WETH_pair ++ word 100)
       (Some (word 1)).

Definition pair_swap (path : string) : DecoderInput :=
  leaf path "call" router USDC_WETH_pair
       (hex "0x022c0d9f" ++ word 80 ++ word 0
            ++ address_word trader ++ word 128 ++ word 0)
       (Some []).

(** [swapExactTokensForTokensSupportingFeeOnTransferTokens] with the given
    sub-calls and an empty return. *)
Definition fee_on_transfer_with (cs : list DecoderInput) : DecoderInput :=
  {| node_path := "0"; node_type := "call"; node_from := trader;
     node_to := router; node_value := 0;
     calldata := swap_calldata "0x5c11d795" 100 1 WETH USDC;
     returndata := Some [];
     logs := None;
     children := Some cs |}.

(** The recipient's balance read three times: 1000, 1040 and 1080. *)
Definition three_balance_reads : DecoderInput :=
  fee_on_transfer_with
    [ transfer_to_pair; balanceOf_call "0.1" USDC 1000;
      balanceOf_call "0.2" USDC 1040; pair_swap "0.3";
      balanceOf_call "0.4" USDC 1080 ].

(** The recipient's balance read once. *)
Definition one_balance_read : DecoderInput :=
  fee_on_transfer_with
    [ transfer_to_pair; balanceOf_call "0.1" USDC 1000; pair_swap "0.2" ].

(** The recipient's balance never read. *)
Definition no_balance_read : DecoderInput :=
  fee_on_transfer_with [ transfer_to_pair; pair_swap "0.1" ].

(** [swapExactTokensForETHSupportingFeeOnTransferTokens] of USDC for the
    native currency: the router withdraws from WETH and sends 77 wei to
    the trader. *)
Definition fee_on_transfer_eth_output : DecoderInput :=
  {| node_path := "0"; node_type := "call"; node_from := trader;
     node_to := router; node_value := 0;
     calldata := swap_calldata "0x791ac947" 100 1 USDC WETH;
     returndata := Some [];
     logs := None;
     children :=
       Some [ leaf "0.0" "call" router USDC
                   (hex "0x23b872dd" ++ address_word trader
                        ++ address_word USDC_WETH_pair ++ word 100)
                   (Some (word 1));
              pair_swap "0.1";
              leaf "0.2" "call" router WETH (hex "0x2e1a7d4d" ++ word 77)
                   (Some []);
              {| node_path := "0.3"; node_type := "call"; node_from := router;
                 node_to := trader; node_value := 77; calldata := [];
                 returndata := Some []; logs := None; children := None |} ] |}.

(** [swapExactETHForTokens(amountOutMin, [WETH, USDC], trader, deadline)]
    with 100 wei attached and the given sub-calls. *)
Definition eth_input_swap (cs : option (list DecoderInput)) : DecoderInput :=
  {| node_path := "0"; node_type := "call"; node_from := trader;
     node_to := router; node_value := 100;
     calldata :=
       hex "0x7ff36ab5" ++ word 1 ++ word 128
       ++ address_word trader ++ word deadline
       ++ word 2 ++ address_word WETH ++ address_word USDC;
     returndata := None;
     logs := None;
     children := cs |}.

(** The record of an exact-in swap of 100 by the trader, with a minimum
    output of 1. *)
Definition exact_in_record (tokenIn tokenOut : string) (amountOut : option Z)
  : UniswapV2RouterSwapDecoder.SwapAction :=
  {| UniswapV2RouterSwapDecoder.type := UniswapV2RouterSwapDecoder.name;
     UniswapV2RouterSwapDecoder.operator := trader;
     UniswapV2RouterSwapDecoder.recipient := Some trader;
     UniswapV2RouterSwapDecoder.tokenIn := Some tokenIn;
     UniswapV2RouterSwapDecoder.tokenOut := Some tokenOut;
     UniswapV2RouterSwapDecoder.amountIn := Some 100%Z;
     UniswapV2RouterSwapDecoder.amountInMax := None;
     UniswapV2RouterSwapDecoder.amountOut := amountOut;
     UniswapV2RouterSwapDecoder.amountOutMin := Some 1%Z |}.

(** Consuming helpers that tolerate [undefined]. *)
Definition consume_lenient (v : option DecoderInput) : M DecoderState unit :=
  match v with
  | Some call => consume call
  | None => ret tt
  end.

Definition lenient_consume_ops : ConsumeOps :=
  {| consumeAll := consume_lenient;
     consumeTransfer := consume_lenient;
     consumeTransferFrom := consume_lenient |}.

(** What [decodeCall] makes of [add_liquidity]. *)
Definition add_liquidity_record
  : UniswapV2RouterAddLiquidityDecoder.UniswapV2RouterAddLiquidityResult :=
  {| UniswapV2RouterAddLiquidityDecoder.type := UniswapV2RouterAddLiquidityDecoder.name;
     UniswapV2RouterAddLiquidityDecoder.actor := trader;
     UniswapV2RouterAddLiquidityDecoder.recipient := Some trader;
     UniswapV2RouterAddLiquidityDecoder.pool := None;
     UniswapV2RouterAddLiquidityDecoder.tokenA := Some USDC;
     UniswapV2RouterAddLiquidityDecoder.tokenB := Some WETH;
     UniswapV2RouterAddLiquidityDecoder.amountADesired := Some 990%Z;
     UniswapV2RouterAddLiquidityDecoder.amountBDesired := Some 9%Z;
     UniswapV2RouterAddLiquidityDecoder.amountAMin := Some 990%Z;
     UniswapV2RouterAddLiquidityDecoder.amountBMin := Some 9%Z;
     UniswapV2RouterAddLiquidityDecoder.amountA := None;
     UniswapV2RouterAddLiquidityDecoder.amountB := None;
     UniswapV2RouterAddLiquidityDecoder.liquidity := None |}.

(** The sub-calls of [addLiquidity] on a pair that does not exist yet: the
    factory's [createPair], the two transfers to the pair and the pair's
    [mint]. *)
Definition add_liquidity_subcalls : list TraceEntry :=
  [ entry "0.0" "call" "0x5C69bEe701ef814a2B6a3EDD4B1652CB9cc5aA6f" "0xc9c65396";
    entry "0.1" "call" USDC "0x23b872dd";
    entry "0.2" "call" WETH "0x23b872dd";
    entry "0.3" "call" USDC_WETH_pair "0x6a627842" ].

(** [removeLiquidityETHSupportingFeeOnTransferTokens(USDC, 31, 990, 9,
    trader, deadline)], returning 10: after the burn the router reads its
    balance of the token, 995, and passes it on. *)
Definition fee_on_transfer_removal : TraceEntry :=
  {| te_path := "0"; te_type := "call"; te_variant := "call";
     te_from := trader; te_to := router;
     te_input :=
       hexlify (hex "0xaf2979eb" ++ address_word USDC
                ++ word 31 ++ word 990 ++ word 9
                ++ address_word trader ++ word deadline);
     te_output := Some (hexlify (word 10));
     te_children :=
       [ entry "0.0" "call" USDC_WETH_pair "0x23b872dd";
         entry "0.1" "call" USDC_WETH_pair "0x89afcb44";
         {| te_path := "0.2"; te_type := "call"; te_variant := "staticcall";
            te_from := router; te_to := USDC; te_input := "0x70a08231";
            te_output := Some (hexlify (word 995)); te_children := [] |};
         entry "0.3" "call" USDC "0xa9059cbb";
         entry "0.4" "call" WETH "0x2e1a7d4d";
         entry "0.5" "call" trader "0x" ] |}.

(** What [decode] makes of [fee_on_transfer_removal]. *)
Definition fee_on_transfer_removal_record
  : UniswapV2RouterRemoveLiquidityDecoder.UniswapV2RouterRemoveLiquidityResult :=
  {| UniswapV2RouterRemoveLiquidityDecoder.type :=
       UniswapV2RouterRemoveLiquidityDecoder.name;
     UniswapV2RouterRemoveLiquidityDecoder.actor := trader;
     UniswapV2RouterRemoveLiquidityDecoder.recipient := Some trader;
     UniswapV2RouterRemoveLiquidityDecoder.pool := USDC_WETH_pair;
     UniswapV2RouterRemoveLiquidityDecoder.tokenA := Some USDC;
     UniswapV2RouterRemoveLiquidityDecoder.tokenB := Some native_placeholder;
     UniswapV2RouterRemoveLiquidityDecoder.amountA := Some 995%Z;
     UniswapV2RouterRemoveLiquidityDecoder.amountB := Some 10%Z;
     UniswapV2RouterRemoveLiquidityDecoder.liquidity := Some 31%Z |}.

(** [removeLiquidityETHWithPermit(USDC, 31, 990, 9, trader, deadline,
    false, 27, r, s)] with the given sub-calls, returning [(1000, 10)]. *)
Definition remove_liquidity_eth_with_permit (subcalls : list TraceEntry)
  : TraceEntry :=
  {| te_path := "0"; te_type := "call"; te_variant := "call";
     te_from := trader; te_to := router;
     te_input :=
       hexlify (hex "0xded9382a" ++ address_word USDC
                ++ word 31 ++ word 990 ++ word 9
                ++ address_word trader ++ word deadline
                ++ word 0 ++ word 27 ++ word 1 ++ word 2);
     te_output := Some (hexlify (word 1000 ++ word 10));
     te_children := subcalls |}.

(** The pair's [permit], which comes first when the liquidity is spent by
    signature. *)
Definition permit_call : TraceEntry :=
  entry "0.5" "call" USDC_WETH_pair "0xd505accf".
End Traces.

(* ===================================================================== *)
(** * Specification-side definitions *)
(* ===================================================================== *)

Module Spec.
Import Hex Ethers Types.

(** The unsigned numeric value of an address given as a hex string. *)
Definition address_value (a : string) : option Z :=
  match arrayify a with
  | Ok bs => Some (be_value bs)
  | Throw _ => None
  end.

(** [a] is below [b] as a 20-byte unsigned integer. *)
Definition numerically_below (a b : string) : bool :=
  match address_value a, address_value b with
  | Some x, Some y => (x <? y)%Z
  | _, _ => false
  end.

(** A hex digit in lower case. *)
Definition is_lower_hex (c : ascii) : bool :=
  let n := N_of_ascii c in
  ((48 <=? n) && (n <=? 57) || (97 <=? n) && (n <=? 102))%N.

(** Two strings that differ in letter case only. *)
Definition differs_in_case_only (a b : string) : Prop :=
  toLowerCase a = toLowerCase b /\ a <> b.

(** [p] stays consumed through [m]. *)
Definition keeps {A} (p : string) (m : M DecoderState A) : Prop :=
  forall state, p ∈ consumed state -> p ∈ consumed (snd (m state)).

(** The consuming helpers never remove a path from [consumed]. *)
Definition keeps_consumed (ops : ConsumeOps) : Prop :=
  forall v p, keeps p (consumeAll ops v) /\ keeps p (consumeTransfer ops v)
              /\ keeps p (consumeTransferFrom ops v).

(** The node with its event logs replaced. *)
Definition with_logs (ls : option (list Log)) (node : DecoderInput) : DecoderInput :=
  {| node_path := node_path node; node_type := node_type node;
     node_from := node_from node; node_to := node_to node;
     node_value := node_value node; calldata := calldata node;
     returndata := returndata node; logs := ls; children := children node |}.

(** The pair address derived for one hop, when both tokens are there and
    the derivation succeeds. *)
Definition derive_hop (routerInfo : UniswapV2RouterSwapDecoder.RouterInfo)
           (a b : option string) : list string :=
  match a, b with
  | Some a, Some b =>
      match UniswapV2RouterSwapDecoder.computePairAddress
              (UniswapV2RouterSwapDecoder.factory routerInfo)
              (UniswapV2RouterSwapDecoder.initcodeHash routerInfo) a b with
      | Ok pairAddress => [pairAddress]
      | Throw _ => []
      end
  | _, _ => []
  end.

(** The pair addresses that the swap decoder derives for a node: that of
    the first hop and that of the last hop of the decoded path. *)
Definition derivedPairAddresses (node : DecoderInput) : list string :=
  match UniswapV2RouterSwapDecoder.uniswapsByRouter !! node_to node,
        List.find (fun '(f, _) => hasSelector (calldata node) f)
                  UniswapV2RouterSwapDecoder.functions with
  | Some routerInfo, Some (fragment, _) =>
      match decodeFunctionWithFragment node fragment with
      | Ok (inputs, _) =>
          match get_array inputs "path" with
          | Some path =>
              let at_ := UniswapV2RouterSwapDecoder.path_at path in
              derive_hop routerInfo (at_ 0%Z) (at_ 1%Z)
              ++ derive_hop routerInfo (at_ (len path - 2)%Z) (at_ (len path - 1)%Z)
          | None => []
          end
      | Throw _ => []
      end
  | _, _ => []
  end.

(** ** The sources of the swap amounts *)

(** What [decodeCall] has at hand once a node is decoded: the router's
    entry, the metadata of the matched signature, the decoded inputs and
    outputs and the path. *)
Record Decoded : Type := {
  d_routerInfo : UniswapV2RouterSwapDecoder.RouterInfo;
  d_metadata : UniswapV2RouterSwapDecoder.SwapMetadata;
  d_inputs : Result;
  d_outputs : option Result;
  d_path : list Value
}.

Definition decoded (node : DecoderInput) : option Decoded :=
  match UniswapV2RouterSwapDecoder.uniswapsByRouter !! node_to node,
        List.find (fun '(f, _) => hasSelector (calldata node) f)
                  UniswapV2RouterSwapDecoder.functions with
  | Some routerInfo, Some (fragment, swapMetadata) =>
      match decodeFunctionWithFragment node fragment with
      | Ok (inputs, outputs) =>
          match get_array inputs "path" with
          | Some path =>
              Some {| d_routerInfo := routerInfo; d_metadata := swapMetadata;
                      d_inputs := inputs; d_outputs := outputs; d_path := path |}
          | None => None
          end
      | Throw _ => None
      end
  | _, _ => None
  end.

(** What a source says about an amount: [None] when the source is not
    available, [Some v] when it assigns [v] to the field. *)
Definition Source : Type := option (option Z).

(** Each available source, in order, overwrites the field. *)
Definition latest (sources : list Source) : option Z :=
  fold_left (fun acc s => match s with Some v => v | None => acc end) sources None.

(** The first source that sets the field keeps it. *)
Definition earliest (sources : list Source) : option Z :=
  fold_right (fun s rest => match s with Some (Some v) => Some v | _ => rest end)
             None sources.

Section Sources.
Import UniswapV2RouterSwapDecoder.
Variable d : Decoded.
Variable node : DecoderInput.

(** (a) Call arguments: the amount an exact-in function is given (the
    attached value when the input is the native currency), the amount an
    exact-out function asks for. *)
Definition argument_amountIn : Source :=
  if exactIn (d_metadata d) then
    Some (match input (d_metadata d) with
          | eth => Some (node_value node)
          | tokens => get_uint (d_inputs d) "amountIn"
          end)
  else None.

Definition argument_amountOut : Source :=
  if exactIn (d_metadata d) then None
  else Some (get_uint (d_inputs d) "amountOut").

(** The [Swap] event of the pair of tokens [a] and [b], parsed: the first
    among [events] at the derived pair address. *)
Definition hop_event (a b : option string) (events : list Log) : option Result :=
  match a, b with
  | Some a, Some b =>
      match computePairAddress (factory (d_routerInfo d))
                               (initcodeHash (d_routerInfo d)) a b with
      | Ok pairAddress =>
          match List.find (at_address pairAddress) events with
          | Some event =>
              match parseLog swapEventSelector (log_topics event) (log_data event) with
              | Ok parsedEvent => Some parsedEvent
              | Throw _ => None
              end
          | None => None
          end
      | Throw _ => None
      end
  | _, _ => None
  end.

(** [t] is token0 of the pair of [a] and [b]. *)
Definition is_token0 (t a b : option string) : bool :=
  match t, a, b with
  | Some t, Some a, Some b => String.eqb (fst (getTokens a b)) t
  | _, _, _ => false
  end.

(** (b) Event logs: the first [Swap] event of the first hop's pair gives
    the input amount, the last [Swap] event of the last hop's pair the
    output amount; the side is the one of the hop's token in the sorted
    pair. *)
Definition event_amountIn : Source :=
  match logs node with
  | Some ls =>
      let a := path_at (d_path d) 0 in
      let b := path_at (d_path d) 1 in
      match hop_event a b (List.filter (fun log => hasTopic log swapEventSelector) ls) with
      | Some parsedEvent =>
          Some (if is_token0 a a b then get_uint parsedEvent "amount0In"
                else get_uint parsedEvent "amount1In")
      | None => None
      end
  | None => None
  end.

Definition event_amountOut : Source :=
  match logs node with
  | Some ls =>
      let a := path_at (d_path d) (len (d_path d) - 2) in
      let b := path_at (d_path d) (len (d_path d) - 1) in
      match hop_event a b
              (rev (List.filter (fun log => hasTopic log swapEventSelector) ls)) with
      | Some parsedEvent =>
          Some (if is_token0 b a b then get_uint parsedEvent "amount0Out"
                else get_uint parsedEvent "amount1Out")
      | None => None
      end
  | None => None
  end.

(** (c) Return data: the last of the returned amounts, for a function
    without fee-on-transfer support whose outputs were decoded. *)
Definition returndata_amountOut : Source :=
  match d_outputs d with
  | Some outs =>
      if fee (d_metadata d) then None
      else
        match get_array outs "amounts" with
        | Some amounts =>
            Some (match at_index amounts (len amounts - 1) with
                  | Some v => as_uint v
                  | None => None
                  end)
        | None => None
        end
  | None => None
  end.

(** (d) Nested calls: for a function with fee-on-transfer support whose
    outputs were decoded and whose node has children, the difference of the
    last and the first [balanceOf] result when the output is a token, the
    value of the last call when it is the native currency. *)
Definition nested_amountOut : Source :=
  match d_outputs d, children node with
  | Some _, Some cs =>
      if fee (d_metadata d) then
        match output (d_metadata d) with
        | tokens =>
            let balanceOfCalls :=
              List.filter (fun v => hasSelector (calldata v) balanceOf_call)
                          (List.filter (is_type "staticcall") cs) in
            match at_index balanceOfCalls 0,
                  at_index balanceOfCalls (len balanceOfCalls - 1) with
            | Some first, Some last =>
                match BigNumber_from (returndata first),
                      BigNumber_from (returndata last) with
                | Ok initialBalance, Ok finalBalance =>
                    Some (Some (finalBalance - initialBalance)%Z)
                | _, _ => None
                end
            | _, _ => None
            end
        | eth =>
            let calls := List.filter (is_type "call") cs in
            match at_index calls (len calls - 1) with
            | Some last => Some (Some (node_value last))
            | None => None
            end
        end
      else None
  | _, _ => None
  end.

End Sources.

(** Modelled from the spec: [pairAddress(factory, initCodeHash, tokenA,
    tokenB)]: "sort the two token addresses by their unsigned numeric
    value (token0 = smaller), form [salt = hash(encode(token0, token1))],
    and derive the deterministic contract address". *)
Definition pairAddress (factory initCodeHash tokenA tokenB : string) : Exc string :=
  let '(token0, token1) :=
    if numerically_below tokenA tokenB then (tokenA, tokenB)
    else (tokenB, tokenA) in
  (salt <- solidityKeccak256 token0 token1 ;;
   getCreate2Address factory salt initCodeHash)%exc.

End Spec.

(* ===================================================================== *)
(** * Further statement-side definitions *)
(* ===================================================================== *)

Module Props.
Import Hex Ethers Types.

(** The fields of a swap record that only the call arguments write. *)
Definition same_frame (ra rb : UniswapV2RouterSwapDecoder.SwapAction) : Prop :=
  UniswapV2RouterSwapDecoder.type rb = UniswapV2RouterSwapDecoder.type ra
  /\ UniswapV2RouterSwapDecoder.operator rb = UniswapV2RouterSwapDecoder.operator ra
  /\ UniswapV2RouterSwapDecoder.recipient rb = UniswapV2RouterSwapDecoder.recipient ra
  /\ UniswapV2RouterSwapDecoder.amountInMax rb
     = UniswapV2RouterSwapDecoder.amountInMax ra
  /\ UniswapV2RouterSwapDecoder.amountOutMin rb
     = UniswapV2RouterSwapDecoder.amountOutMin ra.

(** What [decodeCall] has in hand after decoding a call to the router of
    [Traces.router]. *)
Definition v2_decoded (swapMetadata : UniswapV2RouterSwapDecoder.SwapMetadata)
           (inputs : Result) (outputs : option Result) (path : list Value)
  : Spec.Decoded :=
  {| Spec.d_routerInfo :=
       {| UniswapV2RouterSwapDecoder.factory :=
            "0x5C69bEe701ef814a2B6a3EDD4B1652CB9cc5aA6f";
          UniswapV2RouterSwapDecoder.initcodeHash :=
            "0x96e8ac4277198ff8b6f785478aa9a39f403cb768dd02cbee326c3e7da348845f" |};
     Spec.d_metadata := swapMetadata;
     Spec.d_inputs := inputs;
     Spec.d_outputs := outputs;
     Spec.d_path := path |}.

(** The four-byte selector of a signature, as a hex string:
    [ethers.utils.id(fragment.format()).substring(0, 10)]. *)
Definition selector (f : FunctionFragment) : string :=
  String.substring 0 10 (id (format f)).

(** The signatures that key [addLiquidityFunctions]. *)
Definition removeLiquiditySignatures : list FunctionFragment :=
  [ UniswapV2RouterRemoveLiquidityDecoder.removeLiquidity;
    UniswapV2RouterRemoveLiquidityDecoder.removeLiquidityETH;
    UniswapV2RouterRemoveLiquidityDecoder.removeLiquidityWithPermit;
    UniswapV2RouterRemoveLiquidityDecoder.removeLiquidityETHWithPermit;
    UniswapV2RouterRemoveLiquidityDecoder.removeLiquidityETHSupportingFeeOnTransferTokens;
    UniswapV2RouterRemoveLiquidityDecoder.removeLiquidityETHWithPermitSupportingFeeOnTransferTokens ].

(** Every signature registered by one of the three decoders. *)
Definition registered : list FunctionFragment :=
  map fst UniswapV2RouterSwapDecoder.functions
  ++ map fst UniswapV2RouterAddLiquidityDecoder.functions
  ++ removeLiquiditySignatures.

(** The pool of a routine's tuple. *)
Definition tuple_pool (t : LiquidityTuple) : string :=
  let '(pool, _, _, _, _, _, _) := t in pool.

(** The two routines of the add-liquidity decoder, by the [eth] flag of
    the signature they belong to. *)
Definition add_routine (ops : HandleOps) (eth : bool)
  : TraceEntry -> Result -> option Result -> list TraceEntry
    -> M DecodeState LiquidityTuple :=
  if eth then UniswapV2RouterAddLiquidityDecoder.decodeAddLiquidityETH ops
  else UniswapV2RouterAddLiquidityDecoder.decodeAddLiquidity ops.

(** For each signature of the remove-liquidity decoder, the number of
    sub-calls its routine reads from. *)
Definition subcalls_read : list (FunctionFragment * nat) :=
  [ (UniswapV2RouterRemoveLiquidityDecoder.removeLiquidity, 1%nat);
    (UniswapV2RouterRemoveLiquidityDecoder.removeLiquidityETH, 5%nat);
    (UniswapV2RouterRemoveLiquidityDecoder.removeLiquidityWithPermit, 1%nat);
    (UniswapV2RouterRemoveLiquidityDecoder.removeLiquidityETHWithPermit, 6%nat);
    (UniswapV2RouterRemoveLiquidityDecoder.removeLiquidityETHSupportingFeeOnTransferTokens,
     5%nat);
    (UniswapV2RouterRemoveLiquidityDecoder.removeLiquidityETHWithPermitSupportingFeeOnTransferTokens,
     6%nat) ].

(** The hex digits, in either case. *)
Definition hex_chars : list ascii :=
  list_ascii_of_string "0123456789abcdefABCDEF".

(** The parity of a decimal digit, which is that of its character code. *)
Definition digit_parity (c : ascii) : Z := (Z.of_N (N_of_ascii c) mod 2)%Z.

End Props.

(** ** Proof steps for the routines of the earlier interface *)

(** Case analysis on the outcome of the next helper call. *)
Ltac next_helper :=
  match goal with
  | |- context [Types.handleTransferFrom ?o ?v ?s] =>
      destruct (Types.handleTransferFrom o v s) as [[[] | ?] ?]
  | |- context [Types.handleTransfer ?o ?v ?s] =>
      destruct (Types.handleTransfer o v s) as [[[] | ?] ?]
  | |- context [Types.handleRecursively ?o ?v ?s] =>
      destruct (Types.handleRecursively o v s) as [[[] | ?] ?]
  end.

(** Case analysis on the next read of a value that may be [undefined]. *)
Ltac next_read :=
  match goal with
  | |- context [Ethers.BigNumber_from_hex ?o] =>
      destruct (Ethers.BigNumber_from_hex o) eqn:?; [| discriminate]
  | |- context [Js.defined ?o] =>
      destruct o eqn:?; cbn [Js.defined Js.ret Types.setHandled]; [| discriminate]
  end.

(** The routines and the two helpers they share, unfolded. *)
Ltac unfold_routines :=
  unfold
    UniswapV2RouterRemoveLiquidityDecoder.decodeRemoveLiquidityETHSupportingFeeOnTransferTokens,
    UniswapV2RouterRemoveLiquidityDecoder.decodeRemoveLiquidityETHWithPermitSupportingFeeOnTransferTokens,
    UniswapV2RouterRemoveLiquidityDecoder.decodeFeeOnTransfer,
    UniswapV2RouterRemoveLiquidityDecoder.decodeRemoveLiquidity,
    UniswapV2RouterRemoveLiquidityDecoder.decodeRemoveLiquidityETH,
    UniswapV2RouterRemoveLiquidityDecoder.decodeRemoveLiquidityWithPermit,
    UniswapV2RouterRemoveLiquidityDecoder.decodeRemoveLiquidityETHWithPermit,
    UniswapV2RouterRemoveLiquidityDecoder.handleRemoveLiquidity,
    UniswapV2RouterRemoveLiquidityDecoder.handleEthReturn,
    Js.bindM, Js.lift, Js.ret.

(* ===================================================================== *)
(** * Known answers *)
(* ===================================================================== *)

(** The embedding of [ethers] reproduces published values: the hash of the
    empty string, the selectors of the router's functions, the EIP-55
    spelling of three token addresses and the addresses of deployed pairs. *)
Module KnownAnswers.
Import Hex Ethers Types Traces.

Example keccak256_empty :
  hexlify (Keccak.keccak256 []) =
  "0xc5d2460186f7233c927e7db2dcc703c0e500b653ca82273b7bfad8045d85a470".
Proof. vm_compute. reflexivity. Qed.

Example swap_selectors :
  map (fun p => String.substring 0 10 (id (format (fst p))))
      UniswapV2RouterSwapDecoder.functions =
  [ "0x38ed1739"; "0x8803dbee"; "0x7ff36ab5"; "0x4a25d94a"; "0x18cbafe5";
    "0xfb3bdb41"; "0x5c11d795"; "0xb6f9de95"; "0x791ac947" ].
Proof. vm_compute. reflexivity. Qed.

Example add_liquidity_selectors :
  map (fun p => String.substring 0 10 (id (format (fst p))))
      UniswapV2RouterAddLiquidityDecoder.functions =
  [ "0xe8e33700"; "0xf305d719" ].
Proof. vm_compute. reflexivity. Qed.

Example swap_event_topic :
  id (format_event UniswapV2RouterSwapDecoder.swapEventSelector) =
  "0xd78ad95fa46c994b6551d0da85fc275fe613ce37657fb8d5e3d130840159d822".
Proof. vm_compute. reflexivity. Qed.

Example checksummed_tokens :
  map getAddress
      [ "0xc02aaa39b223fe8d0a0e5c4f27ead9083c756cc2";
        "0xa0b86991c6218b36c1d19d4a2e9eb0ce3606eb48";
        "0xc00e94cb662c3520282e6f5717214004a7f26888" ] =
  [ Ok WETH; Ok USDC; Ok COMP ].
Proof. vm_compute. reflexivity. Qed.

Example bad_checksum_rejected :
  getAddress "0xC02aaA39b223FE8D0A0e5C4F27eAD9083C756CC2" = Throw ArgumentError.
Proof. vm_compute. reflexivity. Qed.

Example usdc_weth_pair_address :
  UniswapV2RouterSwapDecoder.computePairAddress
    "0x5C69bEe701ef814a2B6a3EDD4B1652CB9cc5aA6f"
    "0x96e8ac4277198ff8b6f785478aa9a39f403cb768dd02cbee326c3e7da348845f"
    WETH USDC = Ok USDC_WETH_pair.
Proof. vm_compute. reflexivity. Qed.

End KnownAnswers.

(* ===================================================================== *)
(** * Pair addresses *)
(* ===================================================================== *)

Section PairAddress.
Import Hex Ethers Types.
Import UniswapV2RouterSwapDecoder.

Lemma ltb_asym (a b : string) : String.ltb a b = true -> String.ltb b a = false.
Proof.
  unfold String.ltb. rewrite (String.compare_antisym b a).
  destruct (String.compare a b); simpl; congruence.
Qed.

Lemma ltb_total (a b : string) :
  String.ltb a b = false -> String.ltb b a = false -> a = b.
Proof.
  unfold String.ltb. rewrite (String.compare_antisym b a).
  destruct (String.compare a b) eqn:E; simpl; try congruence.
  intros _ _. now apply String.compare_eq_iff.
Qed.

(** [getTokens] returns the same ordered pair for both argument orders. *)
Lemma getTokens_sym (a b : string) : getTokens a b = getTokens b a.
Proof.
  unfold getTokens.
  destruct (String.ltb a b) eqn:Hab.
  - now rewrite (ltb_asym _ _ Hab).
  - destruct (String.ltb b a) eqn:Hba; [reflexivity |].
    now rewrite (ltb_total _ _ Hab Hba).
Qed.

(** Sorting a sorted pair leaves it as it is. *)
Lemma getTokens_idem (a b : string) :
  getTokens (fst (getTokens a b)) (snd (getTokens a b)) = getTokens a b.
Proof.
  unfold getTokens.
  destruct (String.ltb a b) eqn:Hab; simpl.
  - now rewrite Hab.
  - destruct (String.ltb b a) eqn:Hba; [reflexivity |].
    now rewrite (ltb_total _ _ Hab Hba).
Qed.

Lemma computePairAddress_sorted (f h a b : string) :
  computePairAddress f h (fst (getTokens a b)) (snd (getTokens a b))
  = computePairAddress f h a b.
Proof. unfold computePairAddress. now rewrite getTokens_idem. Qed.

Lemma computePairAddress_swap (f h a b : string) :
  computePairAddress f h a b = computePairAddress f h b a.
Proof. unfold computePairAddress. now rewrite (getTokens_sym a b). Qed.

(** C5. The derived pair address does not depend on the order of the two
    token arguments: [computePairAddress f h A B = computePairAddress f h B A]
    for every factory [f], init-code hash [h] and tokens [A], [B]. *)
Theorem computePairAddress_order_independent (f h A B : string) :
  computePairAddress f h A B = computePairAddress f h B A.
Proof. apply computePairAddress_swap. Qed.

End PairAddress.

Section TokenOrder.
Import Hex Ethers Types Traces Spec.
Import UniswapV2RouterSwapDecoder.

(** C6 (the code departs from the claim).  COMP and WETH are two
    checksummed mainnet addresses; COMP is the smaller 20-byte integer, yet
    [getTokens] returns WETH as token0, because the comparison is on the
    strings and an upper-case [C] sorts before a lower-case [c].  The pair
    address derived from that order is not the address of the deployed
    COMP/WETH pair, which the numeric order gives. *)
Theorem getTokens_sorts_strings_not_numbers :
  getAddress COMP = Ok COMP
  /\ getAddress WETH = Ok WETH
  /\ numerically_below COMP WETH = true
  /\ getTokens COMP WETH = (WETH, COMP)
  /\ computePairAddress
       "0x5C69bEe701ef814a2B6a3EDD4B1652CB9cc5aA6f"
       "0x96e8ac4277198ff8b6f785478aa9a39f403cb768dd02cbee326c3e7da348845f"
       COMP WETH
     = Ok "0x0973F5d6792CAf366DE660e6cD1A89d3F3434Fc3"
  /\ (salt <- solidityKeccak256 COMP WETH ;;
      getCreate2Address
        "0x5C69bEe701ef814a2B6a3EDD4B1652CB9cc5aA6f" salt
        "0x96e8ac4277198ff8b6f785478aa9a39f403cb768dd02cbee326c3e7da348845f")%exc
     = Ok COMP_WETH_pair.
Proof. vm_compute. repeat split; reflexivity. Qed.

End TokenOrder.

(* ===================================================================== *)
(** * When the string order is the numeric order *)
(* ===================================================================== *)

Section SameCase.
Import Hex Ethers Types Spec.
Import UniswapV2RouterSwapDecoder.

Lemma lower_hex_digit_value (c : ascii) :
  is_lower_hex c = true ->
  exists x, hexval c = Some x /\ (x < 16)%N
            /\ (if (N_of_ascii c <=? 57)%N then N_of_ascii c = (x + 48)%N
                else N_of_ascii c = (x + 87)%N /\ (10 <= x)%N).
Proof.
  unfold is_lower_hex, hexval. intros H.
  destruct ((48 <=? N_of_ascii c) && (N_of_ascii c <=? 57))%N eqn:Hd.
  - apply andb_true_iff in Hd as [H1 H2].
    apply N.leb_le in H1. apply N.leb_le in H2.
    exists (N_of_ascii c - 48)%N. rewrite (proj2 (N.leb_le _ _) H2).
    repeat split; lia.
  - cbn [orb] in H. rewrite H.
    apply andb_true_iff in H as [H1 H2].
    apply N.leb_le in H1. apply N.leb_le in H2.
    exists (N_of_ascii c - 87)%N.
    destruct (N_of_ascii c <=? 57)%N eqn:E; [apply N.leb_le in E; lia |].
    repeat split; lia.
Qed.

(** On lower-case hex digits the order of the characters is the order of
    their values. *)
Lemma lower_hex_compare (c d : ascii) (x y : N) :
  is_lower_hex c = true -> is_lower_hex d = true ->
  hexval c = Some x -> hexval d = Some y ->
  Ascii.compare c d = (x ?= y)%N.
Proof.
  intros Hc Hd Hx Hy.
  destruct (lower_hex_digit_value c Hc) as (x' & Hx' & Bx & Cx).
  destruct (lower_hex_digit_value d Hd) as (y' & Hy' & By & Cy).
  rewrite Hx in Hx'. rewrite Hy in Hy'. injection Hx' as <-. injection Hy' as <-.
  unfold Ascii.compare.
  destruct (N_of_ascii c <=? 57)%N eqn:Ec, (N_of_ascii d <=? 57)%N eqn:Ed;
    apply N.leb_le in Ec || apply N.leb_gt in Ec;
    apply N.leb_le in Ed || apply N.leb_gt in Ed.
  - rewrite Cx, Cy. destruct (N.compare_spec x y);
      [apply N.compare_eq_iff | apply N.compare_lt_iff | apply N.compare_gt_iff]; lia.
  - destruct Cy as [Cy Ly].
    destruct (N.compare_spec x y);
      [apply N.compare_eq_iff | apply N.compare_lt_iff | apply N.compare_gt_iff]; lia.
  - destruct Cx as [Cx Lx].
    destruct (N.compare_spec x y);
      [apply N.compare_eq_iff | apply N.compare_lt_iff | apply N.compare_gt_iff]; lia.
  - destruct Cx as [Cx Lx], Cy as [Cy Ly]. rewrite Cx, Cy.
    destruct (N.compare_spec x y);
      [apply N.compare_eq_iff | apply N.compare_lt_iff | apply N.compare_gt_iff]; lia.
Qed.

Lemma hexval_bound (c : ascii) (x : N) : hexval c = Some x -> (x < 16)%N.
Proof.
  unfold hexval.
  destruct ((48 <=? N_of_ascii c) && (N_of_ascii c <=? 57))%N eqn:E1.
  { apply andb_true_iff in E1 as [_ E]. apply N.leb_le in E. intros [= <-]. lia. }
  destruct ((97 <=? N_of_ascii c) && (N_of_ascii c <=? 102))%N eqn:E2.
  { apply andb_true_iff in E2 as [_ E]. apply N.leb_le in E. intros [= <-]. lia. }
  destruct ((65 <=? N_of_ascii c) && (N_of_ascii c <=? 70))%N eqn:E3.
  { apply andb_true_iff in E3 as [_ E]. apply N.leb_le in E. intros [= <-]. lia. }
  discriminate.
Qed.

Lemma hex_value_some (cs : list ascii) (a b : Z) :
  hex_value a cs <> None -> hex_value b cs <> None.
Proof.
  revert a b. induction cs as [| c cs IH]; intros a b; cbn; [congruence |].
  destruct (hexval c); [apply IH | congruence].
Qed.

(** The digits read after an accumulator [acc] shift it and add their own
    value. *)
Lemma hex_value_acc (cs : list ascii) (acc v : Z) :
  hex_value acc cs = Some v ->
  exists w, hex_value 0 cs = Some w
            /\ v = (acc * 16 ^ Z.of_nat (length cs) + w)%Z
            /\ (0 <= w < 16 ^ Z.of_nat (length cs))%Z.
Proof.
  revert acc v. induction cs as [| c cs IH]; intros acc v.
  - cbn. intros [= <-]. exists 0%Z. repeat split; lia.
  - cbn [hex_value length]. destruct (hexval c) as [x |] eqn:Hx; [| discriminate].
    intros H. destruct (IH _ _ H) as (w & Hw & -> & Bw).
    pose proof (hexval_bound c x Hx) as Hx16.
    destruct (hex_value (16 * 0 + Z.of_N x) cs) as [w' |] eqn:Hw'.
    2: { exfalso. apply (hex_value_some cs 0 (16 * 0 + Z.of_N x)); congruence. }
    destruct (IH _ _ Hw') as (w'' & Hw'' & -> & _).
    rewrite Hw in Hw''. injection Hw'' as <-.
    exists ((16 * 0 + Z.of_N x) * 16 ^ Z.of_nat (length cs) + w)%Z.
    rewrite Nat2Z.inj_succ, Z.pow_succ_r by lia.
    repeat split; nia.
Qed.

(** For two runs of lower-case hex digits of the same length, the order of
    the strings is the order of the numbers. *)
Lemma lower_hex_order (s t : string) (v w : Z) :
  String.length s = String.length t ->
  forallb is_lower_hex (list_ascii_of_string s) = true ->
  forallb is_lower_hex (list_ascii_of_string t) = true ->
  hex_value 0 (list_ascii_of_string s) = Some v ->
  hex_value 0 (list_ascii_of_string t) = Some w ->
  String.compare s t = (v ?= w)%Z.
Proof.
  revert t v w. induction s as [| c s IH]; intros [| d t] v w Hlen Hs Ht Hv Hw;
    try discriminate.
  - cbn in *. injection Hv as <-. injection Hw as <-. reflexivity.
  - cbn [list_ascii_of_string forallb] in Hs, Ht.
    apply andb_true_iff in Hs as [Hc Hs]. apply andb_true_iff in Ht as [Hd Ht].
    cbn [list_ascii_of_string hex_value] in Hv, Hw.
    destruct (hexval c) as [x |] eqn:Hx; [| discriminate].
    destruct (hexval d) as [y |] eqn:Hy; [| discriminate].
    apply hex_value_acc in Hv as (v' & Hv' & -> & Bv).
    apply hex_value_acc in Hw as (w' & Hw' & -> & Bw).
    cbn [String.length] in Hlen. injection Hlen as Hlen.
    assert (Hl : length (list_ascii_of_string s) = length (list_ascii_of_string t)).
    { clear - Hlen. revert t Hlen.
      induction s as [| a s IH]; intros [| b t]; cbn; try discriminate; auto. }
    rewrite Hl in *.
    cbn [String.compare]. rewrite (lower_hex_compare c d x y Hc Hd Hx Hy).
    specialize (IH t v' w' Hlen Hs Ht Hv' Hw').
    set (p := (16 ^ Z.of_nat (length (list_ascii_of_string t)))%Z) in *.
    destruct (N.compare_spec x y) as [-> | Hlt | Hgt].
    + rewrite IH.
      destruct (Z.compare_spec v' w');
        symmetry;
        [apply Z.compare_eq_iff | apply Z.compare_lt_iff | apply Z.compare_gt_iff];
        lia.
    + symmetry. apply Z.compare_lt_iff. nia.
    + symmetry. apply Z.compare_gt_iff. nia.
Qed.

(** For two addresses written as [0x] and lower-case hex digits, of the same
    length, [getTokens] puts first the one with the smaller number. *)
Lemma getTokens_numeric_on_lower_case (s t : string) (v w : Z) :
  String.length s = String.length t ->
  forallb is_lower_hex (list_ascii_of_string s) = true ->
  forallb is_lower_hex (list_ascii_of_string t) = true ->
  hex_value 0 (list_ascii_of_string s) = Some v ->
  hex_value 0 (list_ascii_of_string t) = Some w ->
  getTokens ("0x" +:+ s) ("0x" +:+ t)
  = if (v <? w)%Z then ("0x" +:+ s, "0x" +:+ t) else ("0x" +:+ t, "0x" +:+ s).
Proof.
  intros Hlen Hs Ht Hv Hw. unfold getTokens, String.ltb.
  change (String.compare ("0x" +:+ s) ("0x" +:+ t)) with (String.compare s t).
  rewrite (lower_hex_order s t v w Hlen Hs Ht Hv Hw).
  unfold Z.ltb. destruct (v ?= w)%Z; reflexivity.
Qed.

End SameCase.

(* ===================================================================== *)
(** * Checksummed addresses are determined by their lower-case form *)
(* ===================================================================== *)

Section Checksum.
Import Hex Ethers.

Lemma lower_char_idem (c : ascii) : lower_char (lower_char c) = lower_char c.
Proof. destruct c as [[] [] [] [] [] [] [] []]; vm_compute; reflexivity. Qed.

Lemma lower_upper_char (c : ascii) :
  lower_char c = c -> lower_char (upper_char c) = c.
Proof. destruct c as [[] [] [] [] [] [] [] []]; vm_compute; congruence. Qed.

Lemma map_string_of_list (f : ascii -> ascii) (l : list ascii) :
  map_string f (string_of_list_ascii l) = string_of_list_ascii (map f l).
Proof. induction l as [| c l IH]; simpl; [reflexivity | now rewrite IH]. Qed.

Lemma list_of_map_string (f : ascii -> ascii) (s : string) :
  list_ascii_of_string (map_string f s) = map f (list_ascii_of_string s).
Proof. induction s as [| c s IH]; simpl; [reflexivity | now rewrite IH]. Qed.

(** Lower-casing undoes the upper-casing of the checksum. *)
Lemma lower_checksum_from (hashed : list byte) (cs : list ascii) (n : nat) :
  Forall (fun c => lower_char c = c) cs ->
  map lower_char
      (map (fun '(i, c) => if (8 <=? nibble hashed i)%N then upper_char c else c)
           (combine (seq n (length cs)) cs)) = cs.
Proof.
  intros H. revert n.
  induction H as [| c cs Hc _ IH]; intros n; simpl; [reflexivity |].
  rewrite IH. f_equal.
  destruct (8 <=? nibble hashed n)%N; [now apply lower_upper_char | exact Hc].
Qed.

Lemma toLowerCase_checksum (a : string) :
  toLowerCase (getChecksumAddress a) = "0x" +:+ drop_prefix (toLowerCase a).
Proof.
  unfold getChecksumAddress, toLowerCase, checksum_chars.
  set (s := drop_prefix (map_string lower_char a)).
  change (map_string lower_char ("0x" +:+ ?x))
    with ("0x" +:+ map_string lower_char x).
  rewrite map_string_of_list, lower_checksum_from.
  - now rewrite string_of_list_ascii_of_string.
  - subst s. unfold drop_prefix.
    generalize (String.length (map_string lower_char a) - 2) as m.
    generalize 2 as n. intros n m.
    revert n m.
    induction a as [| c a IH]; intros n m.
    + destruct n, m; simpl; constructor.
    + destruct n as [| n].
      * destruct m as [| m]; simpl; [constructor |].
        constructor; [apply lower_char_idem | apply (IH 0)].
      * simpl. apply IH.
Qed.

Lemma getAddress_checksummed (x P : string) :
  getAddress x = Ok P -> exists a, P = getChecksumAddress a.
Proof.
  unfold getAddress.
  destruct (_ && has_0x x); [| destruct (_ =? 40)%nat; [| discriminate]].
  all: destruct (is_hex _); [| discriminate].
  all: destruct (_ && negb _); [discriminate |].
  all: intros [= <-]; eauto.
Qed.

(** Two results of [getAddress] with the same lower-case form are equal. *)
Lemma getAddress_canonical (x y P Q : string) :
  getAddress x = Ok P -> getAddress y = Ok Q ->
  toLowerCase P = toLowerCase Q -> P = Q.
Proof.
  intros [a ->]%getAddress_checksummed [b ->]%getAddress_checksummed.
  rewrite !toLowerCase_checksum. intros H.
  apply (f_equal drop_prefix) in H.
  assert (E : forall s, drop_prefix ("0x" +:+ s) = s).
  { intros s. unfold drop_prefix.
    change ("0x" +:+ s) with (String "0" (String "x" s)).
    cbn [String.length String.substring Nat.sub]. rewrite Nat.sub_0_r.
    induction s as [| c s IH]; simpl; [reflexivity | now rewrite IH]. }
  rewrite !E in H.
  unfold getChecksumAddress. now rewrite H.
Qed.

Lemma getCreate2Address_checksummed (from salt h P : string) :
  getCreate2Address from salt h = Ok P -> exists x, getAddress x = Ok P.
Proof.
  unfold getCreate2Address, Js.bind.
  destruct (arrayify salt); [| discriminate].
  destruct (arrayify h); [| discriminate].
  destruct (negb _); [discriminate |].
  destruct (getAddress from); [| discriminate].
  destruct (arrayify _); [| discriminate].
  eauto.
Qed.

Lemma computePairAddress_checksummed (f h a b P : string) :
  UniswapV2RouterSwapDecoder.computePairAddress f h a b = Ok P ->
  exists x, getAddress x = Ok P.
Proof.
  unfold UniswapV2RouterSwapDecoder.computePairAddress, Js.bind.
  destruct (UniswapV2RouterSwapDecoder.getTokens a b) as [t0 t1].
  destruct (solidityKeccak256 t0 t1); [| discriminate].
  apply getCreate2Address_checksummed.
Qed.

End Checksum.

(* ===================================================================== *)
(** * Address matching *)
(* ===================================================================== *)

Section AddressMatching.
Import Hex Ethers Types Spec.
Import UniswapV2RouterSwapDecoder.

Lemma uniswapsByRouter_keys (k : string) (info : RouterInfo) :
  uniswapsByRouter !! k = Some info ->
  k = "0x7a250d5630B4cF539739dF2C5dAcb4c659F2488D"
  \/ k = "0xd9e1cE17f2641f24aE83637ab66a2cca9C378B9F".
Proof.
  intros H. apply elem_of_list_to_map_2 in H.
  apply elem_of_cons in H as [[= -> _] | H]; [now left |].
  apply elem_of_cons in H as [[= -> _] | H]; [now right |].
  now apply elem_of_nil in H.
Qed.

(** A destination that is a case variant of a registered router is not a
    key of the table. *)
Lemma case_variant_not_registered (to router : string) :
  is_Some (uniswapsByRouter !! router) ->
  differs_in_case_only to router ->
  uniswapsByRouter !! to = None.
Proof.
  intros [info Hr] [Hlow Hne].
  destruct (uniswapsByRouter !! to) as [info' |] eqn:E; [| reflexivity].
  apply uniswapsByRouter_keys in E. apply uniswapsByRouter_keys in Hr.
  destruct E as [-> | ->], Hr as [-> | ->];
    try congruence; vm_compute in Hlow; discriminate.
Qed.

Lemma find_skip {A} (f : A -> bool) (l1 : list A) (x : A) (l2 : list A) :
  f x = false -> List.find f (l1 ++ x :: l2) = List.find f (l1 ++ l2).
Proof.
  intros Hx. induction l1 as [| y l1 IH]; simpl.
  - now rewrite Hx.
  - now rewrite IH.
Qed.

(** An address that is a case variant of one derived pair address equals no
    derived pair address. *)
Lemma case_variant_matches_no_pair (f h a b P f' h' a' b' pairAddress addr : string) :
  computePairAddress f h a b = Ok P ->
  computePairAddress f' h' a' b' = Ok pairAddress ->
  differs_in_case_only addr pairAddress ->
  addr <> P.
Proof.
  intros [x Hx]%computePairAddress_checksummed
         [y Hy]%computePairAddress_checksummed [Hlow Hne] ->.
  apply Hne. symmetry. now apply (getAddress_canonical y x).
Qed.

Lemma derive_hop_derived (routerInfo : RouterInfo) (a b : option string)
      (pairAddress : string) :
  In pairAddress (derive_hop routerInfo a b) ->
  exists f h a' b', computePairAddress f h a' b' = Ok pairAddress.
Proof.
  unfold derive_hop. destruct a as [a |], b as [b |]; try contradiction.
  destruct (computePairAddress _ _ a b) as [p |] eqn:E; [| contradiction].
  intros [<- | []]. eauto.
Qed.

Lemma derivedPairAddresses_derived (node : DecoderInput) (pairAddress : string) :
  In pairAddress (derivedPairAddresses node) ->
  exists f h a b, computePairAddress f h a b = Ok pairAddress.
Proof.
  unfold derivedPairAddresses.
  destruct (uniswapsByRouter !! node_to node) as [routerInfo |]; [| contradiction].
  destruct (List.find _ functions) as [[fragment meta] |]; [| contradiction].
  destruct (decodeFunctionWithFragment node fragment) as [[inputs outputs] |];
    [| contradiction].
  destruct (get_array inputs "path") as [path |]; [| contradiction].
  intros [H | H]%in_app_or; eapply derive_hop_derived; eassumption.
Qed.

(** The event stage does not see a log whose address equals no derived pair
    address. *)
Lemma pullFromEvents_ignores (routerInfo : RouterInfo) (node : DecoderInput)
      (path : list Value) (r : SwapAction) (before : list Log) (event : Log)
      (after : list Log) :
  logs node = Some (before ++ event :: after) ->
  (forall a b P,
      computePairAddress (factory routerInfo) (initcodeHash routerInfo) a b = Ok P ->
      log_address event <> P) ->
  pullFromEvents routerInfo node path r
  = pullFromEvents routerInfo (with_logs (Some (before ++ after)) node) path r.
Proof.
  intros Hlogs Hno. unfold pullFromEvents.
  rewrite Hlogs. cbn [with_logs logs].
  destruct (path_at path 0) as [a0 |]; [| reflexivity].
  destruct (path_at path 1) as [a1 |]; [| reflexivity].
  cbn [token_arg Js.bind].
  pose proof (computePairAddress_sorted (factory routerInfo)
                (initcodeHash routerInfo) a0 a1) as Hs.
  destruct (getTokens a0 a1) as [firstToken0 firstToken1]. cbn [fst snd] in Hs.
  rewrite Hs.
  destruct (computePairAddress _ _ a0 a1) as [F |] eqn:EF; [| reflexivity].
  cbn [Js.bind].
  destruct (path_at path (len path - 2)) as [b0 |]; [| reflexivity].
  destruct (path_at path (len path - 1)) as [b1 |]; [| reflexivity].
  cbn [token_arg Js.bind].
  pose proof (computePairAddress_sorted (factory routerInfo)
                (initcodeHash routerInfo) b0 b1) as Hl.
  destruct (getTokens b0 b1) as [lastToken0 lastToken1]. cbn [fst snd] in Hl.
  rewrite Hl.
  destruct (computePairAddress _ _ b0 b1) as [L |] eqn:EL; [| reflexivity].
  cbn [Js.bind].
  assert (HF : at_address F event = false).
  { apply String.eqb_neq. eapply Hno; eassumption. }
  assert (HL : at_address L event = false).
  { apply String.eqb_neq. eapply Hno; eassumption. }
  rewrite !List.filter_app. cbn [List.filter].
  destruct (hasTopic event swapEventSelector); [| reflexivity].
  rewrite (find_skip _ _ _ _ HF).
  rewrite !rev_app_distr. cbn [rev]. rewrite <- app_assoc. cbn [app].
  rewrite (find_skip _ _ _ _ HL).
  reflexivity.
Qed.

(** C10. Address matching in the swap decoder is exact string equality.
    (1) A node whose destination differs from a registered router address
    only in letter case is not decoded: [decodeCall] returns [null] and
    leaves the state as it was.  (2) A log whose address differs only in
    letter case from a pair address derived for the node is ignored: the
    decoder returns what it returns for the node without that log. *)
Theorem address_matching_is_case_sensitive :
  (forall (ops : ConsumeOps) (node : DecoderInput) (state : DecoderState)
          (router : string),
      is_Some (uniswapsByRouter !! router) ->
      differs_in_case_only (node_to node) router ->
      decodeCall ops node state = (Ok None, state))
  /\
  (forall (ops : ConsumeOps) (node : DecoderInput) (state : DecoderState)
          (before : list Log) (event : Log) (after : list Log) (pairAddress : string),
      logs node = Some (before ++ event :: after) ->
      In pairAddress (derivedPairAddresses node) ->
      differs_in_case_only (log_address event) pairAddress ->
      decodeCall ops node state
      = decodeCall ops (with_logs (Some (before ++ after)) node) state).
Proof.
  split.
  - intros ops node state router Hreg Hcase.
    unfold decodeCall.
    rewrite (case_variant_not_registered _ _ Hreg Hcase).
    destruct (isConsumed state node), (negb (is_type "call" node)); reflexivity.
  - intros ops node state before event after pairAddress Hlogs Hin Hcase.
    apply derivedPairAddresses_derived in Hin as (f & h & a & b & Hderived).
    unfold decodeCall.
    change (isConsumed state (with_logs ?l node)) with (isConsumed state node).
    change (is_type "call" (with_logs ?l node)) with (is_type "call" node).
    change (node_to (with_logs ?l node)) with (node_to node).
    change (calldata (with_logs ?l node)) with (calldata node).
    destruct (isConsumed state node); [reflexivity |].
    destruct (negb (is_type "call" node)); [reflexivity |].
    destruct (uniswapsByRouter !! node_to node) as [routerInfo |]; [| reflexivity].
    destruct (List.find _ functions) as [[fragment swapMetadata] |]; [| reflexivity].
    change (decodeFunctionWithFragment (with_logs ?l node) fragment)
      with (decodeFunctionWithFragment node fragment).
    unfold Js.bindM, Js.lift.
    destruct (decodeFunctionWithFragment node fragment) as [[inputs outputs] |];
      [| reflexivity].
    change (consumeNode ops swapMetadata (with_logs ?l node))
      with (consumeNode ops swapMetadata node).
    destruct (consumeNode ops swapMetadata node state) as [[[] |] state1];
      [| reflexivity].
    destruct (defined (get_array inputs "path")) as [path |]; [| reflexivity].
    change (initial (with_logs ?l node) inputs path) with (initial node inputs path).
    destruct (requestTokenMetadata _ state1) as [[[] |] state2]; [| reflexivity].
    destruct (requestTokenMetadata _ state2) as [[[] |] state3]; [| reflexivity].
    unfold buildResult.
    change (pullFromCalldata swapMetadata (with_logs ?l node) inputs)
      with (pullFromCalldata swapMetadata node inputs).
    rewrite <- (pullFromEvents_ignores routerInfo node path _ before event after Hlogs).
    + unfold Js.bind. destruct (pullFromEvents _ _ _ _); reflexivity.
    + intros a' b' P HP.
      exact (case_variant_matches_no_pair _ _ _ _ _ _ _ _ _ _ _ HP Hderived Hcase).
Qed.

(** The theorem at a swap addressed to the lower-case router and at a swap
    whose event is logged under the lower-case pair address. *)
Lemma address_matching_is_case_sensitive_witness :
  decodeCall Traces.simple_ops Traces.lower_case_router Traces.empty_state
  = (Ok None, Traces.empty_state)
  /\ decodeCall Traces.simple_ops Traces.lower_case_log Traces.empty_state
     = decodeCall Traces.simple_ops
                  (with_logs (Some ([] ++ [])) Traces.lower_case_log)
                  Traces.empty_state.
Proof.
  destruct address_matching_is_case_sensitive as [H1 H2]. split.
  - apply (H1 _ _ _ Traces.router).
    + exists {| factory := "0x5C69bEe701ef814a2B6a3EDD4B1652CB9cc5aA6f";
                initcodeHash :=
                  "0x96e8ac4277198ff8b6f785478aa9a39f403cb768dd02cbee326c3e7da348845f" |}.
      vm_compute. reflexivity.
    + split; vm_compute; [reflexivity | discriminate].
  - apply (H2 _ _ _ [] (Traces.swap_log (toLowerCase Traces.USDC_WETH_pair) 0 100 95 0)
              [] Traces.USDC_WETH_pair).
    + reflexivity.
    + vm_compute. left. reflexivity.
    + split; vm_compute; [reflexivity | discriminate].
Defined.

End AddressMatching.

(* ===================================================================== *)
(** * Claiming a node *)
(* ===================================================================== *)

Section Claiming.
Import Hex Ethers Types Spec.

(** A consumed node is offered in vain to both decoders of the current
    interface. *)
Lemma swap_decodeCall_consumed (ops : ConsumeOps) (node : DecoderInput)
      (state : DecoderState) :
  isConsumed state node = true ->
  UniswapV2RouterSwapDecoder.decodeCall ops node state = (Ok None, state).
Proof. intros H. unfold UniswapV2RouterSwapDecoder.decodeCall. now rewrite H. Qed.

Lemma addLiquidity_decodeCall_consumed (node : DecoderInput) (state : DecoderState) :
  isConsumed state node = true ->
  UniswapV2RouterAddLiquidityDecoder.decodeCall node state = (Ok None, state).
Proof.
  intros H. unfold UniswapV2RouterAddLiquidityDecoder.decodeCall. now rewrite H.
Qed.

Lemma bindM_consumed {A B} (p : string) (m : M DecoderState A)
      (k : A -> M DecoderState B) (state : DecoderState) :
  p ∈ consumed (snd (m state)) -> (forall a, keeps p (k a)) ->
  p ∈ consumed (snd (Js.bindM m k state)).
Proof.
  intros Hm Hk. unfold Js.bindM.
  destruct (m state) as [[a | e] state1]; simpl in *; [now apply Hk | exact Hm].
Qed.

Lemma keeps_bindM {A B} (p : string) (m : M DecoderState A)
      (k : A -> M DecoderState B) :
  keeps p m -> (forall a, keeps p (k a)) -> keeps p (Js.bindM m k).
Proof. intros Hm Hk state Hp. apply bindM_consumed; [now apply Hm | exact Hk]. Qed.

Lemma keeps_ret {A} (p : string) (a : A) : keeps p (Js.ret a).
Proof. intros state Hp. exact Hp. Qed.

Lemma keeps_lift {A} (p : string) (m : Exc A) : keeps p (Js.lift m).
Proof. intros state Hp. exact Hp. Qed.

Lemma keeps_forEach {A} (p : string) (f : A -> M DecoderState unit) (l : list A) :
  (forall x, keeps p (f x)) -> keeps p (forEach f l).
Proof.
  intros Hf. induction l as [| x l IH]; simpl.
  - apply keeps_ret.
  - apply keeps_bindM; [apply Hf | intros _; exact IH].
Qed.

Lemma keeps_consume (p : string) (call : DecoderInput) : keeps p (consume call).
Proof. intros state Hp. simpl. set_solver. Qed.

Lemma keeps_requestTokenMetadata (p : string) (token : option string) :
  keeps p (requestTokenMetadata token).
Proof. intros state Hp. exact Hp. Qed.

Lemma consumeNode_consumes (ops : ConsumeOps)
      (swapMetadata : UniswapV2RouterSwapDecoder.SwapMetadata)
      (node : DecoderInput) (state : DecoderState) :
  keeps_consumed ops ->
  node_path node
  ∈ consumed (snd (UniswapV2RouterSwapDecoder.consumeNode ops swapMetadata node state)).
Proof.
  intros Hops.
  assert (Ka : forall v, keeps (node_path node) (consumeAll ops v))
    by (intros v; apply Hops).
  assert (Kt : forall v, keeps (node_path node) (consumeTransfer ops v))
    by (intros v; apply Hops).
  assert (Kf : forall v, keeps (node_path node) (consumeTransferFrom ops v))
    by (intros v; apply Hops).
  unfold UniswapV2RouterSwapDecoder.consumeNode.
  apply bindM_consumed; [simpl; set_solver |].
  intros _. apply keeps_bindM; [| intros _; apply keeps_bindM].
  - destruct (UniswapV2RouterSwapDecoder.input swapMetadata).
    + unfold UniswapV2RouterSwapDecoder.consumeTokenInputSwap.
      destruct (children node); [apply Kf | apply keeps_ret].
    + unfold UniswapV2RouterSwapDecoder.consumeETHInputSwap.
      destruct (children node); [| apply keeps_ret].
      apply keeps_bindM; [apply Ka | intros _].
      apply keeps_bindM; [apply Ka | intros _].
      apply keeps_bindM; [apply keeps_lift | intros last].
      destruct (negb _); [apply Ka | apply keeps_ret].
  - unfold UniswapV2RouterSwapDecoder.consumeSwaps.
    destruct (children node); [| apply keeps_ret].
    apply keeps_forEach. intros call.
    apply keeps_bindM; [apply keeps_consume | intros _].
    destruct (children call); [| apply keeps_ret].
    apply keeps_forEach. intros v. apply Kt.
  - intros _. destruct (UniswapV2RouterSwapDecoder.output swapMetadata);
      [apply keeps_ret |].
    unfold UniswapV2RouterSwapDecoder.consumeETHOutputSwap.
    destruct (children node); [| apply keeps_ret].
    apply keeps_bindM; [apply Ka | intros _; apply Ka].
Qed.

(** The swap decoder claims what it decodes: when the consuming helpers
    never remove a path from [consumed], the path of a node for which
    [decodeCall] returns a record is in [consumed] afterwards. *)
Lemma swap_decodeCall_claims (ops : ConsumeOps) (node : DecoderInput)
      (state state' : DecoderState) (r : UniswapV2RouterSwapDecoder.SwapAction) :
  keeps_consumed ops ->
  UniswapV2RouterSwapDecoder.decodeCall ops node state = (Ok (Some r), state') ->
  isConsumed state' node = true.
Proof.
  intros Hops. unfold UniswapV2RouterSwapDecoder.decodeCall.
  destruct (isConsumed state node); [discriminate |].
  destruct (negb _); [discriminate |].
  destruct (_ !! _) as [routerInfo |]; [| discriminate].
  destruct (List.find _ _) as [[fragment swapMetadata] |]; [| discriminate].
  unfold Js.bindM at 1, Js.lift at 1.
  destruct (decodeFunctionWithFragment node fragment) as [[inputs outputs] | e];
    [| discriminate].
  intros Hdec. apply (f_equal snd) in Hdec. cbn [snd] in Hdec.
  unfold isConsumed. apply bool_decide_eq_true. rewrite <- Hdec.
  apply bindM_consumed; [now apply consumeNode_consumes |].
  intros _. apply keeps_bindM; [apply keeps_lift | intros path].
  apply keeps_bindM; [apply keeps_requestTokenMetadata | intros _].
  apply keeps_bindM; [apply keeps_requestTokenMetadata | intros _].
  apply keeps_bindM; [apply keeps_lift | intros r'; apply keeps_ret].
Qed.

(** The add-liquidity decoder leaves [consumed] as it finds it, whatever the
    node and the outcome. *)
Lemma addLiquidity_decodeCall_keeps_consumed (node : DecoderInput)
      (state : DecoderState) :
  consumed (snd (UniswapV2RouterAddLiquidityDecoder.decodeCall node state))
  = consumed state.
Proof.
  unfold UniswapV2RouterAddLiquidityDecoder.decodeCall.
  destruct (isConsumed state node); [reflexivity |].
  destruct (negb _); [reflexivity |].
  destruct (List.find _ _) as [[fragment functionMetadata] |]; [| reflexivity].
  unfold Js.bindM, Js.lift.
  destruct (decodeFunctionWithFragment node fragment) as [[inputs outputs] |];
    reflexivity.
Qed.

(** C1 (the code departs from the claim).  The add-liquidity decoder tests
    [isConsumed] and never calls [consume].  On the [addLiquidity] call
    below it returns a record, the node's path is not in [consumed]
    afterwards, and a second [decodeCall] on the same node returns the
    record again. *)
Theorem addLiquidity_decodeCall_does_not_consume :
  let decodeCall := UniswapV2RouterAddLiquidityDecoder.decodeCall in
  let node := Traces.add_liquidity in
  let first := decodeCall node Traces.empty_state in
  let second := decodeCall node (snd first) in
  fst first = Ok (Some (UniswapV2RouterAddLiquidityDecoder.result_of
                          {| UniswapV2RouterAddLiquidityDecoder.eth := false |} node
                          [ ("tokenA", VAddress Traces.USDC);
                            ("tokenB", VAddress Traces.WETH);
                            ("amountADesired", VUint 1000);
                            ("amountBDesired", VUint 10);
                            ("amountAMin", VUint 990);
                            ("amountBMin", VUint 9);
                            ("to", VAddress Traces.trader);
                            ("deadline", VUint Traces.deadline) ]))
  /\ isConsumed (snd first) node = false
  /\ fst second = fst first.
Proof. vm_compute. repeat split; reflexivity. Qed.

End Claiming.

(* ===================================================================== *)
(** * The add-liquidity record *)
(* ===================================================================== *)

Section AddLiquidityRecord.
Import Hex Ethers Types Spec.
Import UniswapV2RouterAddLiquidityDecoder.

(** Whatever the node, a record returned by [decodeCall] has no pool and
    none of the three amounts of the return data. *)
Lemma addLiquidity_record_incomplete (node : DecoderInput)
      (state state' : DecoderState) (r : UniswapV2RouterAddLiquidityResult) :
  decodeCall node state = (Ok (Some r), state') ->
  pool r = None /\ amountA r = None /\ amountB r = None /\ liquidity r = None.
Proof.
  unfold decodeCall.
  destruct (isConsumed state node); [discriminate |].
  destruct (negb _); [discriminate |].
  destruct (List.find _ _) as [[fragment functionMetadata] |]; [| discriminate].
  unfold Js.bindM, Js.lift.
  destruct (decodeFunctionWithFragment node fragment) as [[inputs outputs] |];
    [| discriminate].
  cbn [requestTokenMetadata Js.ret]. intros [= <- _]. repeat split.
Qed.

(** The routine of the earlier interface, which [decodeCall] does not call,
    returns the three amounts of the return data and the destination of the
    mint call as the pool. *)
Lemma decodeAddLiquidity_returns_outputs (ops : HandleOps) (node : TraceEntry)
      (inputs outs : Result) (subcalls : list TraceEntry)
      (state state' : DecodeState) (t : LiquidityTuple) :
  decodeAddLiquidity ops node inputs (Some outs) subcalls state = (Ok t, state') ->
  exists (idx : Z) (mint : TraceEntry),
    at_index subcalls (idx + 2) = Some mint
    /\ t = (te_to mint, get_address inputs "tokenA", get_address inputs "tokenB",
            get_uint outs "amountA", get_uint outs "amountB",
            get_uint outs "liquidity", get_address inputs "to").
Proof.
  unfold decodeAddLiquidity, Js.bindM, Js.lift.
  destruct (handleAddLiquidity subcalls) as [created |]; [| discriminate].
  set (idx := if created then 1%Z else 0%Z).
  destruct (handleTransferFrom ops _ state) as [[[] |] s1]; [| discriminate].
  destruct (handleTransfer ops _ s1) as [[[] |] s2]; [| discriminate].
  destruct (handleRecursively ops _ s2) as [[[] |] s3]; [| discriminate].
  destruct (at_index subcalls (idx + 2)) as [mint |] eqn:Hm; [| discriminate].
  cbn [defined Js.ret]. intros [= <- _]. eauto.
Qed.

(** C9 (the code departs from the claim).  Both add-liquidity calls below
    return [(1000, 10, 31)], which the codec decodes from the return data;
    the record that [decodeCall] returns carries no pool address and none
    of the three amounts.  The placeholder address does stand for the native
    currency in the record of [addLiquidityETH]. *)
Theorem addLiquidity_record_lacks_pool_and_amounts :
  let returned := Some [ ("amountA", VUint 1000); ("amountB", VUint 10);
                         ("liquidity", VUint 31) ] in
  let returned_eth := Some [ ("amountToken", VUint 1000); ("amountETH", VUint 10);
                             ("liquidity", VUint 31) ] in
  (exists inputs,
      decodeFunctionWithFragment Traces.add_liquidity addLiquidity
      = Ok (inputs, returned)
      /\ fst (decodeCall Traces.add_liquidity Traces.empty_state)
         = Ok (Some {| type := name;
                       actor := Traces.trader;
                       recipient := Some Traces.trader;
                       pool := None;
                       tokenA := Some Traces.USDC;
                       tokenB := Some Traces.WETH;
                       amountADesired := Some 990%Z;
                       amountBDesired := Some 9%Z;
                       amountAMin := Some 990%Z;
                       amountBMin := Some 9%Z;
                       amountA := None;
                       amountB := None;
                       liquidity := None |}))
  /\
  (exists inputs,
      decodeFunctionWithFragment Traces.add_liquidity_eth addLiquidityETH
      = Ok (inputs, returned_eth)
      /\ fst (decodeCall Traces.add_liquidity_eth Traces.empty_state)
         = Ok (Some {| type := name;
                       actor := Traces.trader;
                       recipient := Some Traces.trader;
                       pool := None;
                       tokenA := Some Traces.USDC;
                       tokenB := Some native_placeholder;
                       amountADesired := Some 990%Z;
                       amountBDesired := None;
                       amountAMin := Some 990%Z;
                       amountBMin := Some 9%Z;
                       amountA := None;
                       amountB := None;
                       liquidity := None |})).
Proof. split; eexists; split; vm_compute; reflexivity. Qed.

End AddLiquidityRecord.

(* ===================================================================== *)
(** * Malformed payloads *)
(* ===================================================================== *)

Section MalformedPayload.
Import Hex Ethers Types Spec.

(** The swap decoder decodes before it consumes: when the payload of the
    matched signature does not decode, the error propagates and the state
    is as it was. *)
Lemma swap_decodeCall_decode_error (ops : ConsumeOps) (node : DecoderInput)
      (state : DecoderState) (routerInfo : UniswapV2RouterSwapDecoder.RouterInfo)
      (fragment : FunctionFragment)
      (swapMetadata : UniswapV2RouterSwapDecoder.SwapMetadata) (e : Error) :
  isConsumed state node = false ->
  is_type "call" node = true ->
  UniswapV2RouterSwapDecoder.uniswapsByRouter !! node_to node = Some routerInfo ->
  List.find (fun '(f, _) => hasSelector (calldata node) f)
            UniswapV2RouterSwapDecoder.functions = Some (fragment, swapMetadata) ->
  decodeFunctionWithFragment node fragment = Throw e ->
  UniswapV2RouterSwapDecoder.decodeCall ops node state = (Throw e, state).
Proof.
  intros Hc Ht Hr Hf Hd. unfold UniswapV2RouterSwapDecoder.decodeCall.
  rewrite Hc, Ht, Hr, Hf. cbn [negb]. unfold Js.bindM, Js.lift. now rewrite Hd.
Qed.

Example truncated_swap_unclaimed (ops : ConsumeOps) :
  UniswapV2RouterSwapDecoder.decodeCall ops Traces.truncated_swap Traces.empty_state
  = (Throw DecodeError, Traces.empty_state).
Proof. vm_compute. reflexivity. Qed.

(** C4 (the code departs from the claim).  The remove-liquidity decoder
    marks the node as handled before it decodes the payload.  On a call
    whose input is the selector of [removeLiquidity] and nothing else, the
    decode raises [DecodeError] and the node's path stays in the handled
    set, whatever the helpers of the base class do. *)
Theorem removeLiquidity_decode_error_leaves_node_handled (ops : HandleOps) :
  let node := Traces.truncated_remove_liquidity in
  let outcome :=
    UniswapV2RouterRemoveLiquidityDecoder.decode ops node Traces.empty_decode_state in
  isHandled Traces.empty_decode_state (te_path node) = false
  /\ fst outcome = Throw DecodeError
  /\ isHandled (snd outcome) (te_path node) = true.
Proof. vm_compute. repeat split; reflexivity. Qed.

End MalformedPayload.

(* ===================================================================== *)
(** * Missing sub-calls *)
(* ===================================================================== *)

Section MissingSubcalls.
Import Hex Ethers Types Spec.
Import UniswapV2RouterRemoveLiquidityDecoder.

Lemma at_index_past_end {A} (l : list A) (i : Z) :
  (len l <= i)%Z -> at_index l i = None.
Proof.
  intros H. unfold at_index, len in *.
  destruct (i <? 0)%Z; [reflexivity |].
  apply nth_error_None. lia.
Qed.

Lemma removeLiquidityETH_selector :
  String.substring 0 10 (id (format removeLiquidityETH)) = "0x02751cec".
Proof. vm_compute. reflexivity. Qed.

Lemma removeLiquidity_selector :
  String.substring 0 10 (id (format removeLiquidity)) = "0xbaa2abde".
Proof. vm_compute. reflexivity. Qed.

(** An input with the selector of [removeLiquidityETH] is dispatched to
    [decodeRemoveLiquidityETH]. *)
Lemma find_removeLiquidityETH (ops : HandleOps) (input : string) :
  selector_is input removeLiquidityETH = true ->
  List.find (fun '(f, _) => selector_is input f) (addLiquidityFunctions ops)
  = Some (removeLiquidityETH, decodeRemoveLiquidityETH ops).
Proof.
  unfold selector_is. rewrite removeLiquidityETH_selector.
  intros H. apply String.eqb_eq in H.
  unfold addLiquidityFunctions. cbn [List.find].
  unfold selector_is.
  rewrite removeLiquidity_selector, removeLiquidityETH_selector, H.
  reflexivity.
Qed.

(** With fewer than five sub-calls the routine raises, whatever the helpers
    do: "handle the eth return" reads [subcalls[4].path]. *)
Lemma decodeRemoveLiquidityETH_raises (ops : HandleOps) (node : TraceEntry)
      (inputs : Result) (outputs : option Result) (subcalls : list TraceEntry)
      (state : DecodeState) :
  (length subcalls < 5)%nat ->
  exists e, fst (decodeRemoveLiquidityETH ops node inputs outputs subcalls state)
            = Throw e.
Proof.
  intros Hlen.
  unfold decodeRemoveLiquidityETH, handleRemoveLiquidity, handleEthReturn.
  unfold Js.bindM, Js.lift.
  destruct (handleTransferFrom ops _ state) as [[[] | e] s1]; [| eauto].
  destruct (handleRecursively ops _ s1) as [[[] | e] s2]; [| eauto].
  cbn [Js.ret].
  destruct (handleTransfer ops _ s2) as [[[] | e] s3]; [| eauto].
  destruct (handleRecursively ops _ s3) as [[[] | e] s4]; [| eauto].
  rewrite (at_index_past_end subcalls 4) by (unfold len; lia).
  cbn [defined fst]. eauto.
Qed.

(** C3 (as amended).  For every [removeLiquidityETH] call node, not yet
    handled, that has fewer than five nested call sub-calls, [decode]
    raises an error and returns no action record, whatever the helpers of
    the base class do. *)
Theorem removeLiquidityETH_missing_subcall_raises (ops : HandleOps)
        (node : TraceEntry) (state : DecodeState) :
  isHandled state (te_path node) = false ->
  te_type node = "call" ->
  selector_is (te_input node) removeLiquidityETH = true ->
  (length (List.filter (is_variant "call") (te_children node)) < 5)%nat ->
  exists e, fst (decode ops node state) = Throw e.
Proof.
  intros Hh Ht Hsel Hlen. unfold decode.
  rewrite Hh, Ht, (find_removeLiquidityETH ops _ Hsel).
  cbn [String.eqb negb].
  change (String.eqb "call" "call") with true. cbn [negb].
  unfold Js.bindM at 1. cbn [setHandled].
  unfold Js.bindM at 1, Js.lift at 1.
  destruct (decodeFunctionWithFragment_entry node removeLiquidityETH)
    as [[inputs outputs] | e]; [| eauto].
  unfold Js.bindM at 1.
  destruct (decodeRemoveLiquidityETH_raises ops node inputs outputs _
              {| handled := <[te_path node:=true]> (handled state);
                 requestedMetadata := requestedMetadata state |} Hlen) as [e He].
  destruct (decodeRemoveLiquidityETH ops node inputs outputs _ _) as [[t | e'] s1].
  - discriminate.
  - eauto.
Qed.

(** The theorem at a [removeLiquidityETH] call with four sub-calls. *)
Lemma removeLiquidityETH_missing_subcall_raises_witness :
  exists e,
    fst (decode Traces.lenient_ops (Traces.remove_liquidity_eth Traces.four_subcalls)
                Traces.empty_decode_state) = Throw e.
Proof.
  apply removeLiquidityETH_missing_subcall_raises.
  - vm_compute. reflexivity.
  - vm_compute. reflexivity.
  - vm_compute. reflexivity.
  - vm_compute. lia.
Defined.

(** C3 as stated fails.  A [removeLiquidityETH] call whose payload and
    return data decode and whose first four sub-calls are there, but not
    the fifth: with helpers that tolerate [undefined], [decode] raises
    [TypeError] and returns no record. *)
Lemma removeLiquidityETH_four_subcalls_raise :
  let node := Traces.remove_liquidity_eth Traces.four_subcalls in
  selector_is (te_input node) removeLiquidityETH = true
  /\ (exists inputs outputs,
        decodeFunctionWithFragment_entry node removeLiquidityETH
        = Ok (inputs, Some outputs))
  /\ length (List.filter (is_variant "call") (te_children node)) = 4%nat
  /\ fst (decode Traces.lenient_ops node Traces.empty_decode_state)
     = Throw TypeError.
Proof.
  cbv zeta.
  split; [vm_compute; reflexivity |].
  split; [do 2 eexists; vm_compute; reflexivity |].
  split; vm_compute; reflexivity.
Qed.

(** With the fifth sub-call in place the same call is decoded. *)
Example removeLiquidityETH_five_subcalls :
  fst (decode Traces.lenient_ops
              (Traces.remove_liquidity_eth (Traces.four_subcalls ++ [Traces.eth_return]))
              Traces.empty_decode_state)
  = Ok (Some {| type := name;
                actor := Traces.trader;
                recipient := Some Traces.trader;
                pool := Traces.USDC_WETH_pair;
                tokenA := Some Traces.USDC;
                tokenB := Some native_placeholder;
                amountA := Some 1000%Z;
                amountB := Some 10%Z;
                liquidity := Some 31%Z |}).
Proof. vm_compute. reflexivity. Qed.

End MissingSubcalls.

(* ===================================================================== *)
(** * The amounts of a swap *)
(* ===================================================================== *)

Section SwapAmounts.
Import Hex Ethers Types Spec.
Import UniswapV2RouterSwapDecoder.

(** The call arguments are the first source. *)
Lemma pullFromCalldata_amounts (d : Decoded) (node : DecoderInput) (r : SwapAction) :
  amountIn r = None -> amountOut r = None ->
  let ra := pullFromCalldata (d_metadata d) node (d_inputs d) r in
  amountIn ra = latest [argument_amountIn d node]
  /\ amountOut ra = latest [argument_amountOut d]
  /\ tokenIn ra = tokenIn r /\ tokenOut ra = tokenOut r.
Proof.
  intros Hin Hout. unfold pullFromCalldata, argument_amountIn, argument_amountOut, latest.
  destruct (exactIn (d_metadata d)); cbn; auto.
Qed.

(** The event stage overwrites an amount when its event is found. *)
Lemma pullFromEvents_amounts (d : Decoded) (node : DecoderInput) (ra rb : SwapAction) :
  pullFromEvents (d_routerInfo d) node (d_path d) ra = Ok rb ->
  amountIn rb = match event_amountIn d node with Some v => v | None => amountIn ra end
  /\ amountOut rb = match event_amountOut d node with Some v => v | None => amountOut ra end
  /\ tokenIn rb = tokenIn ra /\ tokenOut rb = tokenOut ra.
Proof.
  unfold pullFromEvents, event_amountIn, event_amountOut, hop_event, is_token0.
  destruct (logs node) as [ls |]; [| intros [= <-]; auto].
  set (swapEvents := List.filter _ ls).
  destruct (path_at (d_path d) 0) as [a0 |]; [| discriminate].
  destruct (path_at (d_path d) 1) as [a1 |]; [| discriminate].
  cbn [token_arg Js.bind].
  pose proof (computePairAddress_sorted (factory (d_routerInfo d))
                (initcodeHash (d_routerInfo d)) a0 a1) as Hs.
  destruct (getTokens a0 a1) as [firstToken0 firstToken1]. cbn [fst snd] in *.
  rewrite Hs. clear Hs.
  destruct (computePairAddress _ _ a0 a1) as [F |]; [| discriminate].
  cbn [Js.bind].
  destruct (path_at (d_path d) (len (d_path d) - 2)) as [b0 |]; [| discriminate].
  destruct (path_at (d_path d) (len (d_path d) - 1)) as [b1 |]; [| discriminate].
  cbn [token_arg Js.bind].
  pose proof (computePairAddress_sorted (factory (d_routerInfo d))
                (initcodeHash (d_routerInfo d)) b0 b1) as Hl.
  destruct (getTokens b0 b1) as [lastToken0 lastToken1]. cbn [fst snd] in *.
  rewrite Hl. clear Hl.
  destruct (computePairAddress _ _ b0 b1) as [L |]; [| discriminate].
  cbn [Js.bind].
  destruct (List.find (at_address F) swapEvents) as [first |].
  - destruct (parseLog _ (log_topics first) _) as [parsedFirst |]; [| discriminate].
    cbn [Js.bind].
    destruct (List.find (at_address L) (rev swapEvents)) as [last |].
    + destruct (parseLog _ (log_topics last) _) as [parsedLast |]; [| discriminate].
      cbn [Js.bind]. intros [= <-]. cbn. auto.
    + intros [= <-]. cbn. auto.
  - destruct (List.find (at_address L) (rev swapEvents)) as [last |].
    + destruct (parseLog _ (log_topics last) _) as [parsedLast |]; [| discriminate].
      cbn [Js.bind]. intros [= <-]. cbn. auto.
    + intros [= <-]. cbn. auto.
Qed.

(** The last stage overwrites the output amount from the return data or
    from the nested calls, and leaves the input amount. *)
Lemma pullFromReturndata_amounts (d : Decoded) (node : DecoderInput)
      (rb r : SwapAction) :
  pullFromReturndata (d_metadata d) node (d_outputs d) rb = Ok r ->
  amountIn r = amountIn rb
  /\ amountOut r = match nested_amountOut d node with
                  | Some v => v
                  | None => match returndata_amountOut d with
                            | Some v => v
                            | None => amountOut rb
                            end
                  end
  /\ tokenIn r = tokenIn rb /\ tokenOut r = tokenOut rb.
Proof.
  unfold pullFromReturndata, returndata_amountOut, nested_amountOut.
  destruct (d_outputs d) as [outs |]; [| intros [= <-]; auto].
  destruct (fee (d_metadata d)); cbn [negb].
  - destruct (children node) as [cs |]; [| intros [= <-]; auto].
    destruct (output (d_metadata d)).
    + set (balanceOfCalls := List.filter _ (List.filter _ cs)).
      destruct (at_index balanceOfCalls 0) as [first |]; [| discriminate].
      cbn [defined Js.bind].
      destruct (BigNumber_from (returndata first)) as [initialBalance |];
        [| discriminate].
      cbn [Js.bind].
      destruct (at_index balanceOfCalls (len balanceOfCalls - 1)) as [last |];
        [| discriminate].
      cbn [defined Js.bind].
      destruct (BigNumber_from (returndata last)) as [finalBalance |];
        [| discriminate].
      cbn [Js.bind]. intros [= <-]. cbn. auto.
    + set (calls := List.filter _ cs).
      destruct (at_index calls (len calls - 1)) as [last |]; [| discriminate].
      cbn [defined Js.bind]. intros [= <-]. cbn. auto.
  - destruct (get_array outs "amounts") as [amounts |]; [| discriminate].
    cbn [defined Js.bind]. intros [= <-].
    destruct (children node); cbn; auto.
Qed.

(** The amounts of a built record: for each field, the value of the last
    source, in the order (a) arguments, (b) events, (c) return data,
    (d) nested calls, that is available. *)
Lemma buildResult_amounts (d : Decoded) (node : DecoderInput) (r : SwapAction) :
  buildResult (d_routerInfo d) (d_metadata d) node (d_inputs d) (d_outputs d)
              (d_path d) = Ok r ->
  amountIn r = latest [argument_amountIn d node; event_amountIn d node]
  /\ amountOut r = latest [argument_amountOut d; event_amountOut d node;
                          returndata_amountOut d; nested_amountOut d node]
  /\ tokenIn r = path_at (d_path d) 0
  /\ tokenOut r = path_at (d_path d) (len (d_path d) - 1).
Proof.
  unfold buildResult, Js.bind.
  destruct (pullFromEvents _ _ _ _) as [rb |] eqn:Hev; [| discriminate].
  intros Hret.
  apply pullFromEvents_amounts in Hev as (Hin_b & Hout_b & Hti_b & Hto_b).
  apply pullFromReturndata_amounts in Hret as (Hin & Hout & Hti & Hto).
  destruct (pullFromCalldata_amounts
              d node (initial node (d_inputs d) (d_path d)) eq_refl eq_refl)
    as (Hin_a & Hout_a & Hti_a & Hto_a).
  rewrite Hin, Hin_b, Hin_a, Hout, Hout_b, Hout_a, Hti, Hti_b, Hti_a, Hto, Hto_b, Hto_a.
  unfold latest. cbn [fold_left].
  split; [reflexivity |]. split; [| split; reflexivity].
  unfold returndata_amountOut, nested_amountOut.
  destruct (d_outputs d); [| reflexivity].
  destruct (fee (d_metadata d)); [| destruct (children node); reflexivity].
  destruct (children node); reflexivity.
Qed.

(** What [decodeCall] went through when it returns a record. *)
Lemma decodeCall_returns (ops : ConsumeOps) (node : DecoderInput)
      (state : DecoderState) (r : SwapAction) :
  fst (decodeCall ops node state) = Ok (Some r) ->
  exists d,
    decoded node = Some d
    /\ buildResult (d_routerInfo d) (d_metadata d) node (d_inputs d) (d_outputs d)
                   (d_path d) = Ok r.
Proof.
  unfold decodeCall, decoded.
  destruct (isConsumed state node); [discriminate |].
  destruct (negb _); [discriminate |].
  destruct (_ !! _) as [routerInfo |]; [| discriminate].
  destruct (List.find _ _) as [[fragment swapMetadata] |]; [| discriminate].
  unfold Js.bindM, Js.lift.
  destruct (decodeFunctionWithFragment node fragment) as [[inputs outputs] |];
    [| discriminate].
  destruct (consumeNode ops swapMetadata node state) as [[[] |] state1];
    [| discriminate].
  destruct (get_array inputs "path") as [path |]; [| discriminate].
  cbn [defined requestTokenMetadata].
  destruct (buildResult _ _ _ _ _ _) as [r' |] eqn:Hb; [| discriminate].
  cbn [Js.ret fst]. intros [= <-]. eexists. split; [reflexivity | exact Hb].
Qed.

End SwapAmounts.

(* ===================================================================== *)
(** * The order of the sources *)
(* ===================================================================== *)

Section SourceOrder.
Import Hex Ethers Types Spec.
Import UniswapV2RouterSwapDecoder.

(** C2 (as amended).  The sources of a swap's amounts are applied in the
    fixed order (a) call arguments, (b) event logs, (c) return data,
    (d) nested calls, and every source that is available assigns its
    amount: in a record that [decodeCall] returns, [amountIn] and
    [amountOut] hold what the last available source says. *)
Theorem swap_amounts_latest_source_wins (ops : ConsumeOps) (node : DecoderInput)
        (state : DecoderState) (r : SwapAction) :
  fst (decodeCall ops node state) = Ok (Some r) ->
  exists d,
    decoded node = Some d
    /\ amountIn r = latest [argument_amountIn d node; event_amountIn d node]
    /\ amountOut r = latest [argument_amountOut d; event_amountOut d node;
                            returndata_amountOut d; nested_amountOut d node].
Proof.
  intros (d & Hd & Hb)%decodeCall_returns.
  apply buildResult_amounts in Hb as (Hin & Hout & _).
  exists d. auto.
Qed.

(** The theorem at the swap whose sources disagree: 97 and 96 are what
    the last available sources say. *)
Lemma swap_amounts_latest_source_wins_witness :
  fst (decodeCall Traces.simple_ops Traces.disagreeing_sources Traces.empty_state)
  = Ok (Some {| type := name;
                operator := Traces.trader;
                recipient := Some Traces.trader;
                tokenIn := Some Traces.WETH;
                tokenOut := Some Traces.USDC;
                amountIn := Some 97%Z;
                amountInMax := None;
                amountOut := Some 96%Z;
                amountOutMin := Some 1%Z |})
  /\ exists d,
      decoded Traces.disagreeing_sources = Some d
      /\ Some 97%Z = latest [argument_amountIn d Traces.disagreeing_sources;
                             event_amountIn d Traces.disagreeing_sources]
      /\ Some 96%Z = latest [argument_amountOut d;
                             event_amountOut d Traces.disagreeing_sources;
                             returndata_amountOut d;
                             nested_amountOut d Traces.disagreeing_sources].
Proof.
  split; [vm_compute; reflexivity |].
  apply (swap_amounts_latest_source_wins
           Traces.simple_ops Traces.disagreeing_sources Traces.empty_state
           {| type := name;
              operator := Traces.trader;
              recipient := Some Traces.trader;
              tokenIn := Some Traces.WETH;
              tokenOut := Some Traces.USDC;
              amountIn := Some 97%Z;
              amountInMax := None;
              amountOut := Some 96%Z;
              amountOutMin := Some 1%Z |}).
  vm_compute. reflexivity.
Defined.

(** C2 as stated fails.  In the swap below the call arguments set
    [amountIn] to 100 and the event log then overwrites it with 97; the
    event log sets [amountOut] to 95 and the return data then overwrites it
    with 96. *)
Lemma later_source_overwrites_earlier :
  let node := Traces.disagreeing_sources in
  let d := {| d_routerInfo :=
                {| factory := "0x5C69bEe701ef814a2B6a3EDD4B1652CB9cc5aA6f";
                   initcodeHash :=
                     "0x96e8ac4277198ff8b6f785478aa9a39f403cb768dd02cbee326c3e7da348845f" |};
              d_metadata := {| exactIn := true; input := tokens;
                               output := tokens; fee := false |};
              d_inputs := Traces.swap_inputs_decoded 100 1 Traces.WETH Traces.USDC;
              d_outputs := Some [("amounts", VArray [VUint 100; VUint 96])];
              d_path := [VAddress Traces.WETH; VAddress Traces.USDC] |} in
  decoded node = Some d
  /\ argument_amountIn d node = Some (Some 100%Z)
  /\ event_amountIn d node = Some (Some 97%Z)
  /\ event_amountOut d node = Some (Some 95%Z)
  /\ returndata_amountOut d = Some (Some 96%Z)
  /\ (exists r,
         fst (decodeCall Traces.simple_ops node Traces.empty_state) = Ok (Some r)
         /\ amountIn r = Some 97%Z
         /\ amountOut r = Some 96%Z
         /\ amountIn r <> earliest [argument_amountIn d node; event_amountIn d node]
         /\ amountOut r <> earliest [argument_amountOut d; event_amountOut d node;
                                     returndata_amountOut d; nested_amountOut d node]).
Proof.
  cbv zeta.
  split; [vm_compute; reflexivity |].
  split; [vm_compute; reflexivity |].
  split; [vm_compute; reflexivity |].
  split; [vm_compute; reflexivity |].
  split; [vm_compute; reflexivity |].
  exists {| type := name;
            operator := Traces.trader;
            recipient := Some Traces.trader;
            tokenIn := Some Traces.WETH;
            tokenOut := Some Traces.USDC;
            amountIn := Some 97%Z;
            amountInMax := None;
            amountOut := Some 96%Z;
            amountOutMin := Some 1%Z |}.
  split; [vm_compute; reflexivity |].
  split; [reflexivity |].
  split; [reflexivity |].
  split; vm_compute; discriminate.
Qed.

End SourceOrder.

(* ===================================================================== *)
(** * Two scenarios *)
(* ===================================================================== *)

Section Scenarios.
Import Hex Ethers Types Spec.
Import UniswapV2RouterSwapDecoder.

Lemma ltb_neq (a b : string) : String.ltb a b = true -> a <> b.
Proof.
  intros H ->. now rewrite (ltb_asym _ _ H) in H.
Qed.

(** Where the decoder's own derivation finds the event.  A call to a known
    router with the selector of [swapExactTokensForTokens], path [[A, B]],
    [amountIn = 100] and [amountOutMin = 1], where [B] sorts before [A] as
    a string, with one [Swap] event at the address that
    [computePairAddress] gives for [(A, B)], showing [amount1In = 100] and
    [amount0Out = 95], and whose return data is absent or ends in 95: when
    the consuming helpers succeed, [decodeCall] returns a record with
    [amountIn = 100], [amountOut = 95], [tokenIn = A] and [tokenOut = B]. *)
Lemma swapExactTokensForTokens_scenario
        (ops : ConsumeOps) (node : DecoderInput) (state state1 : DecoderState)
        (routerInfo : RouterInfo) (A B recipient : string) (deadline : Z)
        (outputs : option Result) (ls : list Log) (event : Log)
        (pairAddress : string) (parsedEvent : Result) :
  isConsumed state node = false ->
  is_type "call" node = true ->
  uniswapsByRouter !! node_to node = Some routerInfo ->
  hasSelector (calldata node) swapExactTokensForTokens = true ->
  decodeFunctionWithFragment node swapExactTokensForTokens
  = Ok ([ ("amountIn", VUint 100); ("amountOutMin", VUint 1);
          ("path", VArray [VAddress A; VAddress B]);
          ("to", VAddress recipient); ("deadline", VUint deadline) ],
        outputs) ->
  (outputs = None
   \/ exists amounts,
       outputs = Some [("amounts", VArray amounts)]
       /\ at_index amounts (len amounts - 1) = Some (VUint 95)) ->
  consumeNode ops {| exactIn := true; input := tokens; output := tokens; fee := false |}
              node state = (Ok tt, state1) ->
  String.ltb B A = true ->
  computePairAddress (factory routerInfo) (initcodeHash routerInfo) A B
  = Ok pairAddress ->
  logs node = Some ls ->
  List.find (at_address pairAddress)
            (List.filter (fun log => hasTopic log swapEventSelector) ls) = Some event ->
  List.find (at_address pairAddress)
            (rev (List.filter (fun log => hasTopic log swapEventSelector) ls))
  = Some event ->
  parseLog swapEventSelector (log_topics event) (log_data event) = Ok parsedEvent ->
  get_uint parsedEvent "amount1In" = Some 100%Z ->
  get_uint parsedEvent "amount0Out" = Some 95%Z ->
  exists r,
    fst (decodeCall ops node state) = Ok (Some r)
    /\ amountIn r = Some 100%Z /\ amountOut r = Some 95%Z
    /\ tokenIn r = Some A /\ tokenOut r = Some B.
Proof.
  intros Hc Ht Hr Hsel Hd Hout Hcons Hlt Hpair Hlogs Hfirst Hlast Hparse H1in H0out.
  set (inputs := [ ("amountIn", VUint 100); ("amountOutMin", VUint 1);
                   ("path", VArray [VAddress A; VAddress B]);
                   ("to", VAddress recipient); ("deadline", VUint deadline) ]) in *.
  set (meta := {| exactIn := true; input := tokens; output := tokens; fee := false |})
    in *.
  set (path := [VAddress A; VAddress B]).
  assert (Hev : forall ra,
             pullFromEvents routerInfo node path ra
             = Ok (set_amountOut (Some 95%Z) (set_amountIn (Some 100%Z) ra))).
  { intros ra. unfold pullFromEvents. rewrite Hlogs.
    change (path_at path 0) with (Some A).
    change (path_at path 1) with (Some B).
    change (path_at path (len path - 2)) with (Some A).
    change (path_at path (len path - 1)) with (Some B).
    cbn [token_arg Js.bind].
    unfold getTokens. rewrite (ltb_asym _ _ Hlt).
    rewrite (computePairAddress_swap _ _ B A), Hpair. cbn [Js.bind].
    rewrite Hfirst, Hlast, Hparse. cbn [Js.bind].
    rewrite (proj2 (String.eqb_neq B A) (ltb_neq _ _ Hlt)), String.eqb_refl.
    now rewrite H1in, H0out. }
  assert (Hbuild : exists r,
             buildResult routerInfo meta node inputs outputs path = Ok r
             /\ amountIn r = Some 100%Z /\ amountOut r = Some 95%Z
             /\ tokenIn r = Some A /\ tokenOut r = Some B).
  { unfold buildResult. rewrite Hev. cbn [Js.bind].
    unfold pullFromReturndata.
    destruct Hout as [-> | (amounts & -> & Hlast95)].
    - eexists. split; [reflexivity |]. repeat split.
    - change (fee meta) with false. cbn [negb].
      change (get_array [("amounts", VArray amounts)] "amounts") with (Some amounts).
      cbn [defined Js.bind]. rewrite Hlast95.
      eexists. split; [reflexivity |]. repeat split. }
  destruct Hbuild as (r & Hbuild & Hfields).
  exists r. split; [| exact Hfields].
  unfold decodeCall. rewrite Hc, Ht, Hr. cbn [negb].
  unfold functions. cbn [List.find]. rewrite Hsel.
  unfold Js.bindM, Js.lift. rewrite Hd. fold meta. rewrite Hcons.
  change (get_array inputs "path") with (Some path).
  cbn [defined requestTokenMetadata]. rewrite Hbuild. reflexivity.
Qed.

(** The lemma at a swap of WETH for USDC through the mainnet pair, where
    the two orders agree. *)
Lemma swapExactTokensForTokens_scenario_witness :
  exists r,
    fst (decodeCall Traces.simple_ops Traces.weth_for_usdc Traces.empty_state)
    = Ok (Some r)
    /\ amountIn r = Some 100%Z /\ amountOut r = Some 95%Z
    /\ tokenIn r = Some Traces.WETH /\ tokenOut r = Some Traces.USDC.
Proof.
  apply (swapExactTokensForTokens_scenario
           Traces.simple_ops Traces.weth_for_usdc Traces.empty_state
           (snd (consumeNode Traces.simple_ops
                             {| exactIn := true; input := tokens;
                                output := tokens; fee := false |}
                             Traces.weth_for_usdc Traces.empty_state))
           {| factory := "0x5C69bEe701ef814a2B6a3EDD4B1652CB9cc5aA6f";
              initcodeHash :=
                "0x96e8ac4277198ff8b6f785478aa9a39f403cb768dd02cbee326c3e7da348845f" |}
           Traces.WETH Traces.USDC Traces.trader Traces.deadline
           (Some [("amounts", VArray [VUint 100; VUint 95])])
           [Traces.swap_log Traces.USDC_WETH_pair 0 100 95 0]
           (Traces.swap_log Traces.USDC_WETH_pair 0 100 95 0)
           Traces.USDC_WETH_pair
           (Traces.parsed_swap_log 0 100 95 0)).
  - vm_compute. reflexivity.
  - vm_compute. reflexivity.
  - vm_compute. reflexivity.
  - vm_compute. reflexivity.
  - vm_compute. reflexivity.
  - right. exists [VUint 100; VUint 95]. split; vm_compute; reflexivity.
  - vm_compute. reflexivity.
  - vm_compute. reflexivity.
  - vm_compute. reflexivity.
  - vm_compute. reflexivity.
  - vm_compute. reflexivity.
  - vm_compute. reflexivity.
  - vm_compute. reflexivity.
  - vm_compute. reflexivity.
  - vm_compute. reflexivity.
Defined.

(** C7 (the code departs from the claim).  A call to a known router with
    the selector of [swapExactTokensForTokens], path [[WETH, COMP]],
    [amountIn = 100] and [amountOutMin = 1], without return data, and with
    one [Swap] event of the deployed COMP/WETH pair showing
    [amount1In = 100] and [amount0Out = 95].  The pair's address is the
    one that the specification's [pairAddress] derives, the tokens sorted
    by value (COMP is token0).  The decoder sorts the two strings, derives
    another address, finds no event there, and returns a record that has
    [amountIn = 100] from the arguments and no [amountOut]. *)
Theorem swap_event_at_the_pair_address_is_missed :
  let node := Traces.weth_for_comp in
  let event := Traces.swap_log Traces.COMP_WETH_pair 0 100 95 0 in
  let routerInfo :=
    {| factory := "0x5C69bEe701ef814a2B6a3EDD4B1652CB9cc5aA6f";
       initcodeHash :=
         "0x96e8ac4277198ff8b6f785478aa9a39f403cb768dd02cbee326c3e7da348845f" |} in
  isConsumed Traces.empty_state node = false
  /\ is_type "call" node = true
  /\ uniswapsByRouter !! node_to node = Some routerInfo
  /\ hasSelector (calldata node) swapExactTokensForTokens = true
  /\ decodeFunctionWithFragment node swapExactTokensForTokens
     = Ok (Traces.swap_inputs_decoded 100 1 Traces.WETH Traces.COMP, None)
  /\ numerically_below Traces.COMP Traces.WETH = true
  /\ pairAddress (factory routerInfo) (initcodeHash routerInfo)
                 Traces.WETH Traces.COMP = Ok (log_address event)
  /\ logs node = Some [event]
  /\ parseLog swapEventSelector (log_topics event) (log_data event)
     = Ok (Traces.parsed_swap_log 0 100 95 0)
  /\ computePairAddress (factory routerInfo) (initcodeHash routerInfo)
                        Traces.WETH Traces.COMP
     = Ok "0x0973F5d6792CAf366DE660e6cD1A89d3F3434Fc3"
  /\ fst (decodeCall Traces.simple_ops node Traces.empty_state)
     = Ok (Some {| type := name;
                   operator := Traces.trader;
                   recipient := Some Traces.trader;
                   tokenIn := Some Traces.WETH;
                   tokenOut := Some Traces.COMP;
                   amountIn := Some 100%Z;
                   amountInMax := None;
                   amountOut := None;
                   amountOutMin := Some 1%Z |}).
Proof.
  cbv zeta.
  split; [vm_compute; reflexivity |].
  split; [vm_compute; reflexivity |].
  split; [vm_compute; reflexivity |].
  split; [vm_compute; reflexivity |].
  split; [vm_compute; reflexivity |].
  split; [vm_compute; reflexivity |].
  split; [vm_compute; reflexivity |].
  split; [vm_compute; reflexivity |].
  split; [vm_compute; reflexivity |].
  split; vm_compute; reflexivity.
Qed.

Lemma decoded_outputs (node : DecoderInput) (d : Decoded) :
  decoded node = Some d -> returndata node <> None -> d_outputs d <> None.
Proof.
  unfold decoded.
  destruct (_ !! _) as [routerInfo |]; [| discriminate].
  destruct (List.find _ _) as [[fragment swapMetadata] |]; [| discriminate].
  unfold decodeFunctionWithFragment, Js.bind.
  destruct (decode (fn_inputs fragment) _) as [inputs |]; [| discriminate].
  destruct (returndata node) as [rd |]; [| congruence].
  destruct (decode (fn_outputs fragment) rd) as [outs |]; [| discriminate].
  destruct (get_array inputs "path"); [| discriminate].
  intros [= <-] _. discriminate.
Qed.

(** C8 (as amended).  For a swap call matched by a signature with
    fee-on-transfer support and a token output, whose return data is
    present and whose children hold two [balanceOf] static calls returning
    1000 and then 1080: a record that [decodeCall] returns has
    [amountOut = 80]. *)
Theorem fee_on_transfer_amountOut_is_balance_difference
        (ops : ConsumeOps) (node : DecoderInput) (state : DecoderState)
        (r : SwapAction) (d : Decoded) (cs : list DecoderInput)
        (before after : DecoderInput) :
  fst (decodeCall ops node state) = Ok (Some r) ->
  decoded node = Some d ->
  fee (d_metadata d) = true ->
  output (d_metadata d) = tokens ->
  returndata node <> None ->
  children node = Some cs ->
  List.filter (fun v => hasSelector (calldata v) balanceOf_call)
              (List.filter (is_type "staticcall") cs) = [before; after] ->
  BigNumber_from (returndata before) = Ok 1000%Z ->
  BigNumber_from (returndata after) = Ok 1080%Z ->
  amountOut r = Some 80%Z.
Proof.
  intros (d' & Hd' & Hb)%decodeCall_returns Hd Hfee Hout Hrd Hcs Hcalls Hb0 Hb1.
  rewrite Hd in Hd'. injection Hd' as <-.
  apply buildResult_amounts in Hb as (_ & -> & _).
  assert (Hnested : nested_amountOut d node = Some (Some 80%Z)).
  { unfold nested_amountOut.
    destruct (d_outputs d) eqn:Ho; [| now apply decoded_outputs in Hd].
    rewrite Hcs, Hfee, Hout, Hcalls.
    change (at_index [before; after] 0) with (Some before).
    change (at_index [before; after] (len [before; after] - 1)) with (Some after).
    cbv beta iota. now rewrite Hb0, Hb1. }
  unfold latest. cbn [fold_left]. now rewrite Hnested.
Qed.

(** The theorem at a fee-on-transfer swap of WETH for USDC. *)
Lemma fee_on_transfer_amountOut_is_balance_difference_witness :
  let r := {| type := name;
              operator := Traces.trader;
              recipient := Some Traces.trader;
              tokenIn := Some Traces.WETH;
              tokenOut := Some Traces.USDC;
              amountIn := Some 100%Z;
              amountInMax := None;
              amountOut := Some 80%Z;
              amountOutMin := Some 1%Z |} in
  fst (decodeCall Traces.simple_ops Traces.fee_on_transfer_swap Traces.empty_state)
  = Ok (Some r)
  /\ returndata Traces.fee_on_transfer_swap = Some []
  /\ amountOut r = Some 80%Z.
Proof.
  cbv zeta.
  split; [vm_compute; reflexivity |].
  split; [reflexivity |].
  apply (fee_on_transfer_amountOut_is_balance_difference
           Traces.simple_ops Traces.fee_on_transfer_swap Traces.empty_state
           {| type := name;
              operator := Traces.trader;
              recipient := Some Traces.trader;
              tokenIn := Some Traces.WETH;
              tokenOut := Some Traces.USDC;
              amountIn := Some 100%Z;
              amountInMax := None;
              amountOut := Some 80%Z;
              amountOutMin := Some 1%Z |}
           {| d_routerInfo :=
                {| factory := "0x5C69bEe701ef814a2B6a3EDD4B1652CB9cc5aA6f";
                   initcodeHash :=
                     "0x96e8ac4277198ff8b6f785478aa9a39f403cb768dd02cbee326c3e7da348845f" |};
              d_metadata := {| exactIn := true; input := tokens;
                               output := tokens; fee := true |};
              d_inputs := Traces.swap_inputs_decoded 100 1 Traces.WETH Traces.USDC;
              d_outputs := Some [];
              d_path := [VAddress Traces.WETH; VAddress Traces.USDC] |}
           [ Traces.leaf "0.0" "call" Traces.router Traces.WETH
                         (Traces.hex "0x23b872dd" ++ Traces.address_word Traces.trader
                            ++ Traces.address_word Traces.USDC_WETH_pair
                            ++ Traces.word 100)
                         (Some (Traces.word 1));
             Traces.balanceOf_call "0.1" Traces.USDC 1000;
             Traces.leaf "0.2" "call" Traces.router Traces.USDC_WETH_pair
                         (Traces.hex "0x022c0d9f" ++ Traces.word 80 ++ Traces.word 0
                            ++ Traces.address_word Traces.trader
                            ++ Traces.word 128 ++ Traces.word 0)
                         (Some []);
             Traces.balanceOf_call "0.3" Traces.USDC 1080 ]
           (Traces.balanceOf_call "0.1" Traces.USDC 1000)
           (Traces.balanceOf_call "0.3" Traces.USDC 1080)).
  - vm_compute. reflexivity.
  - vm_compute. reflexivity.
  - reflexivity.
  - reflexivity.
  - vm_compute. discriminate.
  - vm_compute. reflexivity.
  - vm_compute. reflexivity.
  - vm_compute. reflexivity.
  - vm_compute. reflexivity.
Defined.

(** C8 as stated fails.  The same swap without return data (a call that
    reverted after the second balance query): the node carries the two
    [balanceOf] static calls returning 1000 and 1080, and the record has no
    [amountOut]. *)
Lemma fee_on_transfer_without_returndata :
  let node := Traces.fee_on_transfer_reverted in
  (exists cs,
      children node = Some cs
      /\ map (fun v => BigNumber_from (returndata v))
             (List.filter (fun v => hasSelector (calldata v) balanceOf_call)
                          (List.filter (is_type "staticcall") cs))
         = [Ok 1000%Z; Ok 1080%Z])
  /\ option_map d_metadata (decoded node)
     = Some {| exactIn := true; input := tokens; output := tokens; fee := true |}
  /\ returndata node = None
  /\ fst (decodeCall Traces.simple_ops node Traces.empty_state)
     = Ok (Some {| type := name;
                   operator := Traces.trader;
                   recipient := Some Traces.trader;
                   tokenIn := Some Traces.WETH;
                   tokenOut := Some Traces.USDC;
                   amountIn := Some 100%Z;
                   amountInMax := None;
                   amountOut := None;
                   amountOutMin := Some 1%Z |}).
Proof.
  cbv zeta. split.
  - eexists. split; [reflexivity |]. vm_compute. reflexivity.
  - split; [vm_compute; reflexivity |].
    split; vm_compute; reflexivity.
Qed.

End Scenarios.

(* ===================================================================== *)
(** * Further properties of the swap decoder *)
(* ===================================================================== *)

Section SwapDecodeCall.
Import Hex Ethers Types Spec.
Import UniswapV2RouterSwapDecoder.

(** What [decoded] stands for. *)
Lemma decoded_inv (node : DecoderInput) (d : Decoded) :
  decoded node = Some d ->
  exists fragment,
    uniswapsByRouter !! node_to node = Some (d_routerInfo d)
    /\ List.find (fun '(f, _) => hasSelector (calldata node) f) functions
       = Some (fragment, d_metadata d)
    /\ decodeFunctionWithFragment node fragment = Ok (d_inputs d, d_outputs d)
    /\ get_array (d_inputs d) "path" = Some (d_path d).
Proof.
  unfold decoded.
  destruct (_ !! _) as [routerInfo |]; [| discriminate].
  destruct (List.find _ _) as [[fragment swapMetadata] |]; [| discriminate].
  destruct (decodeFunctionWithFragment node fragment) as [[inputs outputs] |]
    eqn:Hd; [| discriminate].
  destruct (get_array inputs "path") as [path |] eqn:Hp; [| discriminate].
  intros [= <-]. exists fragment. cbn.
  split; [reflexivity | split; [reflexivity | split; assumption]].
Qed.

(** The state after the two metadata requests of [decodeCall]. *)
Lemma requests_state (a b : option string) (state : DecoderState) :
  snd ((requestTokenMetadata a ;;; requestTokenMetadata b)%st state)
  = {| consumed := consumed state;
       pendingMetadata := {[ b ]} ∪ ({[ a ]} ∪ pendingMetadata state) |}.
Proof. reflexivity. Qed.

(** [decodeCall] on a node that passes the guards and decodes: the node is
    consumed, the two tokens are requested, the record is built. *)
Lemma decodeCall_decoded (ops : ConsumeOps) (node : DecoderInput)
      (state : DecoderState) (d : Decoded) :
  isConsumed state node = false -> is_type "call" node = true ->
  decoded node = Some d ->
  decodeCall ops node state
  = match consumeNode ops (d_metadata d) node state with
    | (Ok _, state1) =>
        let state2 :=
          {| consumed := consumed state1;
             pendingMetadata :=
               {[ path_at (d_path d) (len (d_path d) - 1) ]}
               ∪ ({[ path_at (d_path d) 0 ]} ∪ pendingMetadata state1) |} in
        match buildResult (d_routerInfo d) (d_metadata d) node (d_inputs d)
                          (d_outputs d) (d_path d) with
        | Ok r => (Ok (Some r), state2)
        | Throw e => (Throw e, state2)
        end
    | (Throw e, state1) => (Throw e, state1)
    end.
Proof.
  intros Hc Ht (fragment & Hr & Hf & Hd & Hp)%decoded_inv.
  unfold decodeCall. rewrite Hc, Ht, Hr, Hf. cbn [negb].
  unfold Js.bindM, Js.lift. rewrite Hd.
  destruct (consumeNode ops (d_metadata d) node state) as [[[] | e] state1];
    [| reflexivity].
  rewrite Hp. cbn [defined requestTokenMetadata initial tokenIn tokenOut].
  destruct (buildResult _ _ _ _ _ _); reflexivity.
Qed.

(** X1. For a node whose destination is not the name of a property that
    a plain object inherits (no address is; [uniswapsByRouter[node.to]]
    would find such a property), [decodeCall] returns [null] exactly when
    the node is already consumed, or is not a call, or is addressed to no
    registered router, or matches no registered signature; and then the
    state is untouched. *)
Theorem swap_decodeCall_null (ops : ConsumeOps) (node : DecoderInput)
        (state : DecoderState) :
  PlainObject.inherited (node_to node) = false ->
  (fst (decodeCall ops node state) = Ok None
   <-> isConsumed state node = true
       \/ is_type "call" node = false
       \/ uniswapsByRouter !! node_to node = None
       \/ List.find (fun '(f, _) => hasSelector (calldata node) f) functions = None)
  /\ (fst (decodeCall ops node state) = Ok None ->
      snd (decodeCall ops node state) = state).
Proof.
  intros _. unfold decodeCall.
  destruct (isConsumed state node); [split; [split |]; auto |].
  destruct (is_type "call" node); cbn [negb]; [| split; [split |]; auto].
  destruct (uniswapsByRouter !! node_to node) as [routerInfo |];
    [| split; [split |]; auto 6].
  destruct (List.find _ functions) as [[fragment swapMetadata] |];
    [| split; [split |]; auto 6].
  assert (Hno : fst ((io <- lift (decodeFunctionWithFragment node fragment);;
                      (let '(inputs, outputs) := io in
                       consumeNode ops swapMetadata node;;;
                       path <- lift (defined (get_array inputs "path"));;
                       (let r0 := initial node inputs path in
                        requestTokenMetadata (tokenIn r0);;;
                        requestTokenMetadata (tokenOut r0);;;
                        r <- lift (buildResult routerInfo swapMetadata node inputs
                                               outputs path);;
                        ret (Some r))))%st state) <> Ok None).
  { unfold Js.bindM, Js.lift.
    destruct (decodeFunctionWithFragment node fragment) as [[inputs outputs] |];
      [| discriminate].
    destruct (consumeNode ops swapMetadata node state) as [[[] |] state1];
      [| discriminate].
    destruct (defined _) as [path |]; [| discriminate].
    cbn [requestTokenMetadata].
    destruct (buildResult _ _ _ _ _ _); discriminate. }
  split; [split |].
  - intros H. now apply Hno in H.
  - intros [H | [H | [H | H]]]; discriminate.
  - intros H. now apply Hno in H.
Qed.

(** The theorem at a swap addressed to the router in lower case, which is
    no key of the table: [decodeCall] returns [null]. *)
Lemma swap_decodeCall_null_witness :
  fst (decodeCall Traces.simple_ops Traces.lower_case_router Traces.empty_state)
  = Ok None
  /\ (fst (decodeCall Traces.simple_ops Traces.lower_case_router
                      Traces.empty_state) = Ok None
      <-> isConsumed Traces.empty_state Traces.lower_case_router = true
          \/ is_type "call" Traces.lower_case_router = false
          \/ uniswapsByRouter !! node_to Traces.lower_case_router = None
          \/ List.find (fun '(f, _) =>
                          hasSelector (calldata Traces.lower_case_router) f)
                       functions = None)
  /\ (fst (decodeCall Traces.simple_ops Traces.lower_case_router
                      Traces.empty_state) = Ok None ->
      snd (decodeCall Traces.simple_ops Traces.lower_case_router
                      Traces.empty_state) = Traces.empty_state).
Proof.
  split; [vm_compute; reflexivity |].
  apply (swap_decodeCall_null Traces.simple_ops Traces.lower_case_router
                              Traces.empty_state).
  vm_compute. reflexivity.
Defined.

(** A returned record: the stages it went through. *)
Lemma decodeCall_record (ops : ConsumeOps) (node : DecoderInput)
      (state : DecoderState) (r : SwapAction) :
  fst (decodeCall ops node state) = Ok (Some r) ->
  exists d state1,
    decoded node = Some d
    /\ consumeNode ops (d_metadata d) node state = (Ok tt, state1)
    /\ buildResult (d_routerInfo d) (d_metadata d) node (d_inputs d) (d_outputs d)
                   (d_path d) = Ok r
    /\ snd (decodeCall ops node state)
       = {| consumed := consumed state1;
            pendingMetadata :=
              {[ path_at (d_path d) (len (d_path d) - 1) ]}
              ∪ ({[ path_at (d_path d) 0 ]} ∪ pendingMetadata state1) |}.
Proof.
  intros H. destruct (decodeCall_returns ops node state r H) as (d & Hd & Hb).
  assert (Hc : isConsumed state node = false).
  { revert H. unfold decodeCall. now destruct (isConsumed state node). }
  assert (Ht : is_type "call" node = true).
  { revert H. unfold decodeCall. rewrite Hc.
    now destruct (is_type "call" node). }
  exists d. rewrite (decodeCall_decoded ops node state d Hc Ht Hd), Hb in H |- *.
  destruct (consumeNode ops (d_metadata d) node state) as [[[] | e] state1];
    [| discriminate].
  exists state1. auto.
Qed.

(** When the record cannot be built, [decodeCall] raises. *)
Lemma decodeCall_raises (ops : ConsumeOps) (node : DecoderInput)
      (state : DecoderState) (d : Decoded) (e : Error) :
  isConsumed state node = false -> is_type "call" node = true ->
  decoded node = Some d ->
  buildResult (d_routerInfo d) (d_metadata d) node (d_inputs d) (d_outputs d)
              (d_path d) = Throw e ->
  exists e', fst (decodeCall ops node state) = Throw e'.
Proof.
  intros Hc Ht Hd Hb. rewrite (decodeCall_decoded ops node state d Hc Ht Hd), Hb.
  destruct (consumeNode ops (d_metadata d) node state) as [[[] | e1] state1];
    eexists; reflexivity.
Qed.

(** The helpers of [Traces.simple_ops] never remove a path. *)
Lemma simple_ops_keeps_consumed : keeps_consumed Traces.simple_ops.
Proof.
  assert (K : forall v p, keeps p (Traces.consume_defined v)).
  { intros [call |] p; [apply keeps_consume | intros state Hp; exact Hp]. }
  intros v p. cbn. auto.
Qed.

(** X2. Consumption is not rolled back: once the node passes the guards
    and its payload decodes, its path is in [consumed] when [decodeCall] is
    over, whether it returns a record or raises, provided the consuming
    helpers never remove a path. *)
Theorem swap_decodeCall_consumes_once_decoded (ops : ConsumeOps)
        (node : DecoderInput) (state : DecoderState) :
  keeps_consumed ops ->
  isConsumed state node = false -> is_type "call" node = true ->
  decoded node <> None ->
  isConsumed (snd (decodeCall ops node state)) node = true.
Proof.
  intros Hops Hc Ht Hd. destruct (decoded node) as [d |] eqn:Ed; [| easy].
  rewrite (decodeCall_decoded ops node state d Hc Ht Ed).
  pose proof (consumeNode_consumes ops (d_metadata d) node state Hops) as Hin.
  unfold isConsumed. apply bool_decide_eq_true.
  destruct (consumeNode ops (d_metadata d) node state) as [[[] | e] state1];
    [| exact Hin].
  cbv zeta. destruct (buildResult _ _ _ _ _ _); exact Hin.
Qed.

(** The theorem at a swap whose path holds a single token: [decodeCall]
    raises, and the node stays consumed. *)
Lemma swap_decodeCall_consumes_once_decoded_witness :
  fst (decodeCall Traces.simple_ops Traces.single_token_path Traces.empty_state)
  = Throw TypeError
  /\ isConsumed
       (snd (decodeCall Traces.simple_ops Traces.single_token_path
                        Traces.empty_state))
       Traces.single_token_path = true.
Proof.
  split; [vm_compute; reflexivity |].
  apply (swap_decodeCall_consumes_once_decoded
           Traces.simple_ops Traces.single_token_path Traces.empty_state).
  - exact simple_ops_keeps_consumed.
  - vm_compute. reflexivity.
  - vm_compute. reflexivity.
  - vm_compute. discriminate.
Defined.



End SwapDecodeCall.

Section SwapRecord.
Import Hex Ethers Types Spec Props.
Import UniswapV2RouterSwapDecoder.

Lemma same_frame_refl (r : SwapAction) : same_frame r r.
Proof. unfold same_frame. auto. Qed.

Lemma same_frame_trans (ra rb rc : SwapAction) :
  same_frame ra rb -> same_frame rb rc -> same_frame ra rc.
Proof.
  unfold same_frame. intros (-> & -> & -> & -> & ->) (-> & -> & -> & -> & ->). auto.
Qed.

Lemma same_frame_amountIn (v : option Z) (ra rb : SwapAction) :
  same_frame ra rb -> same_frame ra (set_amountIn v rb).
Proof. intros H. exact H. Qed.

Lemma same_frame_amountOut (v : option Z) (ra rb : SwapAction) :
  same_frame ra rb -> same_frame ra (set_amountOut v rb).
Proof. intros H. exact H. Qed.

Lemma pullFromEvents_frame (routerInfo : RouterInfo) (node : DecoderInput)
      (path : list Value) (ra rb : SwapAction) :
  pullFromEvents routerInfo node path ra = Ok rb -> same_frame ra rb.
Proof.
  unfold pullFromEvents.
  destruct (logs node) as [ls |]; [| intros [= <-]; apply same_frame_refl].
  set (swapEvents := List.filter _ ls).
  destruct (token_arg (path_at path 0)) as [a0 |]; [| discriminate].
  destruct (token_arg (path_at path 1)) as [a1 |]; [| discriminate].
  cbn [Js.bind].
  destruct (getTokens a0 a1) as [firstToken0 firstToken1].
  destruct (computePairAddress _ _ firstToken0 firstToken1) as [F |];
    [| discriminate].
  cbn [Js.bind].
  destruct (token_arg (path_at path (len path - 2))) as [b0 |]; [| discriminate].
  destruct (token_arg (path_at path (len path - 1))) as [b1 |]; [| discriminate].
  cbn [Js.bind].
  destruct (getTokens b0 b1) as [lastToken0 lastToken1].
  destruct (computePairAddress _ _ lastToken0 lastToken1) as [L |];
    [| discriminate].
  cbn [Js.bind].
  destruct (List.find (at_address F) swapEvents) as [first |];
    [destruct (parseLog _ (log_topics first) _); [| discriminate] |];
    cbn [Js.bind];
    (destruct (List.find (at_address L) (rev swapEvents)) as [last |];
     [destruct (parseLog _ (log_topics last) _); [| discriminate] |]);
    cbn [Js.bind]; intros [= <-];
    repeat first [apply same_frame_amountOut | apply same_frame_amountIn];
    apply same_frame_refl.
Qed.

Lemma pullFromReturndata_frame (swapMetadata : SwapMetadata) (node : DecoderInput)
      (outputs : option Result) (ra rb : SwapAction) :
  pullFromReturndata swapMetadata node outputs ra = Ok rb -> same_frame ra rb.
Proof.
  unfold pullFromReturndata, Js.bind.
  destruct outputs as [outs |]; [| intros [= <-]; apply same_frame_refl].
  destruct (negb (fee swapMetadata)).
  - destruct (defined (get_array outs "amounts")); [| discriminate].
    intros [= <-]. apply same_frame_amountOut, same_frame_refl.
  - destruct (children node) as [cs |]; [| intros [= <-]; apply same_frame_refl].
    destruct (output swapMetadata).
    + destruct (defined (at_index _ 0)) as [first |]; [| discriminate].
      destruct (BigNumber_from (returndata first)); [| discriminate].
      destruct (defined (at_index _ _)) as [last |]; [| discriminate].
      destruct (BigNumber_from (returndata last)); [| discriminate].
      intros [= <-]. apply same_frame_amountOut, same_frame_refl.
    + destruct (defined (at_index _ _)) as [last |]; [| discriminate].
      intros [= <-]. apply same_frame_amountOut, same_frame_refl.
Qed.

(** X4. Who, to whom and within which bounds: a record that [decodeCall]
    returns names the caller of the router as [operator] and the argument
    [to] as [recipient]; for an exact-in signature it carries the argument
    [amountOutMin] and no [amountInMax], for an exact-out signature the
    argument [amountInMax] and no [amountOutMin].  Events, return data and
    nested calls never change these fields. *)
Theorem swap_record_parties_and_bounds (ops : ConsumeOps) (node : DecoderInput)
        (state : DecoderState) (r : SwapAction) :
  fst (decodeCall ops node state) = Ok (Some r) ->
  exists d,
    decoded node = Some d
    /\ type r = name
    /\ operator r = node_from node
    /\ recipient r = get_address (d_inputs d) "to"
    /\ amountInMax r = (if exactIn (d_metadata d) then None
                        else get_uint (d_inputs d) "amountInMax")
    /\ amountOutMin r = (if exactIn (d_metadata d)
                         then get_uint (d_inputs d) "amountOutMin" else None).
Proof.
  intros (d & Hd & Hb)%decodeCall_returns. exists d. split; [exact Hd |].
  unfold buildResult, Js.bind in Hb.
  destruct (pullFromEvents _ _ _ _) as [rb |] eqn:Hev; [| discriminate].
  apply pullFromEvents_frame in Hev. apply pullFromReturndata_frame in Hb.
  destruct (same_frame_trans _ _ _ Hev Hb) as (-> & -> & -> & -> & ->).
  unfold pullFromCalldata. destruct (exactIn (d_metadata d)); cbn; auto.
Qed.

(** The theorem at the swap of WETH for USDC. *)
Lemma swap_record_parties_and_bounds_witness :
  exists d,
    decoded Traces.weth_for_usdc = Some d
    /\ type (Traces.exact_in_record Traces.WETH Traces.USDC (Some 95%Z)) = name
    /\ operator (Traces.exact_in_record Traces.WETH Traces.USDC (Some 95%Z))
       = node_from Traces.weth_for_usdc
    /\ recipient (Traces.exact_in_record Traces.WETH Traces.USDC (Some 95%Z))
       = get_address (d_inputs d) "to"
    /\ amountInMax (Traces.exact_in_record Traces.WETH Traces.USDC (Some 95%Z))
       = (if exactIn (d_metadata d) then None
          else get_uint (d_inputs d) "amountInMax")
    /\ amountOutMin (Traces.exact_in_record Traces.WETH Traces.USDC (Some 95%Z))
       = (if exactIn (d_metadata d)
          then get_uint (d_inputs d) "amountOutMin" else None).
Proof.
  apply (swap_record_parties_and_bounds
           Traces.simple_ops Traces.weth_for_usdc Traces.empty_state
           (Traces.exact_in_record Traces.WETH Traces.USDC (Some 95%Z))).
  vm_compute. reflexivity.
Defined.

End SwapRecord.

Section SwapEdges.
Import Hex Ethers Types Spec Props.
Import UniswapV2RouterSwapDecoder.

Lemma at_index_last {A} (front : list A) (x : A) :
  at_index (front ++ [x]) (len (front ++ [x]) - 1) = Some x.
Proof.
  unfold at_index, len. rewrite length_app. cbn [length].
  replace (Z.of_nat (length front + 1) - 1)%Z with (Z.of_nat (length front)) by lia.
  destruct (Z.ltb_spec (Z.of_nat (length front)) 0); [lia |].
  rewrite Nat2Z.id, nth_error_app2, Nat.sub_diag by lia. reflexivity.
Qed.

Lemma at_index_last_cons {A} (x : A) (l : list A) :
  at_index (x :: l) (len (x :: l) - 1) = Some (List.last l x).
Proof.
  destruct (@exists_last _ (x :: l)) as (front & y & E); [discriminate |].
  rewrite E, at_index_last. f_equal.
  assert (H : List.last (x :: l) x = List.last l x).
  { destruct l; reflexivity. }
  rewrite <- H, E. symmetry. apply last_last.
Qed.

(** X5. A path shorter than two tokens, with event logs at hand, gives no
    record: the second token is read from the path to derive the pair
    address, and [decodeCall] raises. *)
Theorem swap_short_path_with_logs_raises (ops : ConsumeOps) (node : DecoderInput)
        (state : DecoderState) (d : Decoded) :
  isConsumed state node = false -> is_type "call" node = true ->
  decoded node = Some d ->
  logs node <> None -> (len (d_path d) < 2)%Z ->
  exists e, fst (decodeCall ops node state) = Throw e.
Proof.
  intros Hc Ht Hd Hl Hlen.
  assert (Hb : exists e, buildResult (d_routerInfo d) (d_metadata d) node
                                     (d_inputs d) (d_outputs d) (d_path d)
                         = Throw e).
  { unfold buildResult, pullFromEvents.
    destruct (logs node) as [ls |]; [| congruence].
    unfold path_at at 2. rewrite (at_index_past_end (d_path d) 1) by lia.
    destruct (token_arg (path_at (d_path d) 0)); eexists; reflexivity. }
  destruct Hb as (e & Hb).
  exact (decodeCall_raises ops node state d e Hc Ht Hd Hb).
Qed.

(** The theorem at a swap over the path [[WETH]]. *)
Lemma swap_short_path_with_logs_raises_witness :
  exists e,
    fst (decodeCall Traces.simple_ops Traces.single_token_path Traces.empty_state)
    = Throw e.
Proof.
  apply (swap_short_path_with_logs_raises
           Traces.simple_ops Traces.single_token_path Traces.empty_state
           (v2_decoded {| exactIn := true; input := tokens;
                          output := tokens; fee := false |}
                       [ ("amountIn", VUint 100); ("amountOutMin", VUint 1);
                         ("path", VArray [VAddress Traces.WETH]);
                         ("to", VAddress Traces.trader);
                         ("deadline", VUint Traces.deadline) ]
                       None [VAddress Traces.WETH])).
  - vm_compute. reflexivity.
  - vm_compute. reflexivity.
  - vm_compute. reflexivity.
  - vm_compute. discriminate.
  - vm_compute. reflexivity.
Defined.

(** X6. With fee-on-transfer support and a token output, the output
    amount of a returned record is the last [balanceOf] result among the
    children minus the first one, whatever lies between them; with a single
    [balanceOf] call the two coincide and the amount is zero. *)
Theorem fee_on_transfer_first_and_last_balance
        (ops : ConsumeOps) (node : DecoderInput) (state : DecoderState)
        (r : SwapAction) (d : Decoded) (cs : list DecoderInput)
        (first : DecoderInput) (rest : list DecoderInput)
        (initialBalance finalBalance : Z) :
  fst (decodeCall ops node state) = Ok (Some r) ->
  decoded node = Some d ->
  fee (d_metadata d) = true ->
  output (d_metadata d) = tokens ->
  returndata node <> None ->
  children node = Some cs ->
  List.filter (fun v => hasSelector (calldata v) balanceOf_call)
              (List.filter (is_type "staticcall") cs) = first :: rest ->
  BigNumber_from (returndata first) = Ok initialBalance ->
  BigNumber_from (returndata (List.last rest first)) = Ok finalBalance ->
  amountOut r = Some (finalBalance - initialBalance)%Z.
Proof.
  intros (d' & Hd' & Hb)%decodeCall_returns Hd Hfee Hout Hrd Hcs Hcalls Hb0 Hb1.
  rewrite Hd in Hd'. injection Hd' as <-.
  apply buildResult_amounts in Hb as (_ & -> & _).
  assert (Hnested : nested_amountOut d node
                    = Some (Some (finalBalance - initialBalance)%Z)).
  { unfold nested_amountOut.
    destruct (d_outputs d) eqn:Ho; [| now apply decoded_outputs in Hd].
    rewrite Hcs, Hfee, Hout, Hcalls, at_index_last_cons.
    change (at_index (first :: rest) 0) with (Some first).
    cbv beta iota. now rewrite Hb0, Hb1. }
  unfold latest. cbn [fold_left]. now rewrite Hnested.
Qed.

(** The theorem at a swap with three balance reads, 1000, 1040 and 1080. *)
Lemma fee_on_transfer_first_and_last_balance_witness :
  amountOut (Traces.exact_in_record Traces.WETH Traces.USDC (Some 80%Z))
  = Some (1080 - 1000)%Z.
Proof.
  apply (fee_on_transfer_first_and_last_balance
           Traces.simple_ops Traces.three_balance_reads Traces.empty_state
           (Traces.exact_in_record Traces.WETH Traces.USDC (Some 80%Z))
           (v2_decoded {| exactIn := true; input := tokens;
                          output := tokens; fee := true |}
                       (Traces.swap_inputs_decoded 100 1 Traces.WETH Traces.USDC)
                       (Some [])
                       [VAddress Traces.WETH; VAddress Traces.USDC])
           [ Traces.transfer_to_pair; Traces.balanceOf_call "0.1" Traces.USDC 1000;
             Traces.balanceOf_call "0.2" Traces.USDC 1040; Traces.pair_swap "0.3";
             Traces.balanceOf_call "0.4" Traces.USDC 1080 ]
           (Traces.balanceOf_call "0.1" Traces.USDC 1000)
           [ Traces.balanceOf_call "0.2" Traces.USDC 1040;
             Traces.balanceOf_call "0.4" Traces.USDC 1080 ]
           1000%Z 1080%Z).
  - vm_compute. reflexivity.
  - vm_compute. reflexivity.
  - reflexivity.
  - reflexivity.
  - discriminate.
  - reflexivity.
  - vm_compute. reflexivity.
  - vm_compute. reflexivity.
  - vm_compute. reflexivity.
Defined.

(** X7. With fee-on-transfer support and the native currency as output,
    the output amount of a returned record is the value attached to the
    last child of type [call]. *)
Theorem fee_on_transfer_eth_output_is_last_call_value
        (ops : ConsumeOps) (node : DecoderInput) (state : DecoderState)
        (r : SwapAction) (d : Decoded) (cs front : list DecoderInput)
        (last : DecoderInput) :
  fst (decodeCall ops node state) = Ok (Some r) ->
  decoded node = Some d ->
  fee (d_metadata d) = true ->
  output (d_metadata d) = eth ->
  returndata node <> None ->
  children node = Some cs ->
  List.filter (is_type "call") cs = front ++ [last] ->
  amountOut r = Some (node_value last).
Proof.
  intros (d' & Hd' & Hb)%decodeCall_returns Hd Hfee Hout Hrd Hcs Hcalls.
  rewrite Hd in Hd'. injection Hd' as <-.
  apply buildResult_amounts in Hb as (_ & -> & _).
  assert (Hnested : nested_amountOut d node = Some (Some (node_value last))).
  { unfold nested_amountOut.
    destruct (d_outputs d) eqn:Ho; [| now apply decoded_outputs in Hd].
    now rewrite Hcs, Hfee, Hout, Hcalls, at_index_last. }
  unfold latest. cbn [fold_left]. now rewrite Hnested.
Qed.

(** The theorem at a swap of USDC for 77 wei. *)
Lemma fee_on_transfer_eth_output_is_last_call_value_witness :
  amountOut (Traces.exact_in_record Traces.USDC Traces.WETH (Some 77%Z))
  = Some 77%Z.
Proof.
  apply (fee_on_transfer_eth_output_is_last_call_value
           Traces.simple_ops Traces.fee_on_transfer_eth_output Traces.empty_state
           (Traces.exact_in_record Traces.USDC Traces.WETH (Some 77%Z))
           (v2_decoded {| exactIn := true; input := tokens;
                          output := eth; fee := true |}
                       (Traces.swap_inputs_decoded 100 1 Traces.USDC Traces.WETH)
                       (Some [])
                       [VAddress Traces.USDC; VAddress Traces.WETH])
           [ Traces.leaf "0.0" "call" Traces.router Traces.USDC
                         (Traces.hex "0x23b872dd" ++ Traces.address_word Traces.trader
                            ++ Traces.address_word Traces.USDC_WETH_pair
                            ++ Traces.word 100)
                         (Some (Traces.word 1));
             Traces.pair_swap "0.1";
             Traces.leaf "0.2" "call" Traces.router Traces.WETH
                         (Traces.hex "0x2e1a7d4d" ++ Traces.word 77) (Some []);
             {| node_path := "0.3"; node_type := "call";
                node_from := Traces.router; node_to := Traces.trader;
                node_value := 77; calldata := []; returndata := Some [];
                logs := None; children := None |} ]
           [ Traces.leaf "0.0" "call" Traces.router Traces.USDC
                         (Traces.hex "0x23b872dd" ++ Traces.address_word Traces.trader
                            ++ Traces.address_word Traces.USDC_WETH_pair
                            ++ Traces.word 100)
                         (Some (Traces.word 1));
             Traces.pair_swap "0.1";
             Traces.leaf "0.2" "call" Traces.router Traces.WETH
                         (Traces.hex "0x2e1a7d4d" ++ Traces.word 77) (Some []) ]
           {| node_path := "0.3"; node_type := "call";
              node_from := Traces.router; node_to := Traces.trader;
              node_value := 77; calldata := []; returndata := Some [];
              logs := None; children := None |}).
  - vm_compute. reflexivity.
  - vm_compute. reflexivity.
  - reflexivity.
  - reflexivity.
  - discriminate.
  - reflexivity.
  - reflexivity.
Defined.

(** X8. With fee-on-transfer support and a token output, a call whose
    return data is present and whose children hold no [balanceOf] static
    call gives no record: [decodeCall] raises. *)
Theorem fee_on_transfer_without_balance_reads_raises
        (ops : ConsumeOps) (node : DecoderInput) (state : DecoderState)
        (d : Decoded) (cs : list DecoderInput) :
  isConsumed state node = false -> is_type "call" node = true ->
  decoded node = Some d ->
  fee (d_metadata d) = true ->
  output (d_metadata d) = tokens ->
  returndata node <> None ->
  children node = Some cs ->
  List.filter (fun v => hasSelector (calldata v) balanceOf_call)
              (List.filter (is_type "staticcall") cs) = [] ->
  exists e, fst (decodeCall ops node state) = Throw e.
Proof.
  intros Hc Ht Hd Hfee Hout Hrd Hcs Hcalls.
  assert (Hb : exists e, buildResult (d_routerInfo d) (d_metadata d) node
                                     (d_inputs d) (d_outputs d) (d_path d)
                         = Throw e).
  { unfold buildResult, Js.bind.
    destruct (pullFromEvents _ _ _ _) as [rb | e]; [| now exists e].
    unfold pullFromReturndata.
    destruct (d_outputs d) eqn:Ho; [| now apply decoded_outputs in Hd].
    rewrite Hfee, Hcs, Hout, Hcalls. cbn. eexists. reflexivity. }
  destruct Hb as (e & Hb).
  exact (decodeCall_raises ops node state d e Hc Ht Hd Hb).
Qed.

(** The theorem at a swap whose children are a transfer and the pair's
    [swap]. *)
Lemma fee_on_transfer_without_balance_reads_raises_witness :
  exists e,
    fst (decodeCall Traces.simple_ops Traces.no_balance_read Traces.empty_state)
    = Throw e.
Proof.
  apply (fee_on_transfer_without_balance_reads_raises
           Traces.simple_ops Traces.no_balance_read Traces.empty_state
           (v2_decoded {| exactIn := true; input := tokens;
                          output := tokens; fee := true |}
                       (Traces.swap_inputs_decoded 100 1 Traces.WETH Traces.USDC)
                       (Some [])
                       [VAddress Traces.WETH; VAddress Traces.USDC])
           [ Traces.transfer_to_pair; Traces.pair_swap "0.1" ]).
  - vm_compute. reflexivity.
  - vm_compute. reflexivity.
  - vm_compute. reflexivity.
  - reflexivity.
  - reflexivity.
  - discriminate.
  - reflexivity.
  - vm_compute. reflexivity.
Defined.

End SwapEdges.

Section SwapConsumption.
Import Hex Ethers Types Spec Props.
Import UniswapV2RouterSwapDecoder.

Lemma forEach_consumes {A} (p : string) (f : A -> M DecoderState unit)
      (l : list A) (x : A) (state : DecoderState) :
  (forall y, keeps p (f y)) ->
  (forall s, p ∈ consumed (snd (f x s))) ->
  In x l ->
  fst (forEach f l state) = Ok tt ->
  p ∈ consumed (snd (forEach f l state)).
Proof.
  intros Hkeeps Hx. revert state.
  induction l as [| y l IH]; intros state Hin; [destruct Hin |].
  cbn [forEach]. unfold Js.bindM.
  destruct (f y state) as [[[] | e] state1] eqn:E; [| discriminate].
  intros Hok. destruct Hin as [-> | Hin].
  - apply keeps_forEach; [exact Hkeeps |].
    specialize (Hx state). now rewrite E in Hx.
  - now apply IH.
Qed.

(** The steps of [consumeNode] after the pair swaps keep a path. *)
Lemma consumeETHOutputSwap_keeps (ops : ConsumeOps) (node : DecoderInput)
      (p : string) :
  keeps_consumed ops -> keeps p (consumeETHOutputSwap ops node).
Proof.
  intros Hops. unfold consumeETHOutputSwap.
  destruct (children node); [| apply keeps_ret].
  apply keeps_bindM; [apply Hops | intros _; apply Hops].
Qed.

Lemma consumeSwaps_consumes (ops : ConsumeOps) (node : DecoderInput)
      (state : DecoderState) (cs : list DecoderInput) (call : DecoderInput) :
  keeps_consumed ops ->
  children node = Some cs -> In call cs ->
  is_type "call" call = true -> hasSelector (calldata call) swap_call = true ->
  fst (consumeSwaps ops node state) = Ok tt ->
  node_path call ∈ consumed (snd (consumeSwaps ops node state)).
Proof.
  intros Hops Hcs Hin Hty Hsel. unfold consumeSwaps. rewrite Hcs.
  assert (Kt : forall v, keeps (node_path call) (consumeTransfer ops v))
    by (intros v; apply Hops).
  apply (forEach_consumes (node_path call) _ _ call).
  - intros y. apply keeps_bindM; [apply keeps_consume | intros _].
    destruct (children y); [| apply keeps_ret].
    apply keeps_forEach. intros v. apply Kt.
  - intros s. apply bindM_consumed; [simpl; set_solver | intros _].
    destruct (children call); [| apply keeps_ret].
    apply keeps_forEach. intros v. apply Kt.
  - apply filter_In. split; [| exact Hsel]. apply filter_In. now split.
Qed.

(** X9. When [decodeCall] returns a record, every child of type [call]
    that carries the selector of the pair's [swap] is consumed, provided
    the consuming helpers never remove a path. *)
Theorem swap_decodeCall_consumes_pair_swaps (ops : ConsumeOps)
        (node : DecoderInput) (state : DecoderState) (r : SwapAction)
        (cs : list DecoderInput) (call : DecoderInput) :
  keeps_consumed ops ->
  fst (decodeCall ops node state) = Ok (Some r) ->
  children node = Some cs -> In call cs ->
  is_type "call" call = true -> hasSelector (calldata call) swap_call = true ->
  isConsumed (snd (decodeCall ops node state)) call = true.
Proof.
  intros Hops (d & state1 & _ & Hn & _ & ->)%decodeCall_record Hcs Hin Hty Hsel.
  unfold isConsumed. apply bool_decide_eq_true. cbn [consumed].
  replace state1 with (snd (consumeNode ops (d_metadata d) node state))
    by now rewrite Hn.
  assert (Hok : fst (consumeNode ops (d_metadata d) node state) = Ok tt)
    by now rewrite Hn.
  clear Hn. revert Hok. unfold consumeNode, Js.bindM.
  destruct (consume node state) as [[[] | e0] s0]; [| discriminate].
  destruct (match input (d_metadata d) with
            | tokens => consumeTokenInputSwap ops node
            | eth => consumeETHInputSwap ops node
            end s0) as [[[] | e1] s1]; [| discriminate].
  pose proof (consumeSwaps_consumes ops node s1 cs call Hops Hcs Hin Hty Hsel)
    as Hswaps.
  destruct (consumeSwaps ops node s1) as [[[] | e2] s2]; [| discriminate].
  specialize (Hswaps eq_refl). cbn [snd] in Hswaps.
  destruct (output (d_metadata d)); [intros _; exact Hswaps |].
  intros _. now apply consumeETHOutputSwap_keeps.
Qed.

(** The theorem at the swap of WETH for USDC: the pair's [swap] is the
    sub-call at path 0.1. *)
Lemma swap_decodeCall_consumes_pair_swaps_witness :
  isConsumed
    (snd (decodeCall Traces.simple_ops Traces.weth_for_usdc Traces.empty_state))
    (Traces.leaf "0.1" "call" Traces.router Traces.USDC_WETH_pair
                 (Traces.hex "0x022c0d9f" ++ Traces.word 0 ++ Traces.word 0
                    ++ Traces.address_word Traces.trader
                    ++ Traces.word 128 ++ Traces.word 0)
                 (Some [])) = true.
Proof.
  apply (swap_decodeCall_consumes_pair_swaps
           Traces.simple_ops Traces.weth_for_usdc Traces.empty_state
           (Traces.exact_in_record Traces.WETH Traces.USDC (Some 95%Z))
           (Traces.swap_children Traces.WETH Traces.USDC_WETH_pair 100)).
  - exact simple_ops_keeps_consumed.
  - vm_compute. reflexivity.
  - reflexivity.
  - right. left. reflexivity.
  - reflexivity.
  - vm_compute. reflexivity.
Defined.

(** X10. A swap that pays in the native currency and whose children hold
    no child of type [call] gives no record: after the two [consumeAll]
    calls the value of the last call is read, and [decodeCall] raises,
    whatever the consuming helpers do. *)
Theorem eth_input_swap_without_calls_raises (ops : ConsumeOps)
        (node : DecoderInput) (state : DecoderState) (d : Decoded)
        (cs : list DecoderInput) :
  isConsumed state node = false -> is_type "call" node = true ->
  decoded node = Some d ->
  input (d_metadata d) = eth ->
  children node = Some cs -> List.filter (is_type "call") cs = [] ->
  exists e, fst (decodeCall ops node state) = Throw e.
Proof.
  intros Hc Ht Hd Hin Hcs Hcalls.
  rewrite (decodeCall_decoded ops node state d Hc Ht Hd).
  unfold consumeNode, Js.bindM. rewrite Hin.
  destruct (consume node state) as [[[] | e0] s0]; [| eexists; reflexivity].
  unfold consumeETHInputSwap, Js.bindM. rewrite Hcs, Hcalls.
  destruct (consumeAll ops (at_index [] 0) s0) as [[[] | e1] s1];
    [| eexists; reflexivity].
  destruct (consumeAll ops (at_index [] 1) s1) as [[[] | e2] s2];
    [| eexists; reflexivity].
  cbn. eexists. reflexivity.
Qed.

(** The theorem at [swapExactETHForTokens] with an empty list of
    children. *)
Lemma eth_input_swap_without_calls_raises_witness :
  exists e,
    fst (decodeCall Traces.lenient_consume_ops (Traces.eth_input_swap (Some []))
                    Traces.empty_state) = Throw e.
Proof.
  apply (eth_input_swap_without_calls_raises
           Traces.lenient_consume_ops (Traces.eth_input_swap (Some []))
           Traces.empty_state
           (v2_decoded {| exactIn := true; input := eth;
                          output := tokens; fee := false |}
                       [ ("amountOutMin", VUint 1);
                         ("path", VArray [VAddress Traces.WETH;
                                          VAddress Traces.USDC]);
                         ("to", VAddress Traces.trader);
                         ("deadline", VUint Traces.deadline) ]
                       None
                       [VAddress Traces.WETH; VAddress Traces.USDC])
           []).
  - vm_compute. reflexivity.
  - vm_compute. reflexivity.
  - vm_compute. reflexivity.
  - reflexivity.
  - reflexivity.
  - reflexivity.
Defined.

End SwapConsumption.

(* ===================================================================== *)
(** * The registered signatures *)
(* ===================================================================== *)

Section Signatures.
Import Hex Ethers Types Props.

(** The selectors of the seventeen signatures: nine of the swap decoder,
    two of the add-liquidity decoder, six of the remove-liquidity
    decoder. *)
Lemma registered_selectors :
  map selector registered
  = [ "0x38ed1739"; "0x8803dbee"; "0x7ff36ab5"; "0x4a25d94a"; "0x18cbafe5";
      "0xfb3bdb41"; "0x5c11d795"; "0xb6f9de95"; "0x791ac947";
      "0xe8e33700"; "0xf305d719";
      "0xbaa2abde"; "0x02751cec"; "0x2195995c"; "0xded9382a"; "0xaf2979eb";
      "0x5b0d5984" ].
Proof. vm_compute. reflexivity. Qed.

Lemma registered_selectors_NoDup : NoDup (map selector registered).
Proof.
  rewrite registered_selectors.
  apply (bool_decide_unpack _). vm_compute. exact I.
Qed.

Lemma NoDup_map_injective {A B} (f : A -> B) (l : list A) (x y : A) :
  NoDup (map f l) -> In x l -> In y l -> f x = f y -> x = y.
Proof.
  induction l as [| a l IH]; [intros _ [] |].
  cbn [map]. intros Hnd Hx Hy E. apply NoDup_cons in Hnd as [Ha Hnd].
  assert (Hin : forall z, In z l -> f z <> f a).
  { intros z Hz Ez. apply Ha. apply list_elem_of_In.
    rewrite <- Ez. now apply in_map. }
  destruct Hx as [<- | Hx], Hy as [<- | Hy].
  - reflexivity.
  - symmetry in E. now apply Hin in E.
  - now apply Hin in E.
  - now apply IH.
Qed.

(** Two registered signatures with the same selector are the same. *)
Lemma selector_injective (f g : FunctionFragment) :
  In f registered -> In g registered -> selector f = selector g -> f = g.
Proof.
  intros Hf Hg. apply (NoDup_map_injective selector registered); auto.
  exact registered_selectors_NoDup.
Qed.

(** X11. No call data matches two registered signatures: the selectors of
    the signatures of the three decoders are pairwise distinct, so the
    order in which [find] walks a table does not matter, and a call that
    one decoder matches is matched by no other. *)
Theorem one_signature_per_calldata (data : list byte) (f g : FunctionFragment) :
  In f registered -> In g registered ->
  hasSelector data f = true -> hasSelector data g = true -> f = g.
Proof.
  intros Hf Hg Ef Eg. apply selector_injective; [exact Hf | exact Hg |].
  unfold hasSelector in Ef, Eg. apply String.eqb_eq in Ef, Eg.
  unfold selector. congruence.
Qed.

(** The theorem at the call data of the swap of WETH for USDC. *)
Lemma one_signature_per_calldata_witness :
  UniswapV2RouterSwapDecoder.swapExactTokensForTokens
  = UniswapV2RouterSwapDecoder.swapExactTokensForTokens.
Proof.
  apply (one_signature_per_calldata
           (calldata Traces.weth_for_usdc)
           UniswapV2RouterSwapDecoder.swapExactTokensForTokens
           UniswapV2RouterSwapDecoder.swapExactTokensForTokens).
  - left. reflexivity.
  - left. reflexivity.
  - vm_compute. reflexivity.
  - vm_compute. reflexivity.
Defined.

End Signatures.

(* ===================================================================== *)
(** * Further properties of the add-liquidity decoder *)
(* ===================================================================== *)

Section AddLiquidity.
Import Hex Ethers Types Props.
Import UniswapV2RouterAddLiquidityDecoder.

(** A returned record: where it comes from. *)
Lemma add_decodeCall_record (node : DecoderInput) (state : DecoderState)
      (r : UniswapV2RouterAddLiquidityResult) :
  fst (decodeCall node state) = Ok (Some r) ->
  exists fragment functionMetadata inputs outputs,
    List.find (fun '(f, _) => hasSelector (calldata node) f) functions
    = Some (fragment, functionMetadata)
    /\ decodeFunctionWithFragment node fragment = Ok (inputs, outputs)
    /\ r = result_of functionMetadata node inputs
    /\ snd (decodeCall node state)
       = {| consumed := consumed state;
            pendingMetadata :=
              {[ pool r ]} ∪ ({[ tokenB r ]} ∪ ({[ tokenA r ]}
                                                  ∪ pendingMetadata state)) |}.
Proof.
  unfold decodeCall.
  destruct (isConsumed state node); [discriminate |].
  destruct (negb _); [discriminate |].
  destruct (List.find _ _) as [[fragment functionMetadata] |]; [| discriminate].
  unfold Js.bindM, Js.lift.
  destruct (decodeFunctionWithFragment node fragment) as [[inputs outputs] |]
    eqn:Hd; [| discriminate].
  cbn [requestTokenMetadata Js.ret fst snd]. intros [= <-].
  exists fragment, functionMetadata, inputs, outputs.
  split; [reflexivity | split; [exact Hd | split; reflexivity]].
Qed.

(** X12. The add-liquidity [decodeCall] returns [null] exactly when the
    node is already consumed, or is not a call, or matches neither
    signature; and then the state is untouched. *)
Theorem add_decodeCall_null (node : DecoderInput) (state : DecoderState) :
  (fst (decodeCall node state) = Ok None
   <-> isConsumed state node = true
       \/ is_type "call" node = false
       \/ List.find (fun '(f, _) => hasSelector (calldata node) f) functions = None)
  /\ (fst (decodeCall node state) = Ok None ->
      snd (decodeCall node state) = state).
Proof.
  unfold decodeCall.
  destruct (isConsumed state node); [split; [split |]; auto |].
  destruct (is_type "call" node); cbn [negb]; [| split; [split |]; auto].
  destruct (List.find _ functions) as [[fragment functionMetadata] |];
    [| split; [split |]; auto].
  unfold Js.bindM, Js.lift.
  destruct (decodeFunctionWithFragment node fragment) as [[inputs outputs] |];
    cbn [requestTokenMetadata Js.ret fst snd].
  - split; [split |]; [discriminate | | discriminate].
    intros [H | [H | H]]; discriminate.
  - split; [split |]; [discriminate | | discriminate].
    intros [H | [H | H]]; discriminate.
Qed.



(** X15. After a record is returned, metadata has been requested for
    [tokenA], for [tokenB] and, the record having no pool, for
    [undefined]; nothing is consumed. *)
Theorem add_decodeCall_requests (node : DecoderInput) (state : DecoderState)
        (r : UniswapV2RouterAddLiquidityResult) :
  fst (decodeCall node state) = Ok (Some r) ->
  pendingMetadata (snd (decodeCall node state))
  = {[ None ]} ∪ ({[ tokenB r ]} ∪ ({[ tokenA r ]} ∪ pendingMetadata state))
  /\ consumed (snd (decodeCall node state)) = consumed state.
Proof.
  intros (fragment & functionMetadata & inputs & outputs & _ & _ & -> & ->)
         %add_decodeCall_record.
  split; reflexivity.
Qed.

(** The theorem at the [addLiquidity] call. *)
Lemma add_decodeCall_requests_witness :
  pendingMetadata (snd (decodeCall Traces.add_liquidity Traces.empty_state))
  = {[ None ]} ∪ ({[ tokenB Traces.add_liquidity_record ]}
                  ∪ ({[ tokenA Traces.add_liquidity_record ]}
                     ∪ pendingMetadata Traces.empty_state))
  /\ consumed (snd (decodeCall Traces.add_liquidity Traces.empty_state))
     = consumed Traces.empty_state.
Proof.
  apply (add_decodeCall_requests Traces.add_liquidity Traces.empty_state
                                 Traces.add_liquidity_record).
  vm_compute. reflexivity.
Defined.

(** X16. What is shown of an added liquidity: for every record that
    [decodeCall] returns, [format] is handed the two tokens without an
    amount, and neither a pool nor an amount for the liquidity. *)
Theorem add_format_shows_no_amount (node : DecoderInput) (state : DecoderState)
        (r : UniswapV2RouterAddLiquidityResult) :
  fst (decodeCall node state) = Ok (Some r) ->
  Rendering.values (UniswapV2RouterAddLiquidityDecoder_format.format r)
  = [ Rendering.TokenAmount (tokenA r) None;
      Rendering.TokenAmount (tokenB r) None;
      Rendering.TokenAmount None None;
      Rendering.AddressData (recipient r);
      Rendering.AddressData (Some (node_from node)) ].
Proof.
  intros (fragment & functionMetadata & inputs & outputs & _ & _ & -> & _)
         %add_decodeCall_record.
  reflexivity.
Qed.

(** The theorem at the [addLiquidity] call. *)
Lemma add_format_shows_no_amount_witness :
  Rendering.values
    (UniswapV2RouterAddLiquidityDecoder_format.format Traces.add_liquidity_record)
  = [ Rendering.TokenAmount (tokenA Traces.add_liquidity_record) None;
      Rendering.TokenAmount (tokenB Traces.add_liquidity_record) None;
      Rendering.TokenAmount None None;
      Rendering.AddressData (recipient Traces.add_liquidity_record);
      Rendering.AddressData (Some (node_from Traces.add_liquidity)) ].
Proof.
  apply (add_format_shows_no_amount Traces.add_liquidity Traces.empty_state
                                    Traces.add_liquidity_record).
  vm_compute. reflexivity.
Defined.

End AddLiquidity.

(* ===================================================================== *)
(** * The routines of the earlier interface *)
(* ===================================================================== *)

Section AddLiquidityRoutines.
Import Hex Ethers Types Props.
Import UniswapV2RouterAddLiquidityDecoder.

(** X17. The two routines read the mint call: with fewer than three
    sub-calls [decodeAddLiquidity] raises, with fewer than four
    [decodeAddLiquidityETH] does, whatever the helpers do. *)
Theorem add_routine_needs_subcalls (ops : HandleOps) (eth : bool)
        (node : TraceEntry) (inputs : Result) (outputs : option Result)
        (subcalls : list TraceEntry) (state : DecodeState) :
  (length subcalls < (if eth then 4 else 3))%nat ->
  exists e, fst (add_routine ops eth node inputs outputs subcalls state) = Throw e.
Proof.
  intros Hlen. unfold add_routine.
  destruct eth; unfold decodeAddLiquidityETH, decodeAddLiquidity;
    unfold Js.bindM, Js.lift;
    (destruct (handleAddLiquidity subcalls) as [created | e]; [| eauto]);
    repeat (next_helper; [| eauto]).
  - destruct (_ <? _)%Z; [next_helper; [| eauto] |];
      rewrite at_index_past_end by (unfold len; destruct created; lia);
      cbn; eauto.
  - rewrite at_index_past_end by (unfold len; destruct created; lia).
    cbn. eauto.
Qed.

(** The theorem at [addLiquidity] with two sub-calls. *)
Lemma add_routine_needs_subcalls_witness :
  exists e,
    fst (add_routine Traces.lenient_ops false
                     (Traces.entry "0" "call" Traces.router "0xe8e33700")
                     [] None
                     [ Traces.entry "0.0" "call" Traces.USDC "0x23b872dd";
                       Traces.entry "0.1" "call" Traces.WETH "0x23b872dd" ]
                     Traces.empty_decode_state) = Throw e.
Proof.
  apply (add_routine_needs_subcalls
           Traces.lenient_ops false
           (Traces.entry "0" "call" Traces.router "0xe8e33700")
           [] None
           [ Traces.entry "0.0" "call" Traces.USDC "0x23b872dd";
             Traces.entry "0.1" "call" Traces.WETH "0x23b872dd" ]
           Traces.empty_decode_state).
  cbn. lia.
Defined.

(** X18. The pool is the destination of the mint call, and the mint call
    is found one place later when the first sub-call is the factory's
    [createPair]: a tuple that a routine returns has as its pool the [to]
    of sub-call 2 (3 for [addLiquidityETH]), or of sub-call 3 (4) after a
    [createPair]. *)
Theorem add_routine_pool_is_mint_destination (ops : HandleOps) (eth : bool)
        (node : TraceEntry) (inputs : Result) (outputs : option Result)
        (subcalls : list TraceEntry) (state : DecodeState) (t : LiquidityTuple) :
  fst (add_routine ops eth node inputs outputs subcalls state) = Ok t ->
  exists first mint,
    at_index subcalls 0 = Some first
    /\ at_index subcalls
         ((if selector_is (te_input first) createPair then 1 else 0)
          + (if eth then 3 else 2))%Z = Some mint
    /\ tuple_pool t = te_to mint.
Proof.
  unfold add_routine.
  destruct eth; unfold decodeAddLiquidityETH, decodeAddLiquidity;
    unfold handleAddLiquidity, Js.bindM, Js.lift, Js.bind;
    (destruct (at_index subcalls 0) as [first |]; [| discriminate]);
    cbn [defined];
    set (idx := if selector_is (te_input first) createPair then 1%Z else 0%Z);
    repeat (next_helper; [| discriminate]).
  - destruct (_ <? _)%Z; [next_helper; [| discriminate] |];
      (destruct (at_index subcalls (idx + 3)) as [mint |] eqn:Hm;
       [| discriminate]);
      (destruct outputs as [outs |]; [| discriminate]);
      cbn [defined Js.ret fst]; intros [= <-]; exists first, mint; auto.
  - destruct (at_index subcalls (idx + 2)) as [mint |] eqn:Hm; [| discriminate].
    destruct outputs as [outs |]; [| discriminate].
    cbn [defined Js.ret fst]. intros [= <-]. exists first, mint. auto.
Qed.

(** The theorem at [addLiquidity] on a pair that is created first. *)
Lemma add_routine_pool_is_mint_destination_witness :
  exists first mint,
    at_index Traces.add_liquidity_subcalls 0 = Some first
    /\ at_index Traces.add_liquidity_subcalls
         ((if selector_is (te_input first) createPair then 1 else 0) + 2)%Z
       = Some mint
    /\ tuple_pool (Traces.USDC_WETH_pair, Some Traces.USDC, Some Traces.WETH,
                   Some 1000%Z, Some 10%Z, Some 31%Z, Some Traces.trader)
       = te_to mint.
Proof.
  apply (add_routine_pool_is_mint_destination
           Traces.lenient_ops false
           (Traces.entry "0" "call" Traces.router "0xe8e33700")
           [ ("tokenA", VAddress Traces.USDC); ("tokenB", VAddress Traces.WETH);
             ("to", VAddress Traces.trader) ]
           (Some [ ("amountA", VUint 1000); ("amountB", VUint 10);
                   ("liquidity", VUint 31) ])
           Traces.add_liquidity_subcalls Traces.empty_decode_state).
  vm_compute. reflexivity.
Defined.

End AddLiquidityRoutines.

(* ===================================================================== *)
(** * Further properties of the remove-liquidity decoder *)
(* ===================================================================== *)

Section RemoveLiquidity.
Import Hex Ethers Types Props.
Import UniswapV2RouterRemoveLiquidityDecoder.

Lemma removeLiquiditySignatures_registered (f : FunctionFragment) :
  In f removeLiquiditySignatures -> In f registered.
Proof. intros H. unfold registered. apply in_or_app. right. apply in_or_app. now right. Qed.

Lemma table_signatures (ops : HandleOps) :
  map fst (addLiquidityFunctions ops) = removeLiquiditySignatures.
Proof. reflexivity. Qed.

(** A matching signature of the table is the entry that [find] returns. *)
Lemma remove_dispatch (ops : HandleOps) (input : string) (f : FunctionFragment)
      (routine : Routine) :
  In (f, routine) (addLiquidityFunctions ops) ->
  selector_is input f = true ->
  List.find (fun '(g, _) => selector_is input g) (addLiquidityFunctions ops)
  = Some (f, routine).
Proof.
  intros Hin Hsel.
  destruct (List.find _ _) as [[g routine'] |] eqn:Hfind.
  - apply find_some in Hfind as [Hin' Hsel'].
    assert (Hg : g = f).
    { apply selector_injective.
      - apply removeLiquiditySignatures_registered.
        rewrite <- (table_signatures ops). now apply (in_map fst) in Hin'.
      - apply removeLiquiditySignatures_registered.
        rewrite <- (table_signatures ops). now apply (in_map fst) in Hin.
      - unfold selector_is in Hsel, Hsel'.
        apply String.eqb_eq in Hsel, Hsel'. unfold selector. congruence. }
    subst g. f_equal.
    unfold addLiquidityFunctions in Hin, Hin'. cbn [In] in Hin, Hin'.
    destruct Hin as [Hin | [Hin | [Hin | [Hin | [Hin | [Hin | []]]]]]];
      injection Hin as <- <-;
      destruct Hin' as [Hin' | [Hin' | [Hin' | [Hin' | [Hin' | [Hin' | []]]]]]];
      first [ injection Hin' as <-; reflexivity
            | exfalso; injection Hin' as E _; discriminate E ].
  - apply (find_none _ _ Hfind) in Hin. cbn in Hin. congruence.
Qed.

(** [decode] once the guards are passed and the signature is found. *)
Lemma remove_decode_dispatched (ops : HandleOps) (node : TraceEntry)
      (state : DecodeState) (fragment : FunctionFragment) (routine : Routine) :
  isHandled state (te_path node) = false ->
  String.eqb (te_type node) "call" = true ->
  List.find (fun '(f, _) => selector_is (te_input node) f)
            (addLiquidityFunctions ops) = Some (fragment, routine) ->
  decode ops node state
  = let state0 := {| handled := <[te_path node:=true]> (handled state);
                     requestedMetadata := requestedMetadata state |} in
    match decodeFunctionWithFragment_entry node fragment with
    | Throw e => (Throw e, state0)
    | Ok (inputs, outputs) =>
        match routine node inputs outputs
                      (List.filter (is_variant "call") (te_children node)) state0 with
        | (Throw e, state1) => (Throw e, state1)
        | (Ok (pool, tokenA, tokenB, amountA, amountB, liquidity, to), state1) =>
            (requestTokenMetadata_entry ops tokenA ;;;
             requestTokenMetadata_entry ops tokenB ;;;
             requestTokenMetadata_entry ops (Some pool) ;;;
             ret (Some {| type := name;
                          actor := te_from node;
                          recipient := to;
                          pool := pool;
                          tokenA := tokenA;
                          tokenB := tokenB;
                          amountA := amountA;
                          amountB := amountB;
                          liquidity := liquidity |}))%st state1
        end
    end.
Proof.
  intros Hh Ht Hf. unfold decode. rewrite Hh, Ht, Hf. cbn [negb].
  unfold Js.bindM at 1. cbn [setHandled].
  unfold Js.bindM at 1, Js.lift at 1.
  destruct (decodeFunctionWithFragment_entry node fragment) as [[inputs outputs] | e];
    [| reflexivity].
  unfold Js.bindM at 1.
  destruct (routine node inputs outputs _ _) as [[t | e] state1]; [| reflexivity].
  destruct t as [[[[[[pool tokenA] tokenB] amountA] amountB] liquidity] to].
  reflexivity.
Qed.

(** X19. [decode] returns [null] exactly when the node's path is already
    handled, or the node is not a call, or its selector is none of the
    six; and then the state is untouched. *)
Theorem remove_decode_null (ops : HandleOps) (node : TraceEntry)
        (state : DecodeState) :
  (fst (decode ops node state) = Ok None
   <-> isHandled state (te_path node) = true
       \/ String.eqb (te_type node) "call" = false
       \/ List.find (fun '(f, _) => selector_is (te_input node) f)
                    (addLiquidityFunctions ops) = None)
  /\ (fst (decode ops node state) = Ok None -> snd (decode ops node state) = state).
Proof.
  destruct (isHandled state (te_path node)) eqn:Hh;
    [unfold decode; rewrite Hh; split; [split |]; auto |].
  destruct (String.eqb (te_type node) "call") eqn:Ht;
    [| unfold decode; rewrite Hh, Ht; split; [split |]; auto].
  destruct (List.find (fun '(f, _) => selector_is (te_input node) f)
                      (addLiquidityFunctions ops)) as [[fragment routine] |] eqn:Hf;
    [| unfold decode; rewrite Hh, Ht, Hf; split; [split |]; auto].
  assert (Hno : fst (decode ops node state) <> Ok None).
  { rewrite (remove_decode_dispatched ops node state fragment routine Hh Ht Hf).
    cbv zeta.
    destruct (decodeFunctionWithFragment_entry node fragment)
      as [[inputs outputs] | e]; [| discriminate].
    destruct (routine node inputs outputs _ _) as [[t | e] state1]; [| discriminate].
    destruct t as [[[[[[pool tokenA] tokenB] amountA] amountB] liquidity] to].
    unfold Js.bindM.
    destruct (requestTokenMetadata_entry ops tokenA state1) as [[[] | e] s1];
      [| discriminate].
    destruct (requestTokenMetadata_entry ops tokenB s1) as [[[] | e] s2];
      [| discriminate].
    destruct (requestTokenMetadata_entry ops (Some pool) s2) as [[[] | e] s3];
      discriminate. }
  split; [split |].
  - intros H. now apply Hno in H.
  - intros [H | [H | H]]; discriminate.
  - intros H. now apply Hno in H.
Qed.

(** A returned record: the routine that made it. *)
Lemma remove_decode_returns (ops : HandleOps) (node : TraceEntry)
      (state : DecodeState) (r : UniswapV2RouterRemoveLiquidityResult) :
  fst (decode ops node state) = Ok (Some r) ->
  exists fragment routine inputs outputs state0 state1 t,
    List.find (fun '(f, _) => selector_is (te_input node) f)
              (addLiquidityFunctions ops) = Some (fragment, routine)
    /\ routine node inputs outputs
               (List.filter (is_variant "call") (te_children node)) state0
       = (Ok t, state1)
    /\ r = (let '(pool, tokenA, tokenB, amountA, amountB, liquidity, to) := t in
            {| type := name;
               actor := te_from node;
               recipient := to;
               pool := pool;
               tokenA := tokenA;
               tokenB := tokenB;
               amountA := amountA;
               amountB := amountB;
               liquidity := liquidity |}).
Proof.
  destruct (isHandled state (te_path node)) eqn:Hh;
    [unfold decode; rewrite Hh; discriminate |].
  destruct (String.eqb (te_type node) "call") eqn:Ht;
    [| unfold decode; rewrite Hh, Ht; discriminate].
  destruct (List.find (fun '(f, _) => selector_is (te_input node) f)
                      (addLiquidityFunctions ops)) as [[fragment routine] |] eqn:Hf;
    [| unfold decode; rewrite Hh, Ht, Hf; discriminate].
  rewrite (remove_decode_dispatched ops node state fragment routine Hh Ht Hf).
  cbv zeta.
  destruct (decodeFunctionWithFragment_entry node fragment)
    as [[inputs outputs] | e]; [| discriminate].
  destruct (routine node inputs outputs _ _) as [[t | e] state1] eqn:Hr;
    [| discriminate].
  destruct t as [[[[[[pool tokenA] tokenB] amountA] amountB] liquidity] to].
  unfold Js.bindM.
  destruct (requestTokenMetadata_entry ops tokenA state1) as [[[] | e] s1];
    [| discriminate].
  destruct (requestTokenMetadata_entry ops tokenB s1) as [[[] | e] s2];
    [| discriminate].
  destruct (requestTokenMetadata_entry ops (Some pool) s2) as [[[] | e] s3];
    [| discriminate].
  cbn [Js.ret fst]. intros [= <-].
  do 7 eexists. split; [reflexivity |]. split; [exact Hr | reflexivity].
Qed.

(** Every routine takes the pool from the first sub-call. *)
Lemma routine_pool (ops : HandleOps) (fragment : FunctionFragment)
      (routine : Routine) (node : TraceEntry) (inputs : Result)
      (outputs : option Result) (subcalls : list TraceEntry)
      (s s' : DecodeState) (t : LiquidityTuple) :
  In (fragment, routine) (addLiquidityFunctions ops) ->
  routine node inputs outputs subcalls s = (Ok t, s') ->
  exists first, at_index subcalls 0 = Some first /\ tuple_pool t = te_to first.
Proof.
  intros Hin.
  destruct Hin as [Hin | [Hin | [Hin | [Hin | [Hin | [Hin | []]]]]]];
    injection Hin as _ <-; unfold_routines;
    repeat (next_helper; [| discriminate]);
    repeat next_read;
    intros H; inversion H; subst; clear H;
    eexists; (split; reflexivity).
Qed.

(** X20. A record that [decode] returns has as its pool the destination of
    the first nested call of variant [call], whichever of the six
    signatures matched (for the permit variants that call is the permit);
    its actor is the caller of the node. *)
Theorem remove_record_pool_is_first_subcall (ops : HandleOps) (node : TraceEntry)
        (state : DecodeState) (r : UniswapV2RouterRemoveLiquidityResult) :
  fst (decode ops node state) = Ok (Some r) ->
  exists first,
    at_index (List.filter (is_variant "call") (te_children node)) 0 = Some first
    /\ pool r = te_to first
    /\ actor r = te_from node
    /\ type r = name.
Proof.
  intros (fragment & routine & inputs & outputs & state0 & state1 & t
          & Hfind & Hr & ->)%remove_decode_returns.
  apply find_some in Hfind as [Hin _].
  destruct (routine_pool ops fragment routine node inputs outputs _ state0 state1 t
                         Hin Hr) as (first & Hfirst & Hpool).
  exists first. split; [exact Hfirst |].
  destruct t as [[[[[[pool tokenA] tokenB] amountA] amountB] liquidity] to].
  cbn in *. auto.
Qed.

(** The theorem at the removal with fee-on-transfer support. *)
Lemma remove_record_pool_is_first_subcall_witness :
  exists first,
    at_index (List.filter (is_variant "call")
                          (te_children Traces.fee_on_transfer_removal)) 0
    = Some first
    /\ pool Traces.fee_on_transfer_removal_record = te_to first
    /\ actor Traces.fee_on_transfer_removal_record
       = te_from Traces.fee_on_transfer_removal
    /\ type Traces.fee_on_transfer_removal_record = name.
Proof.
  apply (remove_record_pool_is_first_subcall
           Traces.lenient_ops Traces.fee_on_transfer_removal
           Traces.empty_decode_state Traces.fee_on_transfer_removal_record).
  vm_compute. reflexivity.
Defined.

(** Each routine raises when the sub-calls it reads from are not all
    there. *)
Lemma routine_raises (ops : HandleOps) (f : FunctionFragment) (routine : Routine)
      (n : nat) (node : TraceEntry) (inputs : Result) (outputs : option Result)
      (subcalls : list TraceEntry) (s : DecodeState) :
  In (f, routine) (addLiquidityFunctions ops) -> In (f, n) subcalls_read ->
  (length subcalls < n)%nat ->
  exists e, fst (routine node inputs outputs subcalls s) = Throw e.
Proof.
  intros Hin Hn.
  destruct Hin as [Hin | [Hin | [Hin | [Hin | [Hin | [Hin | []]]]]]];
    injection Hin as <- <-;
    (destruct Hn as [Hn | [Hn | [Hn | [Hn | [Hn | [Hn | []]]]]]];
     first [ exfalso; injection Hn as E _; discriminate E | injection Hn as <- ]);
    intros Hlen; unfold_routines;
    repeat (next_helper; [| eauto]);
    match goal with
    | |- context [at_index subcalls ?i] =>
        rewrite (at_index_past_end subcalls i) by (unfold len; lia)
    end;
    cbn; eauto.
Qed.

(** X21. For each of the six signatures, a call node not yet handled with
    fewer nested calls of variant [call] than its routine reads from (one
    for [removeLiquidity] and its permit variant, five for the three that
    pay out the native currency, six for those of them that take a permit)
    gives no record: [decode] raises, whatever the helpers do. *)
Theorem remove_decode_needs_subcalls (ops : HandleOps) (node : TraceEntry)
        (state : DecodeState) (f : FunctionFragment) (n : nat) :
  In (f, n) subcalls_read ->
  isHandled state (te_path node) = false ->
  te_type node = "call" ->
  selector_is (te_input node) f = true ->
  (length (List.filter (is_variant "call") (te_children node)) < n)%nat ->
  exists e, fst (decode ops node state) = Throw e.
Proof.
  intros Hn Hh Ht Hsel Hlen.
  assert (Hin : exists routine, In (f, routine) (addLiquidityFunctions ops)).
  { destruct Hn as [Hn | [Hn | [Hn | [Hn | [Hn | [Hn | []]]]]]];
      injection Hn as <- _; eexists; unfold addLiquidityFunctions; cbn [In];
      eauto 10. }
  destruct Hin as (routine & Hin).
  assert (Ht' : String.eqb (te_type node) "call" = true)
    by now apply String.eqb_eq.
  rewrite (remove_decode_dispatched ops node state f routine Hh Ht'
             (remove_dispatch ops _ f routine Hin Hsel)).
  cbv zeta.
  destruct (decodeFunctionWithFragment_entry node f) as [[inputs outputs] | e];
    [| eauto].
  destruct (routine_raises ops f routine n node inputs outputs _
              {| handled := <[te_path node:=true]> (handled state);
                 requestedMetadata := requestedMetadata state |} Hin Hn Hlen)
    as (e & He).
  destruct (routine node inputs outputs _ _) as [[t | e'] state1];
    [discriminate | eauto].
Qed.

(** The theorem at [removeLiquidityETHWithPermit] with the five sub-calls
    that suffice without a permit. *)
Lemma remove_decode_needs_subcalls_witness :
  exists e,
    fst (decode Traces.lenient_ops
                (Traces.remove_liquidity_eth_with_permit
                   (Traces.four_subcalls ++ [Traces.eth_return]))
                Traces.empty_decode_state) = Throw e.
Proof.
  apply (remove_decode_needs_subcalls
           Traces.lenient_ops
           (Traces.remove_liquidity_eth_with_permit
              (Traces.four_subcalls ++ [Traces.eth_return]))
           Traces.empty_decode_state
           removeLiquidityETHWithPermit 6%nat).
  - do 3 right. left. reflexivity.
  - reflexivity.
  - reflexivity.
  - vm_compute. reflexivity.
  - cbn. lia.
Defined.

(** X22. With fee-on-transfer support the token amount is not taken from
    the return data: in a record that [decode] returns for one of the two
    signatures, [amountA] is the output of the last nested call of variant
    [staticcall]. *)
Theorem remove_fee_on_transfer_amount_is_last_staticcall
        (ops : HandleOps) (node : TraceEntry) (state : DecodeState)
        (r : UniswapV2RouterRemoveLiquidityResult) (f : FunctionFragment)
        (front : list TraceEntry) (last : TraceEntry) :
  fst (decode ops node state) = Ok (Some r) ->
  In f [ removeLiquidityETHSupportingFeeOnTransferTokens;
         removeLiquidityETHWithPermitSupportingFeeOnTransferTokens ] ->
  selector_is (te_input node) f = true ->
  List.filter (is_variant "staticcall") (te_children node) = front ++ [last] ->
  exists output,
    BigNumber_from_hex (te_output last) = Ok output /\ amountA r = Some output.
Proof.
  intros (fragment & routine & inputs & outputs & state0 & state1 & t
          & Hfind & Hr & ->)%remove_decode_returns Hf Hsel Hstatic.
  assert (Hin : exists start, In (f, decodeFeeOnTransfer ops start)
                                 (addLiquidityFunctions ops)).
  { destruct Hf as [<- | [<- | []]]; eexists; unfold addLiquidityFunctions;
      cbn [In]; [do 4 right; left | do 5 right; left]; reflexivity. }
  destruct Hin as (start & Hin).
  rewrite (remove_dispatch ops _ f _ Hin Hsel) in Hfind.
  injection Hfind as <- <-. revert Hr.
  unfold decodeFeeOnTransfer, handleRemoveLiquidity, handleEthReturn,
    Js.bindM, Js.lift, Js.ret.
  repeat (next_helper; [| discriminate]).
  rewrite Hstatic, at_index_last.
  destruct (at_index _ (start + 2 + 2)); cbn [Js.defined setHandled];
    [| discriminate].
  destruct (BigNumber_from_hex (te_output last)) as [output |]; [| discriminate].
  destruct (at_index _ 0); cbn [Js.defined]; [| discriminate].
  destruct outputs; cbn [Js.defined]; [| discriminate].
  intros [= <- _]. exists output. split; reflexivity.
Qed.

(** The theorem at the removal with fee-on-transfer support: the return
    data holds the amount of the native currency only, the token amount is
    the balance read after the burn. *)
Lemma remove_fee_on_transfer_amount_is_last_staticcall_witness :
  exists output,
    BigNumber_from_hex (Some (hexlify (Traces.word 995))) = Ok output
    /\ amountA Traces.fee_on_transfer_removal_record = Some output.
Proof.
  apply (remove_fee_on_transfer_amount_is_last_staticcall
           Traces.lenient_ops Traces.fee_on_transfer_removal
           Traces.empty_decode_state Traces.fee_on_transfer_removal_record
           removeLiquidityETHSupportingFeeOnTransferTokens
           []
           {| te_path := "0.2"; te_type := "call"; te_variant := "staticcall";
              te_from := Traces.router; te_to := Traces.USDC;
              te_input := "0x70a08231";
              te_output := Some (hexlify (Traces.word 995));
              te_children := [] |}).
  - vm_compute. reflexivity.
  - left. reflexivity.
  - vm_compute. reflexivity.
  - reflexivity.
Defined.

End RemoveLiquidity.

(* ===================================================================== *)
(** * What is handed to the renderer *)
(* ===================================================================== *)

Section SwapFormat.
Import Hex Ethers Types Props.
Import UniswapV2RouterSwapDecoder UniswapV2RouterSwapDecoder_format.

(** X23. The rows of a swap: [format] keeps its keys and its values in
    step, shows between two and four rows, always the recipient and the
    operator, and never an amount together with its bound. *)
Theorem swap_format_rows (result : SwapAction) :
  let shown := format result in
  let row key := Rendering.row key (Rendering.keys shown) (Rendering.values shown) in
  length (Rendering.keys shown) = length (Rendering.values shown)
  /\ (2 <= length (Rendering.keys shown) <= 4)%nat
  /\ row "recipient" = Some (Rendering.AddressData (recipient result))
  /\ row "actor" = Some (Rendering.AddressData (Some (operator result)))
  /\ row "tokenIn"
     = option_map (fun a => Rendering.TokenAmount (tokenIn result) (Some a))
                  (amountIn result)
  /\ row "amountOut"
     = option_map (fun a => Rendering.TokenAmount (tokenOut result) (Some a))
                  (amountOut result)
  /\ (row "tokenIn" = None \/ row "tokenInMax" = None)
  /\ (row "amountOut" = None \/ row "amountOutMin" = None).
Proof.
  unfold format.
  destruct (amountIn result), (amountInMax result), (amountOut result),
    (amountOutMin result); cbn; repeat split; auto; lia.
Qed.

End SwapFormat.

(* ===================================================================== *)
(** * The data renderer *)
(* ===================================================================== *)

Section Renderer.
Import Hex Ethers Props.
Import DataRenderer.

Lemma length_append (a b : string) :
  String.length (a +:+ b) = (String.length a + String.length b)%nat.
Proof.
  induction a as [| c a IH]; [reflexivity |].
  change (String c a +:+ b) with (String c (a +:+ b)).
  cbn [String.length]. now rewrite IH.
Qed.

Lemma length_substring (s : string) (n m : nat) :
  String.length (String.substring n m s) = Nat.min m (String.length s - n).
Proof.
  revert n m. induction s as [| c s IH]; intros [| n] [| m]; cbn; auto;
    rewrite IH; try rewrite Nat.sub_0_r; reflexivity.
Qed.

Lemma substring_whole (s : string) :
  String.substring 0 (String.length s) s = s.
Proof. induction s as [| c s IH]; cbn; [reflexivity | now rewrite IH]. Qed.

Lemma substring_0_append (a b : string) :
  String.substring 0 (String.length a) (a +:+ b) = a.
Proof.
  induction a as [| c a IH]; [destruct b; reflexivity |].
  change (String c a +:+ b) with (String c (a +:+ b)). cbn. now rewrite IH.
Qed.

Lemma substring_skip_append (a b : string) (n m : nat) :
  String.substring (String.length a + n) m (a +:+ b) = String.substring n m b.
Proof.
  induction a as [| c a IH]; [reflexivity |].
  change (String c a +:+ b) with (String c (a +:+ b)). cbn. exact IH.
Qed.

(** X24. Truncation: for a type other than [address], with [truncate]
    set, the text shown is the value itself when it has at most 96
    characters, and otherwise its first eight characters, three dots and
    its last eight characters, 19 characters in all. *)
Theorem formatValue_truncates (baseType blockexplorerUrl value : string)
        (makeLink : bool) (labels : option (gmap string string)) :
  String.eqb baseType "address" = false ->
  exists text,
    formatValueWithParamType baseType blockexplorerUrl value true makeLink labels
    = Fragment (Plain text)
    /\ (String.length value <= 96 -> text = value)%nat
    /\ (96 < String.length value ->
        String.length text = 19
        /\ String.substring 0 8 text = String.substring 0 8 value
        /\ String.substring 8 3 text = "..."
        /\ substring_from 11 text
           = substring_from (String.length value - 8) value)%nat.
Proof.
  intros Hb. unfold formatValueWithParamType. rewrite Hb.
  eexists. split; [reflexivity |].
  destruct (Nat.ltb_spec 96 (String.length value)) as [Hlong | Hshort];
    cbn [andb]; split; try lia; [| reflexivity].
  intros _.
  set (front := String.substring 0 8 value).
  set (back := substring_from (String.length value - 8) value).
  assert (Hf : String.length front = 8%nat).
  { unfold front. rewrite length_substring. lia. }
  assert (Hk : String.length back = 8%nat).
  { unfold back, substring_from. rewrite length_substring. lia. }
  clearbody front back.
  assert (Hlen : String.length (front +:+ "..." +:+ back) = 19%nat).
  { rewrite !length_append, Hf, Hk. reflexivity. }
  split; [exact Hlen |]. split; [| split].
  - rewrite <- Hf at 1. apply substring_0_append.
  - change 8%nat with (8 + 0)%nat. rewrite <- Hf at 1.
    rewrite substring_skip_append.
    change ("..." +:+ back) with (String "." (String "." (String "." back))).
    destruct back; reflexivity.
  - unfold substring_from. rewrite Hlen.
    change 11%nat with (8 + 3)%nat at 1. rewrite <- Hf at 1.
    rewrite substring_skip_append.
    change ("..." +:+ back) with (String "." (String "." (String "." back))).
    cbn [String.substring Nat.sub]. rewrite <- Hk. apply substring_whole.
Qed.

(** The theorem at a value of a hundred characters. *)
Lemma formatValue_truncates_witness :
  exists text,
    formatValueWithParamType
      "bytes" "https://etherscan.io"
      (string_of_list_ascii (repeat "a"%char 100)) true false None
    = Fragment (Plain text)
    /\ (String.length (string_of_list_ascii (repeat "a"%char 100)) <= 96 ->
        text = string_of_list_ascii (repeat "a"%char 100))%nat
    /\ (96 < String.length (string_of_list_ascii (repeat "a"%char 100)) ->
        String.length text = 19
        /\ String.substring 0 8 text
           = String.substring 0 8 (string_of_list_ascii (repeat "a"%char 100))
        /\ String.substring 8 3 text = "..."
        /\ substring_from 11 text
           = substring_from
               (String.length (string_of_list_ascii (repeat "a"%char 100)) - 8)
               (string_of_list_ascii (repeat "a"%char 100)))%nat.
Proof.
  apply (formatValue_truncates
           "bytes" "https://etherscan.io"
           (string_of_list_ascii (repeat "a"%char 100)) false None).
  reflexivity.
Defined.

Lemma toLowerCase_idem (s : string) : toLowerCase (toLowerCase s) = toLowerCase s.
Proof.
  unfold toLowerCase. induction s as [| c s IH]; cbn; [reflexivity |].
  now rewrite lower_char_idem, IH.
Qed.

(** X25. Labels are looked up under the address in lower case, so a label
    stored under a key that is not in lower case (a checksummed address,
    say) is never shown: with a table that has only such keys, every value
    is rendered as with an empty table, and as with no table at all unless
    its lower-case form names a property that a plain object inherits. *)
Theorem labels_under_mixed_case_keys_are_not_shown
        (blockexplorerUrl value : string) (truncate makeLink : bool)
        (labels : gmap string string) :
  (forall key label, labels !! key = Some label -> toLowerCase key <> key) ->
  formatValueWithParamType "address" blockexplorerUrl value truncate makeLink
                           (Some labels)
  = formatValueWithParamType "address" blockexplorerUrl value truncate makeLink
                             (Some ∅)
  /\ (PlainObject.inherited (toLowerCase value) = false ->
      formatValueWithParamType "address" blockexplorerUrl value truncate makeLink
                               (Some labels)
      = formatValueWithParamType "address" blockexplorerUrl value truncate
                                 makeLink None).
Proof.
  intros Hkeys. unfold formatValueWithParamType, label_of.
  rewrite lookup_empty.
  destruct (labels !! toLowerCase value) as [label |] eqn:Hl.
  - exfalso. apply (Hkeys _ _ Hl). apply toLowerCase_idem.
  - split; [reflexivity |]. now intros ->.
Qed.

(** The theorem at a table that labels USDC under its checksummed
    address. *)
Lemma labels_under_mixed_case_keys_are_not_shown_witness :
  formatValueWithParamType "address" "https://etherscan.io" Traces.USDC false true
                           (Some {[ Traces.USDC := "USD Coin" ]})
  = formatValueWithParamType "address" "https://etherscan.io" Traces.USDC false
                             true (Some ∅)
  /\ (PlainObject.inherited (toLowerCase Traces.USDC) = false ->
      formatValueWithParamType "address" "https://etherscan.io" Traces.USDC false
                               true (Some {[ Traces.USDC := "USD Coin" ]})
      = formatValueWithParamType "address" "https://etherscan.io" Traces.USDC
                                 false true None).
Proof.
  apply (labels_under_mixed_case_keys_are_not_shown
           "https://etherscan.io" Traces.USDC false true
           {[ Traces.USDC := "USD Coin" ]}).
  intros key label [<- _]%lookup_singleton_Some. vm_compute. discriminate.
Defined.

Lemma length_zeros (k : nat) :
  String.length (string_of_list_ascii (repeat "0"%char k)) = k.
Proof. induction k as [| k IH]; cbn; [reflexivity | now rewrite IH]. Qed.

Lemma normalize_nonempty (data : string) :
  data <> "" ->
  normalize data
  = "0x" +:+ padStart 64 (if has_0x data then substring_from 2 data else data).
Proof. destruct data; [congruence | reflexivity]. Qed.

Lemma normalize_shape (data : string) :
  data <> "" ->
  exists digits,
    normalize data = String "0" (String "x" digits)
    /\ (64 <= String.length digits)%nat.
Proof.
  intros Hne. rewrite (normalize_nonempty data Hne).
  eexists. split; [reflexivity |].
  unfold padStart. rewrite length_append, length_zeros. lia.
Qed.

(** X26. The first block of [DataRenderer] leaves the empty string as it
    is and gives, for any other data, a string that starts with [0x] and
    holds at least 64 characters after it; doing it again changes
    nothing. *)
Theorem normalize_idempotent (data : string) :
  normalize "" = ""
  /\ normalize (normalize data) = normalize data
  /\ (data <> "" ->
      has_0x (normalize data) = true
      /\ (66 <= String.length (normalize data))%nat).
Proof.
  split; [reflexivity |].
  destruct data as [| c data]; [split; [reflexivity | congruence] |].
  destruct (normalize_shape (String c data)) as (digits & E & Hlen);
    [discriminate |].
  rewrite E. split.
  - rewrite normalize_nonempty by discriminate.
    cbn [has_0x]. unfold substring_from.
    cbn [String.length Nat.sub String.substring].
    rewrite Nat.sub_0_r, substring_whole. unfold padStart.
    replace (64 - String.length digits)%nat with 0%nat by lia. reflexivity.
  - intros _. split; [reflexivity | cbn; lia].
Qed.

(** The theorem at the digits [1f]. *)
Lemma normalize_idempotent_witness :
  has_0x (normalize "1f") = true
  /\ (66 <= String.length (normalize "1f"))%nat.
Proof.
  apply (normalize_idempotent "1f"). discriminate.
Defined.

Lemma list_ascii_of_string_append (a b : string) :
  list_ascii_of_string (a +:+ b) = list_ascii_of_string a ++ list_ascii_of_string b.
Proof.
  induction a as [| c a IH]; [reflexivity |].
  change (String c a +:+ b) with (String c (a +:+ b)). cbn. now rewrite IH.
Qed.

Lemma hex_value_zeros (k : nat) (cs : list ascii) :
  hex_value 0 (repeat "0"%char k ++ cs) = hex_value 0 cs.
Proof. induction k as [| k IH]; [reflexivity | exact IH]. Qed.

(** Hex digits do not start with [0x]. *)
Lemma hex_digits_no_prefix (s : string) (v : Z) :
  hex_value 0 (list_ascii_of_string s) = Some v -> has_0x s = false.
Proof.
  destruct s as [| c1 [| c2 r]]; [reflexivity | |].
  - intros _. destruct c1 as [[] [] [] [] [] [] [] []]; reflexivity.
  - intros H. destruct (has_0x (String c1 (String c2 r))) eqn:E; [| reflexivity].
    exfalso.
    destruct c1 as [[] [] [] [] [] [] [] []]; try discriminate E.
    destruct c2 as [[] [] [] [] [] [] [] []]; try discriminate E.
    discriminate H.
Qed.

(** X27. Padding keeps the number: for a non-empty string of hex digits,
    with or without the prefix [0x], the first block of [DataRenderer]
    gives a string that [BigNumber.from] reads as the same number. *)
Theorem normalize_preserves_value (s : string) (v : Z) :
  s <> "" ->
  hex_value 0 (list_ascii_of_string s) = Some v ->
  BigNumber_from_hex (Some (normalize s)) = Ok v
  /\ normalize ("0x" +:+ s) = normalize s.
Proof.
  intros Hne Hv. split.
  - rewrite (normalize_nonempty s Hne), (hex_digits_no_prefix s v Hv).
    change ("0x" +:+ padStart 64 s) with (String "0" (String "x" (padStart 64 s))).
    cbn [BigNumber_from_hex].
    remember (list_ascii_of_string (padStart 64 s)) as cs eqn:E.
    assert (Es : cs = repeat "0"%char (64 - String.length s)
                      ++ list_ascii_of_string s).
    { subst cs. unfold padStart.
      now rewrite list_ascii_of_string_append, list_ascii_of_string_of_list_ascii. }
    assert (Hcs : hex_value 0 cs = Some v)
      by (rewrite Es, hex_value_zeros; exact Hv).
    assert (Hnil : cs <> []).
    { rewrite Es. intros [_ N]%app_eq_nil. destruct s; [congruence | discriminate N]. }
    clear E Es. destruct cs as [| c cs]; [congruence |].
    rewrite Hcs. f_equal. lia.
  - rewrite (normalize_nonempty s Hne).
    change ("0x" +:+ s) with (String "0" (String "x" s)).
    rewrite normalize_nonempty by discriminate.
    cbn [has_0x]. unfold substring_from.
    cbn [String.length Nat.sub String.substring].
    rewrite Nat.sub_0_r, substring_whole.
    now rewrite (hex_digits_no_prefix s v Hv).
Qed.

(** The theorem at the digits [1f]. *)
Lemma normalize_preserves_value_witness :
  BigNumber_from_hex (Some (normalize "1f")) = Ok 31%Z
  /\ normalize ("0x" +:+ "1f") = normalize "1f".
Proof.
  apply (normalize_preserves_value "1f" 31%Z).
  - discriminate.
  - reflexivity.
Defined.

(** The parity that the block for [stringHeader] computes from the last
    two characters, checked on every pair of hex digits. *)
Lemma lowestBit_table :
  forallb
    (fun c1 =>
       forallb
         (fun c2 =>
            Z.eqb (match parseInt (String c1 (String c2 "")) with
                   | Some n => Z.land n 1
                   | None => 0%Z
                   end)
                  (if is_decimal c1
                   then if is_decimal c2 then digit_parity c2 else digit_parity c1
                   else 0%Z))
         hex_chars)
    hex_chars = true.
Proof. vm_compute. reflexivity. Qed.

(** For data that ends in the hex digits [c1 c2] the bit is the parity of
    [c2] when both are decimal digits, the parity of [c1] when only [c1]
    is, and zero when [c1] is a letter. *)
Lemma lowestBit_decimal (body : string) (c1 c2 : ascii) :
  In c1 hex_chars -> In c2 hex_chars ->
  lowestBit (body +:+ String c1 (String c2 ""))
  = (if is_decimal c1
     then if is_decimal c2 then digit_parity c2 else digit_parity c1
     else 0%Z).
Proof.
  intros H1 H2. unfold lowestBit, substring_from.
  rewrite length_append. cbn [String.length].
  replace (String.length body + 2 - 2)%nat with (String.length body + 0)%nat by lia.
  replace (String.length body + 2 - (String.length body + 0))%nat with 2%nat by lia.
  rewrite substring_skip_append. cbn [String.substring].
  pose proof lowestBit_table as T.
  rewrite forallb_forall in T. specialize (T c1 H1).
  rewrite forallb_forall in T. specialize (T c2 H2).
  now apply Z.eqb_eq in T.
Qed.

(** X28. The block for [stringHeader] reads the lowest bit in base ten:
    [parseInt] without a radix stops at the first character that is not a
    decimal digit.  For data of value [value] that ends in the hex digits
    [c1 c2]: zero is shown as the length 0; otherwise the data is shown as
    the length [value - 1] when the decimal digits read from [c1 c2] make
    an odd number, and as text, its last two characters replaced by [00],
    when they make an even number or [c1] is a letter. *)
Theorem stringHeader_reads_decimal (body : string) (c1 c2 : ascii) (value : Z) :
  In c1 hex_chars -> In c2 hex_chars ->
  BigNumber_from_hex (Some (body +:+ String c1 (String c2 ""))) = Ok value ->
  stringHeader (body +:+ String c1 (String c2 ""))
  = Ok (if (value =? 0)%Z then HeaderLength 0
        else if is_decimal c1
                && Z.odd (if is_decimal c2 then digit_parity c2
                          else digit_parity c1)
             then HeaderLength (value - 1)
             else HeaderAscii (body +:+ "00")).
Proof.
  intros H1 H2 Hv. unfold stringHeader. rewrite Hv. cbn [Js.bind].
  destruct (value =? 0)%Z; [reflexivity |].
  rewrite (lowestBit_decimal body c1 c2 H1 H2), length_append.
  cbn [String.length].
  replace (String.length body + 2 - 2)%nat with (String.length body) by lia.
  rewrite substring_0_append.
  destruct (is_decimal c1); [| reflexivity].
  unfold digit_parity.
  destruct (is_decimal c2); cbn [andb];
    match goal with
    | |- context [(?n mod 2)%Z] =>
        rewrite (Zmod_odd n); destruct (Z.odd n); reflexivity
    end.
Qed.

(** The theorem at data that ends in [a1]: the byte is odd, and the
    header is taken for text. *)
Lemma stringHeader_reads_decimal_witness :
  stringHeader ("0x00" +:+ String "a" (String "1" ""))
  = Ok (if (161 =? 0)%Z then HeaderLength 0
        else if is_decimal "a"
                && Z.odd (if is_decimal "1" then digit_parity "1"
                          else digit_parity "a")
             then HeaderLength (161 - 1)
             else HeaderAscii ("0x00" +:+ "00")).
Proof.
  apply (stringHeader_reads_decimal "0x00" "a"%char "1"%char 161%Z).
  - vm_compute. tauto.
  - vm_compute. tauto.
  - reflexivity.
Defined.











End Renderer.
